(** * Weather station ingestion server: a shallow embedding of
      [esp_server.py] and the properties of its ingestion and
      maintenance pipeline.

    The file follows the layout of the Python module:
    - [Py]: the fragment of the Python runtime the server relies on
      (strings, JSON values, truthiness, [str], [float], [dict.get]);
    - [Sqlite]: the [readings] table and the connection operations used;
    - [EspServer]: configuration, [to_float], [resolve_zone], [do_POST];
    - the properties, one section per component of the pipeline. *)

From Stdlib Require Import ZArith Bool List Ascii String Lia.
From Stdlib Require Import DecimalString SpecFloat.
From Stdlib Require DecimalFacts DecimalPos DecimalN.
Import ListNotations.

Set Warnings "-register-all".

Local Open Scope string_scope.
Local Open Scope Z_scope.

(** ** Exceptions and the error monad *)

Inductive pyexc := ValueError | AttributeError | OverflowError | JSONDecodeError.

Inductive result (A : Type) :=
| Ok (a : A)
| Raise (e : pyexc).
Arguments Ok {A} a.
Arguments Raise {A} e.

Definition bind {A B} (m : result A) (k : A -> result B) : result B :=
  match m with
  | Ok a => k a
  | Raise e => Raise e
  end.

Notation "x <- m ;; k" := (bind m (fun x => k))
  (at level 61, m at next level, right associativity).

(** ** Python strings

    A Python [str] is modelled by a Rocq [string] whose characters are the
    code points 0..255. *)
Module PyString.

Definition code (c : ascii) : Z := Z.of_nat (nat_of_ascii c).

Definition chr (z : Z) : ascii := ascii_of_nat (Z.to_nat z).

Definition in_range (lo hi : Z) (c : ascii) : bool :=
  (lo <=? code c) && (code c <=? hi).

(** [str.isspace] on one character: TAB..CR, FS..US, SPACE, NEL, NBSP. *)
Definition isspace (c : ascii) : bool :=
  in_range 9 13 c || in_range 28 32 c || (code c =? 133) || (code c =? 160).

Definition isdigit (c : ascii) : bool := in_range 48 57 c.

(** [str.lower] on one character. *)
Definition lower_char (c : ascii) : ascii :=
  if in_range 65 90 c then chr (code c + 32)
  else if in_range 192 222 c && negb (code c =? 215) then chr (code c + 32)
  else c.

Fixpoint lower (s : string) : string :=
  match s with
  | EmptyString => EmptyString
  | String c s' => String (lower_char c) (lower s')
  end.

Fixpoint lstrip_by (sp : ascii -> bool) (s : string) : string :=
  match s with
  | EmptyString => EmptyString
  | String c s' => if sp c then lstrip_by sp s' else s
  end.

Fixpoint rstrip_by (sp : ascii -> bool) (s : string) : string :=
  match s with
  | EmptyString => EmptyString
  | String c s' =>
      match rstrip_by sp s' with
      | EmptyString => if sp c then EmptyString else String c EmptyString
      | r => String c r
      end
  end.

Definition strip_by (sp : ascii -> bool) (s : string) : string :=
  rstrip_by sp (lstrip_by sp s).

(** [str.strip()] *)
Definition strip (s : string) : string := strip_by isspace s.

(** Truth value of a string: [bool(s)]. *)
Definition nonempty (s : string) : bool :=
  match s with
  | EmptyString => false
  | String _ _ => true
  end.

Fixpoint repeat (c : ascii) (n : nat) : string :=
  match n with
  | O => EmptyString
  | S n' => String c (repeat c n')
  end.

Fixpoint take (n : nat) (s : string) : string :=
  match n, s with
  | S n', String c s' => String c (take n' s')
  | _, _ => EmptyString
  end.

Fixpoint drop (n : nat) (s : string) : string :=
  match n, s with
  | S n', String _ s' => drop n' s'
  | _, _ => s
  end.

Fixpoint contains (c : ascii) (s : string) : bool :=
  match s with
  | EmptyString => false
  | String d s' => Ascii.eqb c d || contains c s'
  end.

(** Decimal rendering of an integer, as [str(int)] gives it. *)
Definition of_Z (z : Z) : string := NilZero.string_of_int (Z.to_int z).

End PyString.

(** ** Python floats

    A Python [float] is an IEEE-754 binary64 number: [spec_float] at
    precision 53 and maximal exponent 1024. *)
Module PyFloat.
Import PyString.

Definition float := spec_float.

Definition prec : Z := 53.
Definition emax : Z := 1024.

Definition inf : float := S754_infinity false.
Definition nan : float := S754_nan.

(** [math.isfinite] *)
Definition isfinite (f : float) : bool :=
  match f with
  | S754_zero _ | S754_finite _ _ _ => true
  | S754_infinity _ | S754_nan => false
  end.

(** [bool(f)]: only the two zeros are false. *)
Definition truthy (f : float) : bool :=
  match f with
  | S754_zero _ => false
  | _ => true
  end.

Definition eqb (f g : float) : bool := SFeqb f g.

(** Round-to-nearest-even of [(-1)^s * m * 2^e]. *)
Definition round (s : bool) (m e : Z) : float :=
  match m with
  | Zpos p => binary_round prec emax s p e
  | _ => S754_zero s
  end.

Definition of_Z (z : Z) : float := binary_normalize prec emax z 0 false.

(** Correctly rounded binary64 value of the decimal [(-1)^s * m * 10^e].
    A quotient is computed with at least 55 significant bits and a sticky
    bit, which rounds as the exact quotient does. The two range tests only
    avoid huge powers: beyond them the rounding is an infinity or a zero. *)
Definition of_decimal (s : bool) (m e : Z) : float :=
  if m <=? 0 then S754_zero s
  else
    let d := Z.of_nat (String.length (PyString.of_Z m)) in
    if 310 <=? e + d then S754_infinity s
    else if e + d <=? -324 then S754_zero s
    else if 0 <=? e then round s (m * 10 ^ e) 0
    else
      let den := 10 ^ (- e) in
      let k := Z.max 0 (56 + Z.log2 den - Z.log2 m) in
      let q := (m * 2 ^ k) / den in
      let r := (m * 2 ^ k) mod den in
      round s (2 * q + (if r =? 0 then 0 else 1)) (- k - 1).

(** *** [float(str)] *)

Definition is_float_space (c : ascii) : bool :=
  in_range 9 13 c || (code c =? 32) || (code c =? 133) || (code c =? 160).

Definition is_char (c : ascii) (z : Z) : bool := code c =? z.

(** Underscores are accepted between two digits only. *)
Fixpoint remove_underscores (prev : ascii) (s : string) : option string :=
  match s with
  | EmptyString => if is_char prev 95 then None else Some EmptyString
  | String c r =>
      if is_char c 95 then
        if isdigit prev then remove_underscores c r else None
      else if is_char prev 95 && negb (isdigit c) then None
      else option_map (String c) (remove_underscores c r)
  end.

Fixpoint span_digits (s : string) : string * string :=
  match s with
  | EmptyString => (EmptyString, EmptyString)
  | String c r =>
      if isdigit c then let (ds, rest) := span_digits r in (String c ds, rest)
      else (EmptyString, s)
  end.

Fixpoint digits_value (acc : Z) (s : string) : Z :=
  match s with
  | EmptyString => acc
  | String c r => digits_value (10 * acc + (code c - 48)) r
  end.

Definition split_sign (s : string) : bool * string :=
  match s with
  | String c r =>
      if is_char c 45 then (true, r)
      else if is_char c 43 then (false, r)
      else (false, s)
  | EmptyString => (false, s)
  end.

Definition parse_exponent (s : string) : option Z :=
  match s with
  | EmptyString => Some 0
  | String c r =>
      if is_char c 101 || is_char c 69 then
        let (neg, r1) := split_sign r in
        let (ds, r2) := span_digits r1 in
        if nonempty ds && negb (nonempty r2) then
          Some (if neg then - digits_value 0 ds else digits_value 0 ds)
        else None
      else None
  end.

(** Unsigned decimal literal: digits, optional fraction, optional
    exponent, at least one digit in the mantissa. The result [(m, e)]
    stands for [m * 10^e]. *)
Definition parse_number (s : string) : option (Z * Z) :=
  let (ip, r1) := span_digits s in
  let (fp, r2) :=
    match r1 with
    | String c r => if is_char c 46 then span_digits r else (EmptyString, r1)
    | EmptyString => (EmptyString, r1)
    end in
  if nonempty ip || nonempty fp then
    match parse_exponent r2 with
    | Some e => Some (digits_value 0 (ip ++ fp), e - Z.of_nat (String.length fp))
    | None => None
    end
  else None.

Definition parse_float (s : string) : option float :=
  let (neg, r) := split_sign s in
  let l := lower r in
  if String.eqb l "inf" || String.eqb l "infinity" then Some (S754_infinity neg)
  else if String.eqb l "nan" then Some S754_nan
  else
    match parse_number r with
    | Some (m, e) => Some (of_decimal neg m e)
    | None => None
    end.

(** [float(s)] for a string [s]; raises [ValueError] on a malformed one. *)
Definition of_string (s : string) : result float :=
  match remove_underscores zero s with
  | None => Raise ValueError
  | Some s1 =>
      match parse_float (strip_by is_float_space s1) with
      | Some f => Ok f
      | None => Raise ValueError
      end
  end.

(** *** [repr(float)]: the shortest decimal that reads back as the float *)

(** [10^p <= num/den] *)
Definition ge_pow10 (num den p : Z) : bool :=
  if 0 <=? p then den * 10 ^ p <=? num else den <=? num * 10 ^ (- p).

(** [floor (log10 (num/den))] for positive [num], [den]. *)
Definition floor_log10 (num den : Z) : Z :=
  let est := ((Z.log2 num - Z.log2 den) * 30103) / 100000 in
  if ge_pow10 num den (est + 1) then est + 1
  else if ge_pow10 num den est then est
  else est - 1.

Definition reads_back (f : float) (d k : Z) : bool :=
  eqb (of_decimal false d k) (SFabs f).

(** The [n]-digit decimals next to [num/den], nearest first, at the
    decimal exponent [k]. *)
Definition neighbours (num den k : Z) : Z * Z :=
  let N := if 0 <=? k then num else num * 10 ^ (- k) in
  let D := if 0 <=? k then den * 10 ^ k else den in
  let lo := N / D in
  let r := N mod D in
  match 2 * r ?= D with
  | Lt => (lo, lo + 1)
  | Gt => (lo + 1, lo)
  | Eq => if Z.even lo then (lo, lo + 1) else (lo + 1, lo)
  end.

Fixpoint shortest (fuel : nat) (f : float) (num den p10 n : Z) : Z * Z :=
  let k := p10 - n + 1 in
  let (near, far) := neighbours num den k in
  if reads_back f near k then (near, k)
  else if reads_back f far k then (far, k)
  else
    match fuel with
    | O => (near, k)
    | S fuel' => shortest fuel' f num den p10 (n + 1)
    end.

Fixpoint strip_zeros (fuel : nat) (d k : Z) : Z * Z :=
  match fuel with
  | O => (d, k)
  | S fuel' => if (d mod 10 =? 0) && (0 <? d) then strip_zeros fuel' (d / 10) (k + 1) else (d, k)
  end.

Definition format_exp (x : Z) : string :=
  let a := PyString.of_Z (Z.abs x) in
  String (if x <? 0 then "-"%char else "+"%char)
    (if Z.abs x <? 10 then String "0"%char a else a).

(** Digits [ds] with the decimal point after the first [decpt] of them,
    in the layout of [repr]. *)
Definition format_short (ds : string) (decpt : Z) : string :=
  let n := Z.of_nat (String.length ds) in
  let zeros (z : Z) := PyString.repeat "0"%char (Z.to_nat z) in
  let frac := if 1 <? n then String "."%char (drop 1 ds) else EmptyString in
  if (decpt <=? -4) || (16 <? decpt) then
    (take 1 ds ++ frac ++ "e" ++ format_exp (decpt - 1))%string
  else if decpt <=? 0 then
    ("0." ++ zeros (- decpt) ++ ds)%string
  else if decpt <? n then
    (take (Z.to_nat decpt) ds ++ "." ++ drop (Z.to_nat decpt) ds)%string
  else
    (ds ++ zeros (decpt - n) ++ ".0")%string.

Definition repr (f : float) : string :=
  match f with
  | S754_nan => "nan"
  | S754_infinity s => if s then "-inf" else "inf"
  | S754_zero s => if s then "-0.0" else "0.0"
  | S754_finite s m e =>
      let num := if 0 <=? e then Zpos m * 2 ^ e else Zpos m in
      let den := if 0 <=? e then 1 else 2 ^ (- e) in
      let p10 := floor_log10 num den in
      let (d0, k0) := shortest 16 f num den p10 1 in
      let (d, k) := strip_zeros 20 d0 k0 in
      let ds := PyString.of_Z d in
      let body := format_short ds (k + Z.of_nat (String.length ds)) in
      if s then String "-"%char body else body
  end.

(** [int(f)]: truncation toward zero. *)
Definition to_Z (f : float) : result Z :=
  match f with
  | S754_nan => Raise ValueError
  | S754_infinity _ => Raise OverflowError
  | S754_zero _ => Ok 0
  | S754_finite s m e =>
      let a := if 0 <=? e then Zpos m * 2 ^ e else Zpos m / 2 ^ (- e) in
      Ok (if s then - a else a)
  end.

(** [f - g] *)
Definition sub (f g : float) : float := SFsub prec emax f g.

(** [f >= z] for an integer [z]: the comparison is exact. *)
Definition ge_int (f : float) (z : Z) : bool :=
  match f with
  | S754_nan => false
  | S754_infinity s => negb s
  | S754_zero _ => z <=? 0
  | S754_finite s m e =>
      let v := if s then Zneg m else Zpos m in
      if 0 <=? e then z <=? v * 2 ^ e else z * 2 ^ (- e) <=? v
  end.

End PyFloat.

(** ** Python values, as [json.loads] produces them *)
Module Py.
Import PyString.

Inductive value :=
| VNone
| VBool (b : bool)
| VInt (z : Z)
| VFloat (f : PyFloat.float)
| VStr (s : string)
| VList (l : list value)
| VDict (d : list (string * value)).

(** [bool(v)] *)
Definition truthy (v : value) : bool :=
  match v with
  | VNone => false
  | VBool b => b
  | VInt z => negb (z =? 0)
  | VFloat f => PyFloat.truthy f
  | VStr s => nonempty s
  | VList l => match l with [] => false | _ => true end
  | VDict d => match d with [] => false | _ => true end
  end.

(** [a or b]: [b] is evaluated only when [a] is false. *)
Definition or_ (a b : result value) : result value :=
  x <- a ;; if truthy x then Ok x else b.

Fixpoint lookup (k : string) (d : list (string * value)) : option value :=
  match d with
  | [] => None
  | (k', v) :: d' => if String.eqb k k' then Some v else lookup k d'
  end.

(** [payload.get(k)]: only a dict has the method; a missing key gives
    [None]. *)
Definition get (payload : value) (k : string) : result value :=
  match payload with
  | VDict d => Ok (match lookup k d with Some v => v | None => VNone end)
  | _ => Raise AttributeError
  end.

(** [v.strip()]: only a string has the method. *)
Definition strip_method (v : value) : result string :=
  match v with
  | VStr s => Ok (strip s)
  | _ => Raise AttributeError
  end.

(** *** [repr] and [str] *)

Definition hex_digit (z : Z) : ascii :=
  if z <? 10 then chr (48 + z) else chr (87 + z).

Definition printable (c : ascii) : bool :=
  in_range 32 126 c || (in_range 161 255 c && negb (code c =? 173)).

Definition escape_char (q c : ascii) : string :=
  if Ascii.eqb c q || (code c =? 92) then String (chr 92) (String c EmptyString)
  else if code c =? 9 then String (chr 92) "t"
  else if code c =? 10 then String (chr 92) "n"
  else if code c =? 13 then String (chr 92) "r"
  else if printable c then String c EmptyString
  else String (chr 92)
         (String "x"%char
            (String (hex_digit (code c / 16))
               (String (hex_digit (code c mod 16)) EmptyString))).

Fixpoint escape (q : ascii) (s : string) : string :=
  match s with
  | EmptyString => EmptyString
  | String c s' => (escape_char q c ++ escape q s')%string
  end.

(** [repr(s)]: single quotes, unless the string has one and no double
    quote. *)
Definition repr_str (s : string) : string :=
  let q := if contains (chr 39) s && negb (contains (chr 34) s)
           then chr 34 else chr 39 in
  String q (escape q s ++ String q EmptyString).

Fixpoint repr (v : value) : string :=
  match v with
  | VNone => "None"
  | VBool b => if b then "True" else "False"
  | VInt z => PyString.of_Z z
  | VFloat f => PyFloat.repr f
  | VStr s => repr_str s
  | VList l =>
      let fix items (l : list value) : string :=
        match l with
        | [] => EmptyString
        | x :: r =>
            (repr x ++ match r with [] => EmptyString | _ => ", " ++ items r end)%string
        end in
      String "["%char (items l ++ "]")
  | VDict d =>
      let fix items (d : list (string * value)) : string :=
        match d with
        | [] => EmptyString
        | (k, x) :: r =>
            (repr_str k ++ ": " ++ repr x
               ++ match r with [] => EmptyString | _ => ", " ++ items r end)%string
        end in
      String "{"%char (items d ++ "}")
  end.

(** [str(v)] *)
Definition str (v : value) : string :=
  match v with
  | VStr s => s
  | _ => repr v
  end.

(** [float(v)]. [None] stands for the exception [float] raises: TypeError
    for [None], a list or a dict, ValueError for a string that is no float
    literal, OverflowError for an integer beyond the range of the floats. *)
Definition float_of (v : value) : option PyFloat.float :=
  match v with
  | VNone => None
  | VBool b => Some (PyFloat.of_Z (if b then 1 else 0))
  | VInt z =>
      let f := PyFloat.of_Z z in
      if PyFloat.isfinite f then Some f else None
  | VFloat f => Some f
  | VStr s =>
      match PyFloat.of_string s with
      | Ok f => Some f
      | Raise _ => None
      end
  | VList _ | VDict _ => None
  end.

End Py.

(** ** The [readings] table and the connection *)
Module Sqlite.

(** One row of [readings]; [None] is SQL NULL. *)
Record row := {
  ts     : Z;
  sensor : string;
  zone   : option string;
  temp   : option PyFloat.float;
  hum    : option PyFloat.float;
  press  : option PyFloat.float;
  source : option string
}.

(** An optional column together with the value bound to it: one entry of
    the parallel lists [cols] and [vals] after the leading [ts], [sensor]. *)
Inductive column :=
| ColZone (z : string)
| ColTemp (v : PyFloat.float)
| ColHum (v : PyFloat.float)
| ColPress (v : PyFloat.float)
| ColSource (s : string).

Definition bind_column (r : row) (c : column) : row :=
  match c with
  | ColZone z => {| ts := ts r; sensor := sensor r; zone := Some z; temp := temp r;
                    hum := hum r; press := press r; source := source r |}
  | ColTemp v => {| ts := ts r; sensor := sensor r; zone := zone r; temp := Some v;
                    hum := hum r; press := press r; source := source r |}
  | ColHum v => {| ts := ts r; sensor := sensor r; zone := zone r; temp := temp r;
                   hum := Some v; press := press r; source := source r |}
  | ColPress v => {| ts := ts r; sensor := sensor r; zone := zone r; temp := temp r;
                     hum := hum r; press := Some v; source := source r |}
  | ColSource s => {| ts := ts r; sensor := sensor r; zone := zone r; temp := temp r;
                      hum := hum r; press := press r; source := Some s |}
  end.

(** The row that [INSERT INTO readings(ts,sensor,...) VALUES (?,?,...)]
    creates: unlisted columns are NULL. *)
Definition new_row (t : Z) (s : string) (cols : list column) : row :=
  fold_left bind_column cols
    {| ts := t; sensor := s; zone := None; temp := None; hum := None;
       press := None; source := None |}.

Inductive event :=
| Insert (r : row)
| Delete (cutoff : Z)
| Commit
| IncrementalVacuum.

(** The connection: the table as the connection sees it, the table as of
    the last commit, and the statements executed so far. *)
Record conn := {
  readings : list row;
  durable  : list row;
  trace    : list event
}.

Definition open (existing : list row) : conn :=
  {| readings := existing; durable := existing; trace := [] |}.

(** [INSERT INTO readings(ts,sensor,...) VALUES (?,?,...)] for a time
    stamp [t] within the signed 64-bit range, where every clock reading of
    [time.time()] lies. *)
Definition insert (t : Z) (s : string) (cols : list column) (c : conn) : conn :=
  let r := new_row t s cols in
  {| readings := (readings c ++ [r])%list; durable := durable c;
     trace := (trace c ++ [Insert r])%list |}.

Definition older_than (cutoff : Z) (r : row) : bool := ts r <? cutoff.

(** A Python [int] is bound to a [?] as a 64-bit SQLite INTEGER. *)
Definition int64 (z : Z) : bool := (- 2 ^ 63 <=? z) && (z <? 2 ^ 63).

(** Binding the integer [z] to a [?]: [OverflowError] outside the signed
    64-bit range, before the statement runs. *)
Definition bind_int (z : Z) : result Z :=
  if int64 z then Ok z else Raise OverflowError.

(** [DELETE FROM readings WHERE ts < ?] once the cutoff has been bound
    (see [bind_int]); the second component is [cur.rowcount]. *)
Definition delete_older (cutoff : Z) (c : conn) : conn * Z :=
  ({| readings := filter (fun r => negb (older_than cutoff r)) (readings c);
      durable := durable c;
      trace := (trace c ++ [Delete cutoff])%list |},
   Z.of_nat (List.length (filter (older_than cutoff) (readings c)))).

Definition commit (c : conn) : conn :=
  {| readings := readings c; durable := readings c;
     trace := (trace c ++ [Commit])%list |}.

Definition incremental_vacuum (c : conn) : conn :=
  {| readings := readings c; durable := durable c;
     trace := (trace c ++ [IncrementalVacuum])%list |}.

End Sqlite.

(** ** The server *)
Module EspServer.
Import PyString Py Sqlite.

(** *** Configuration *)

Record config := {
  RETENTION_DAYS       : Z;
  COMMIT_EVERY         : Z;
  CLEANUP_EVERY        : Z;
  CLEANUP_INTERVAL_SEC : Z;
  DEFAULT_ZONE         : string;
  DEFAULT_SOURCE       : string;
  INDOOR_SENSOR        : string;
  OUTDOOR_SENSOR       : string;
  FORCE_ZONE_BY_SENSOR : bool
}.

Definition environ := string -> option string.

Definition getenv (env : environ) (k default : string) : string :=
  match env k with
  | Some v => v
  | None => default
  end.

(** [int(s)] for a decimal string. *)
Definition int_of_string (s : string) : result Z :=
  let (neg, r) := PyFloat.split_sign (strip s) in
  match PyFloat.remove_underscores zero r with
  | Some ds =>
      let (d, rest) := PyFloat.span_digits ds in
      if nonempty d && negb (nonempty rest) then
        Ok (if neg then - PyFloat.digits_value 0 d else PyFloat.digits_value 0 d)
      else Raise ValueError
  | None => Raise ValueError
  end.

(** [(os.environ.get(k) or "").lower().strip()] *)
Definition sensor_binding (env : environ) (k : string) : string :=
  strip (lower (match env k with
                | Some v => if nonempty v then v else ""
                | None => ""
                end)).

Definition load_config (env : environ) : result config :=
  r <- int_of_string (getenv env "RETENTION_DAYS" "90") ;;
  c <- int_of_string (getenv env "COMMIT_EVERY" "1") ;;
  e <- int_of_string (getenv env "CLEANUP_EVERY" "400") ;;
  i <- int_of_string (getenv env "CLEANUP_INTERVAL_SEC" "60") ;;
  Ok {| RETENTION_DAYS := r;
        COMMIT_EVERY := c;
        CLEANUP_EVERY := e;
        CLEANUP_INTERVAL_SEC := i;
        DEFAULT_ZONE := getenv env "DEFAULT_ZONE" "indoor";
        DEFAULT_SOURCE := getenv env "DEFAULT_SOURCE" "esp32";
        INDOOR_SENSOR := sensor_binding env "INDOOR_SENSOR";
        OUTDOOR_SENSOR := sensor_binding env "OUTDOOR_SENSOR";
        FORCE_ZONE_BY_SENSOR :=
          String.eqb (lower (getenv env "FORCE_ZONE_BY_SENSOR" "false")) "true" |}.

(** The configuration of an empty environment. *)
Definition default_config : config :=
  {| RETENTION_DAYS := 90;
     COMMIT_EVERY := 1;
     CLEANUP_EVERY := 400;
     CLEANUP_INTERVAL_SEC := 60;
     DEFAULT_ZONE := "indoor";
     DEFAULT_SOURCE := "esp32";
     INDOOR_SENSOR := "";
     OUTDOOR_SENSOR := "";
     FORCE_ZONE_BY_SENSOR := false |}.

(** *** Utilities *)

(** [to_float]: [None], the empty string, NaN and the infinities give
    [None]; so does whatever makes [float] raise. *)
Definition to_float (x : value) : option PyFloat.float :=
  match x with
  | VNone => None
  | _ =>
      let s := strip (str x) in
      if negb (nonempty s) || String.eqb (lower s) "nan" then None
      else
        match PyFloat.of_string s with
        | Ok v => if PyFloat.isfinite v then Some v else None
        | Raise _ => None
        end
  end.

(** [resolve_zone]: the hard binding first, then the zone of the payload,
    then the default zone. *)
Definition resolve_zone (cfg : config) (sensor_canonical zone_from_payload : string)
  : string :=
  let s := strip (lower sensor_canonical) in
  if FORCE_ZONE_BY_SENSOR cfg
     && nonempty (INDOOR_SENSOR cfg) && String.eqb s (INDOOR_SENSOR cfg)
  then "indoor"
  else if FORCE_ZONE_BY_SENSOR cfg
          && nonempty (OUTDOOR_SENSOR cfg) && String.eqb s (OUTDOOR_SENSOR cfg)
  then "outdoor"
  else
    let z := strip (lower zone_from_payload) in
    if nonempty zone_from_payload
       && (String.eqb z "indoor" || String.eqb z "outdoor")
    then z
    else DEFAULT_ZONE cfg.

(** [has_pressure_mmhg]: a finite number between 200 and 1200; whatever
    makes [float] raise is no pressure. *)
Definition has_pressure_mmhg (v : value) : bool :=
  match v with
  | VNone => false
  | _ =>
      match float_of v with
      | Some f =>
          PyFloat.isfinite f
          && (SFleb (PyFloat.of_Z 200) f && SFleb f (PyFloat.of_Z 1200))
      | None => false
      end
  end.

Definition bme280_names : list string :=
  ["bme280"; "bme"; "bmp280"; "bmp"; "bme-280"; "bme_280"].

Definition dht22_names : list string :=
  ["dht22"; "dht"; "dht-22"; "dht_22"; "am2302"].

(** [s in names] *)
Definition member (s : string) (names : list string) : bool :=
  existsb (String.eqb s) names.

(** [canonical_sensor]: the name, trimmed and lower-cased, decides when it
    is a known one; otherwise a valid pressure means bme280. [name] may be
    [None]. *)
Definition canonical_sensor (name : option string) (pressure_val : value) : string :=
  let s := lower (strip (match name with
                         | Some n => if nonempty n then n else ""
                         | None => ""
                         end)) in
  if member s bme280_names then "bme280"
  else if member s dht22_names then "dht22"
  else if has_pressure_mmhg pressure_val then "bme280" else "dht22".

(** *** Process state: the connection and the three globals *)

Record state := {
  conn                   : Sqlite.conn;
  _inserts_since_commit  : Z;
  _inserts_since_cleanup : Z;
  _last_cleanup_ts       : PyFloat.float
}.

(** The state when the module has been loaded on a database holding
    [existing]. *)
Definition start (existing : list row) : state :=
  {| conn := Sqlite.open existing;
     _inserts_since_commit := 0;
     _inserts_since_cleanup := 0;
     _last_cleanup_ts := S754_zero false |}.

Definition with_conn (st : state) (c : Sqlite.conn) : state :=
  {| conn := c;
     _inserts_since_commit := _inserts_since_commit st;
     _inserts_since_cleanup := _inserts_since_cleanup st;
     _last_cleanup_ts := _last_cleanup_ts st |}.

(** *** [do_POST] *)

(** What lines 127-146 compute before any statement is executed. *)
Record fields := {
  f_ts   : Z;
  t_dht  : option PyFloat.float;
  h_dht  : option PyFloat.float;
  t_bme  : option PyFloat.float;
  h_bme  : option PyFloat.float;
  p_bme  : option PyFloat.float;
  f_zone   : string;
  f_source : string
}.

(** [body] is the outcome of [json.loads] on the request body and [t] the
    clock reading of line 131. *)
Definition extract (cfg : config) (body : result value) (t : PyFloat.float)
  : result fields :=
  payload <- body ;;
  ts <- PyFloat.to_Z t ;;
  td <- or_ (get payload "t_dht") (get payload "temperature_dht") ;;
  hd <- or_ (get payload "h_dht") (get payload "humidity_dht") ;;
  tb <- or_ (get payload "t_bme")
          (or_ (get payload "temperature")
             (or_ (get payload "temp") (get payload "lt_bme"))) ;;
  hb <- or_ (get payload "h_bme")
          (or_ (get payload "humidity") (get payload "hum")) ;;
  pb <- or_ (get payload "pressure")
          (or_ (get payload "press") (get payload "p_bme")) ;;
  z <- or_ (get payload "zone") (Ok (VStr "")) ;;
  zone <- strip_method z ;;
  s <- or_ (get payload "source") (Ok (VStr (DEFAULT_SOURCE cfg))) ;;
  source <- strip_method s ;;
  Ok {| f_ts := ts;
        t_dht := to_float td; h_dht := to_float hd;
        t_bme := to_float tb; h_bme := to_float hb; p_bme := to_float pb;
        f_zone := zone; f_source := source |}.

Definition is_some {A} (o : option A) : bool :=
  match o with
  | Some _ => true
  | None => false
  end.

(** [if v is not None: cols.append(..); vals.append(v)] *)
Definition append_some {A} (mk : A -> column) (o : option A) : list column :=
  match o with
  | Some v => [mk v]
  | None => []
  end.

(** [if a != b: cols.append(..); vals.append(a)] *)
Definition append_unless_default (mk : string -> column) (a b : string)
  : list column :=
  if String.eqb a b then [] else [mk a].

(** Lines 151-167. *)
Definition insert_dht22 (cfg : config) (f : fields) (c : Sqlite.conn)
  : Sqlite.conn * bool :=
  if is_some (t_dht f) || is_some (h_dht f) then
    let sensor := "dht22" in
    let z := resolve_zone cfg sensor (f_zone f) in
    let cols :=
      (append_unless_default ColZone z (DEFAULT_ZONE cfg)
        ++ append_some ColTemp (t_dht f)
        ++ append_some ColHum (h_dht f)
        ++ append_unless_default ColSource (f_source f) (DEFAULT_SOURCE cfg))%list in
    (Sqlite.insert (f_ts f) sensor cols c, true)
  else (c, false).

(** Lines 170-188. *)
Definition insert_bme280 (cfg : config) (f : fields) (c : Sqlite.conn)
  : Sqlite.conn * bool :=
  if is_some (t_bme f) || is_some (h_bme f) || is_some (p_bme f) then
    let sensor := "bme280" in
    let z := resolve_zone cfg sensor (f_zone f) in
    let cols :=
      (append_unless_default ColZone z (DEFAULT_ZONE cfg)
        ++ append_some ColTemp (t_bme f)
        ++ append_some ColHum (h_bme f)
        ++ append_some ColPress (p_bme f)
        ++ append_unless_default ColSource (f_source f) (DEFAULT_SOURCE cfg))%list in
    (Sqlite.insert (f_ts f) sensor cols c, true)
  else (c, false).

(** Lines 148-188: both groups; the flag is [wrote_any]. *)
Definition insert_groups (cfg : config) (f : fields) (c : Sqlite.conn)
  : Sqlite.conn * bool :=
  let (c1, w1) := insert_dht22 cfg f c in
  let (c2, w2) := insert_bme280 cfg f c1 in
  (c2, w1 || w2).

(** Lines 192-193. *)
Definition count_write (st : state) : state :=
  {| conn := conn st;
     _inserts_since_commit := _inserts_since_commit st + 1;
     _inserts_since_cleanup := _inserts_since_cleanup st + 1;
     _last_cleanup_ts := _last_cleanup_ts st |}.

Definition flush_due (cfg : config) (st : state) : bool :=
  COMMIT_EVERY cfg <=? _inserts_since_commit st.

(** Lines 195-197. *)
Definition write_batcher (cfg : config) (st : state) : state :=
  if flush_due cfg st then
    {| conn := Sqlite.commit (conn st);
       _inserts_since_commit := 0;
       _inserts_since_cleanup := _inserts_since_cleanup st;
       _last_cleanup_ts := _last_cleanup_ts st |}
  else st.

(** The condition of line 200. *)
Definition sweep_due (cfg : config) (now : PyFloat.float) (st : state) : bool :=
  (CLEANUP_EVERY cfg <=? _inserts_since_cleanup st)
  && PyFloat.ge_int (PyFloat.sub now (_last_cleanup_ts st)) (CLEANUP_INTERVAL_SEC cfg).

Definition cutoff_at (cfg : config) (now_int : Z) : Z :=
  now_int - RETENTION_DAYS cfg * 24 * 3600.

(** Lines 201-208, once [int(now)] has been computed and the cutoff bound
    to the DELETE. *)
Definition sweep (cfg : config) (now : PyFloat.float) (now_int : Z) (st : state)
  : state :=
  let cutoff := cutoff_at cfg now_int in
  let (c1, rowcount) := Sqlite.delete_older cutoff (conn st) in
  let c2 := Sqlite.commit c1 in
  let c3 :=
    if negb (rowcount =? 0) && (0 <? rowcount)
    then Sqlite.commit (Sqlite.incremental_vacuum c2)
    else c2 in
  {| conn := c3;
     _inserts_since_commit := _inserts_since_commit st;
     _inserts_since_cleanup := 0;
     _last_cleanup_ts := now |}.

(** Lines 199-208. [int(now)] raises on an infinity or a NaN, and binding
    the cutoff to the DELETE of line 202 raises outside the signed 64-bit
    range; in both cases nothing of lines 202-208 has run. *)
Definition retention_sweeper (cfg : config) (now : PyFloat.float) (st : state)
  : result state :=
  if sweep_due cfg now st then
    now_int <- PyFloat.to_Z now ;;
    cutoff <- Sqlite.bind_int (cutoff_at cfg now_int) ;;
    Ok (sweep cfg now now_int st)
  else Ok st.

(** One request: the outcome of [json.loads] on the body, the clock
    reading of line 131 and the clock reading of line 199. *)
Record request := {
  body    : result value;
  t_recv  : PyFloat.float;
  t_maint : PyFloat.float
}.

(** The handler: the status sent and the state left behind. An exception
    leaves the state as it is where it is raised. *)
Definition do_POST (cfg : config) (rq : request) (st : state) : Z * state :=
  match extract cfg (body rq) (t_recv rq) with
  | Raise _ => (500, st)
  | Ok f =>
      let (c, wrote_any) := insert_groups cfg f (conn st) in
      let st1 := with_conn st c in
      if wrote_any then
        let st2 := write_batcher cfg (count_write st1) in
        match retention_sweeper cfg (t_maint rq) st2 with
        | Ok st3 => (200, st3)
        | Raise _ => (500, st2)
        end
      else (200, st1)
  end.

(** The server handling requests one after the other. *)
Fixpoint serve (cfg : config) (rqs : list request) (st : state) : state :=
  match rqs with
  | [] => st
  | rq :: rest => serve cfg rest (snd (do_POST cfg rq st))
  end.

End EspServer.

(** * Properties of the pipeline *)

Import PyString Py Sqlite EspServer.

Local Open Scope list_scope.

(** ** Observations on the trace of the connection *)

Definition inserted_rows (tr : list event) : list row :=
  flat_map (fun e => match e with Insert r => [r] | _ => [] end) tr.

Definition is_delete (e : event) : bool :=
  match e with Delete _ => true | _ => false end.

Definition is_commit (e : event) : bool :=
  match e with Commit => true | _ => false end.

Definition is_vacuum (e : event) : bool :=
  match e with IncrementalVacuum => true | _ => false end.

Definition count (p : event -> bool) (tr : list event) : nat :=
  List.length (filter p tr).

(** The statements a request adds to the trace. *)
Definition events_of (cfg : config) (rq : request) (st : state) : list event :=
  skipn (List.length (trace (conn st))) (trace (conn (snd (do_POST cfg rq st)))).

(** The rows the two groups of a submission give: what [insert_groups]
    puts into an empty table. *)
Definition group_rows (cfg : config) (f : fields) : list row :=
  readings (fst (insert_groups cfg f (Sqlite.open []))).

(** The request reaches the inserts and inserts at least one row. *)
Definition writes (cfg : config) (rq : request) : bool :=
  match extract cfg (body rq) (t_recv rq) with
  | Ok f => match group_rows cfg f with [] => false | _ => true end
  | Raise _ => false
  end.

Fixpoint after_inserts (evs : list event) : list event :=
  match evs with
  | Insert _ :: rest => after_inserts rest
  | _ => evs
  end.

(** The write batcher flushed: the statement that follows the inserts of
    the request is the commit of line 196. *)
Definition batch_flushed (cfg : config) (rq : request) (st : state) : bool :=
  match after_inserts (events_of cfg rq st) with
  | Commit :: _ => true
  | _ => false
  end.

(** Number of writing submissions in a run. *)
Definition writing (cfg : config) (rqs : list request) : Z :=
  Z.of_nat (List.length (filter (writes cfg) rqs)).

(** The statements of a sweep at [now_int] that removes [deleted] rows. *)
Definition sweep_events (cfg : config) (now_int deleted : Z) : list event :=
  Delete (cutoff_at cfg now_int) :: Commit
    :: (if 0 <? deleted then [IncrementalVacuum; Commit] else []).

Definition deleted_by (cfg : config) (now_int : Z) (c : Sqlite.conn) : Z :=
  Z.of_nat (List.length (filter (older_than (cutoff_at cfg now_int)) (readings c))).

(** The sweep condition of line 200 as the request meets it: the counter
    has been advanced, the watermark is the one of the state before. *)
Definition gate (cfg : config) (rq : request) (st : state) : bool :=
  (CLEANUP_EVERY cfg <=? _inserts_since_cleanup st + 1)
  && PyFloat.ge_int (PyFloat.sub (t_maint rq) (_last_cleanup_ts st))
       (CLEANUP_INTERVAL_SEC cfg).

(** The DELETE of a sweep at the clock reading [now] can be executed:
    [int(now)] exists and the cutoff is bound as a 64-bit integer. *)
Definition cutoff_binds (cfg : config) (now : PyFloat.float) : bool :=
  match PyFloat.to_Z now with
  | Ok n => int64 (cutoff_at cfg n)
  | Raise _ => false
  end.

(** The statements of one request, in order: the inserts, the commit of the
    batcher, the sweep. *)
Definition step_events (cfg : config) (rq : request) (st : state) : list event :=
  match extract cfg (body rq) (t_recv rq) with
  | Raise _ => []
  | Ok f =>
      let rows := group_rows cfg f in
      map Insert rows ++
      match rows with
      | [] => []
      | _ =>
          (if COMMIT_EVERY cfg <=? _inserts_since_commit st + 1 then [Commit] else [])
          ++ (if gate cfg rq st then
                match PyFloat.to_Z (t_maint rq) with
                | Ok n =>
                    if int64 (cutoff_at cfg n) then
                      sweep_events cfg n
                        (Z.of_nat (List.length
                           (filter (older_than (cutoff_at cfg n))
                              (readings (conn st) ++ rows))))
                    else []
                | Raise _ => []
                end
              else [])
      end
  end.

(** The state a writing request hands to the retention sweeper: rows
    inserted, counters advanced, batcher run. *)
Definition batched (cfg : config) (f : fields) (st : state) : state :=
  write_batcher cfg
    (count_write (with_conn st (fst (insert_groups cfg f (conn st))))).

(** ** Submissions and configurations used as examples *)

Definition clock_1700000000 : PyFloat.float := PyFloat.of_Z 1700000000.

(** [{"t_bme": 21.5, "h_bme": 44, "pressure": 751, "zone": "indoor"}] *)
Definition bme_indoor_payload : value :=
  VDict [("t_bme", VFloat (PyFloat.of_decimal false 215 (-1)));
         ("h_bme", VInt 44);
         ("pressure", VInt 751);
         ("zone", VStr "indoor")].

Definition bme_indoor_request : request :=
  {| body := Ok bme_indoor_payload;
     t_recv := clock_1700000000;
     t_maint := clock_1700000000 |}.

(** The row of the end-to-end scenario, with the zone column left open. *)
Definition bme_indoor_row (z : option string) : row :=
  {| ts := 1700000000;
     sensor := "bme280";
     zone := z;
     temp := Some (PyFloat.of_decimal false 215 (-1));
     hum := Some (PyFloat.of_Z 44);
     press := Some (PyFloat.of_Z 751);
     source := None |}.

(** [{"t_bme": 0, "temperature": 25}] *)
Definition zero_first_payload : value :=
  VDict [("t_bme", VInt 0); ("temperature", VInt 25)].

(** [{"t_bme": 0}] *)
Definition zero_only_payload : value := VDict [("t_bme", VInt 0)].

(** [{"t_dht": 22.0, "t_bme": 21.5}]: one reading for each sensor. *)
Definition both_groups_request : request :=
  {| body := Ok (VDict [("t_dht", VFloat (PyFloat.of_Z 22));
                        ("t_bme", VFloat (PyFloat.of_decimal false 215 (-1)))]);
     t_recv := clock_1700000000;
     t_maint := clock_1700000000 |}.

Definition with_commit_every (cfg : config) (t : Z) : config :=
  {| RETENTION_DAYS := RETENTION_DAYS cfg;
     COMMIT_EVERY := t;
     CLEANUP_EVERY := CLEANUP_EVERY cfg;
     CLEANUP_INTERVAL_SEC := CLEANUP_INTERVAL_SEC cfg;
     DEFAULT_ZONE := DEFAULT_ZONE cfg;
     DEFAULT_SOURCE := DEFAULT_SOURCE cfg;
     INDOOR_SENSOR := INDOOR_SENSOR cfg;
     OUTDOOR_SENSOR := OUTDOOR_SENSOR cfg;
     FORCE_ZONE_BY_SENSOR := FORCE_ZONE_BY_SENSOR cfg |}.

(** A bare row of the given age. *)
Definition row_at (t : Z) : row :=
  {| ts := t; sensor := "bme280"; zone := None; temp := None; hum := None;
     press := None; source := None |}.

(** A server whose sweep counter has reached 400 writes, never swept, over
    a table with one row older than 90 days at time 1700000000, one row at
    the cutoff and one recent row. *)
Definition aged_state : state :=
  {| conn := Sqlite.open [row_at 1600000000; row_at 1692224000; row_at 1699999999];
     _inserts_since_commit := 0;
     _inserts_since_cleanup := 400;
     _last_cleanup_ts := S754_zero false |}.

(** The same counters one write short of the sweep threshold. *)
Definition almost_due_state : state :=
  {| conn := Sqlite.open [row_at 1600000000];
     _inserts_since_commit := 0;
     _inserts_since_cleanup := 399;
     _last_cleanup_ts := S754_zero false |}.

(** [{"t_dht": 22.0, "pressure": 751}]: a DHT reading next to a pressure. *)
Definition dht_with_pressure_request : request :=
  {| body := Ok (VDict [("t_dht", VFloat (PyFloat.of_Z 22)); ("pressure", VInt 751)]);
     t_recv := clock_1700000000;
     t_maint := clock_1700000000 |}.

(** The hard binding of [resolve_zone] decides the zone of [sensor]. *)
Definition binding_applies (cfg : config) (sensor : string) : Prop :=
  FORCE_ZONE_BY_SENSOR cfg = true
  /\ ((INDOOR_SENSOR cfg <> "" /\ strip (lower sensor) = INDOOR_SENSOR cfg)
      \/ (OUTDOOR_SENSOR cfg <> "" /\ strip (lower sensor) = OUTDOOR_SENSOR cfg)).

Definition recognized (z : string) : Prop := z = "indoor" \/ z = "outdoor".

(** The default configuration with bme280 bound to the indoor zone. *)
Definition bme_bound_indoor : config :=
  {| RETENTION_DAYS := 90;
     COMMIT_EVERY := 1;
     CLEANUP_EVERY := 400;
     CLEANUP_INTERVAL_SEC := 60;
     DEFAULT_ZONE := "indoor";
     DEFAULT_SOURCE := "esp32";
     INDOOR_SENSOR := "bme280";
     OUTDOOR_SENSOR := "";
     FORCE_ZONE_BY_SENSOR := true |}.

(** [{}]: a submission without any field. *)
Definition empty_request : request :=
  {| body := Ok (VDict []);
     t_recv := clock_1700000000;
     t_maint := clock_1700000000 |}.

(** A server whose sweep counter is past the threshold and whose last sweep
    ran at time 1700000000. *)
Definition just_swept_state : state :=
  {| conn := Sqlite.open [row_at 1600000000];
     _inserts_since_commit := 0;
     _inserts_since_cleanup := 1000;
     _last_cleanup_ts := clock_1700000000 |}.

Definition with_retention_days (cfg : config) (d : Z) : config :=
  {| RETENTION_DAYS := d;
     COMMIT_EVERY := COMMIT_EVERY cfg;
     CLEANUP_EVERY := CLEANUP_EVERY cfg;
     CLEANUP_INTERVAL_SEC := CLEANUP_INTERVAL_SEC cfg;
     DEFAULT_ZONE := DEFAULT_ZONE cfg;
     DEFAULT_SOURCE := DEFAULT_SOURCE cfg;
     INDOOR_SENSOR := INDOOR_SENSOR cfg;
     OUTDOOR_SENSOR := OUTDOOR_SENSOR cfg;
     FORCE_ZONE_BY_SENSOR := FORCE_ZONE_BY_SENSOR cfg |}.

(** The configuration of [RETENTION_DAYS=999999999999999]: the cutoff of a
    sweep at time 1700000000 is below [- 2 ^ 63]. *)
Definition keep_forever_config : config :=
  with_retention_days default_config 999999999999999.

(** The configuration of [RETENTION_DAYS=-999999999999999]: the cutoff of a
    sweep at time 1700000000 is above [2 ^ 63]. *)
Definition keep_nothing_config : config :=
  with_retention_days default_config (-999999999999999).

(** The column list entry binds the pressure column. *)
Definition binds_press (c : column) : bool :=
  match c with ColPress _ => true | _ => false end.

(** ** Notions used by the further properties *)

(** [d.get(k)] on the association list of a dict. *)
Definition getv (d : list (string * value)) (k : string) : value :=
  match lookup k d with
  | Some v => v
  | None => VNone
  end.

(** [v] is the first true value met when the keys [ks] are looked up in
    order: the keys before it are missing or hold a false value. *)
Definition first_truthy (d : list (string * value)) (ks : list string) (v : value)
  : Prop :=
  exists before k after,
    ks = before ++ k :: after
    /\ Forall (fun k' => truthy (getv d k') = false) before
    /\ getv d k = v
    /\ truthy v = true.

(** The value of a chain [d.get(k1) or d.get(k2) or ...]. *)
Fixpoint chain (d : list (string * value)) (ks : list string) : value :=
  match ks with
  | [] => VNone
  | [k] => getv d k
  | k :: rest => if truthy (getv d k) then getv d k else chain d rest
  end.

(** [d.get(k) or default] *)
Definition get_or (d : list (string * value)) (k : string) (default : value) : value :=
  if truthy (getv d k) then getv d k else default.

Definition is_dict (v : value) : bool :=
  match v with VDict _ => true | _ => false end.

Definition is_str (v : value) : bool :=
  match v with VStr _ => true | _ => false end.

(** A zone or source entry [strip] can be called on: missing, false, or
    a string. *)
Definition hint_ok (v : value) : bool := negb (truthy v) || is_str v.

(** The string [do_POST] takes from such an entry. *)
Definition hint_text (v : value) (default : string) : string :=
  match v with
  | VStr s => if nonempty s then strip s else strip default
  | _ => strip default
  end.

(** The zone column of a row of [sensor]: NULL when the resolved zone is
    the default one. *)
Definition stored_zone (cfg : config) (sensor : string) (f : fields) : option string :=
  let z := resolve_zone cfg sensor (f_zone f) in
  if String.eqb z (DEFAULT_ZONE cfg) then None else Some z.

Definition stored_source (cfg : config) (f : fields) : option string :=
  if String.eqb (f_source f) (DEFAULT_SOURCE cfg) then None else Some (f_source f).

Definition dht22_row (cfg : config) (f : fields) : row :=
  {| ts := f_ts f; sensor := "dht22"; zone := stored_zone cfg "dht22" f;
     temp := t_dht f; hum := h_dht f; press := None;
     source := stored_source cfg f |}.

Definition bme280_row (cfg : config) (f : fields) : row :=
  {| ts := f_ts f; sensor := "bme280"; zone := stored_zone cfg "bme280" f;
     temp := t_bme f; hum := h_bme f; press := p_bme f;
     source := stored_source cfg f |}.

(** The rows a table holds that are not committed yet: the table is the
    committed table followed by [tail]. *)
Definition uncommitted (c : Sqlite.conn) (tail : list row) : Prop :=
  readings c = durable c ++ tail.

(** The measurement fields with the keys each one is read from, in the
    order of lines 134-143. *)
Definition field_chains : list ((fields -> option PyFloat.float) * list string) :=
  [(t_dht, ["t_dht"; "temperature_dht"]);
   (h_dht, ["h_dht"; "humidity_dht"]);
   (t_bme, ["t_bme"; "temperature"; "temp"; "lt_bme"]);
   (h_bme, ["h_bme"; "humidity"; "hum"]);
   (p_bme, ["pressure"; "press"; "p_bme"])].

Definition falsy_at (d : list (string * value)) (k : string) : Prop :=
  truthy (getv d k) = false.

(** The values [float] turns into a number without raising. *)
Definition numeric_like (v : value) : bool :=
  match v with
  | VBool _ | VInt _ | VFloat _ | VStr _ => true
  | VNone | VList _ | VDict _ => false
  end.

(** [name], trimmed and lower-cased, is one of the known sensor names. *)
Definition known_name (name : string) : bool :=
  member (lower (strip name)) (bme280_names ++ dht22_names).

Definition with_force (cfg : config) (b : bool) : config :=
  {| RETENTION_DAYS := RETENTION_DAYS cfg;
     COMMIT_EVERY := COMMIT_EVERY cfg;
     CLEANUP_EVERY := CLEANUP_EVERY cfg;
     CLEANUP_INTERVAL_SEC := CLEANUP_INTERVAL_SEC cfg;
     DEFAULT_ZONE := DEFAULT_ZONE cfg;
     DEFAULT_SOURCE := DEFAULT_SOURCE cfg;
     INDOOR_SENSOR := INDOOR_SENSOR cfg;
     OUTDOOR_SENSOR := OUTDOOR_SENSOR cfg;
     FORCE_ZONE_BY_SENSOR := b |}.

(** An environment given as a list of assignments. *)
Definition env_of (l : list (string * string)) : environ :=
  fun k =>
    match find (fun p => String.eqb k (fst p)) l with
    | Some p => Some (snd p)
    | None => None
    end.

(** Every character of [s] is one of 0..9. *)
Fixpoint all_digits (s : string) : bool :=
  match s with
  | EmptyString => true
  | String c r => isdigit c && all_digits r
  end.

(** The value of a decimal numeral read from the left, after [acc]. *)
Fixpoint hval (acc : Z) (d : Decimal.uint) : Z :=
  match d with
  | Decimal.Nil => acc
  | Decimal.D0 l => hval (10 * acc) l
  | Decimal.D1 l => hval (10 * acc + 1) l
  | Decimal.D2 l => hval (10 * acc + 2) l
  | Decimal.D3 l => hval (10 * acc + 3) l
  | Decimal.D4 l => hval (10 * acc + 4) l
  | Decimal.D5 l => hval (10 * acc + 5) l
  | Decimal.D6 l => hval (10 * acc + 6) l
  | Decimal.D7 l => hval (10 * acc + 7) l
  | Decimal.D8 l => hval (10 * acc + 8) l
  | Decimal.D9 l => hval (10 * acc + 9) l
  end.

Definition measured (r : row) : bool :=
  is_some (temp r) || is_some (hum r) || is_some (press r).

Definition finite_or_null (o : option PyFloat.float) : bool :=
  match o with
  | Some v => PyFloat.isfinite v
  | None => true
  end.

(** ** The inserts *)

Lemma insert_groups_spec (cfg : config) (f : fields) (c : Sqlite.conn) :
  insert_groups cfg f c =
  ({| readings := readings c ++ group_rows cfg f;
      durable := durable c;
      trace := trace c ++ map Insert (group_rows cfg f) |},
   match group_rows cfg f with [] => false | _ => true end).
Proof.
  unfold group_rows, insert_groups, insert_dht22, insert_bme280.
  destruct (is_some (t_dht f) || is_some (h_dht f));
    destruct (is_some (t_bme f) || is_some (h_bme f) || is_some (p_bme f));
    destruct c as [rs du tr]; unfold Sqlite.insert, Sqlite.open;
    cbn [fst snd readings durable trace app map orb];
    rewrite <- ?app_assoc, ?app_nil_r; reflexivity.
Qed.

Lemma group_rows_length (cfg : config) (f : fields) :
  (List.length (group_rows cfg f) <= 2)%nat.
Proof.
  unfold group_rows, insert_groups, insert_dht22, insert_bme280.
  destruct (is_some (t_dht f) || is_some (h_dht f));
    destruct (is_some (t_bme f) || is_some (h_bme f) || is_some (p_bme f));
    cbn; lia.
Qed.

Lemma inserted_rows_app (a b : list event) :
  inserted_rows (a ++ b) = inserted_rows a ++ inserted_rows b.
Proof. unfold inserted_rows. apply flat_map_app. Qed.

Lemma inserted_rows_map (rs : list row) : inserted_rows (map Insert rs) = rs.
Proof.
  induction rs as [|r rs IH]; [reflexivity|].
  cbn. unfold inserted_rows in IH. now rewrite IH.
Qed.

Lemma with_conn_same (st : state) : with_conn st (conn st) = st.
Proof. destruct st; reflexivity. Qed.

Lemma insert_groups_nil (cfg : config) (f : fields) (c : Sqlite.conn) :
  group_rows cfg f = [] -> insert_groups cfg f c = (c, false).
Proof.
  intros H. rewrite insert_groups_spec, H. destruct c; cbn.
  now rewrite !app_nil_r.
Qed.

(** ** The write batcher *)

Lemma write_batcher_trace (cfg : config) (st : state) :
  trace (conn (write_batcher cfg st)) =
  trace (conn st) ++ (if flush_due cfg st then [Commit] else []).
Proof.
  unfold write_batcher. destruct (flush_due cfg st); cbn; [reflexivity|].
  now rewrite app_nil_r.
Qed.

Lemma write_batcher_readings (cfg : config) (st : state) :
  readings (conn (write_batcher cfg st)) = readings (conn st).
Proof. unfold write_batcher. now destruct (flush_due cfg st). Qed.

Lemma write_batcher_cleanup (cfg : config) (st : state) :
  _inserts_since_cleanup (write_batcher cfg st) = _inserts_since_cleanup st
  /\ _last_cleanup_ts (write_batcher cfg st) = _last_cleanup_ts st.
Proof. unfold write_batcher. now destruct (flush_due cfg st). Qed.

Lemma write_batcher_commit (cfg : config) (st : state) :
  _inserts_since_commit (write_batcher cfg st) =
  if COMMIT_EVERY cfg <=? _inserts_since_commit st then 0
  else _inserts_since_commit st.
Proof. unfold write_batcher, flush_due. now destruct (_ <=? _). Qed.

(** ** The retention sweeper *)

Lemma sweep_trace (cfg : config) (now : PyFloat.float) (n : Z) (st : state) :
  trace (conn (sweep cfg now n st)) =
  trace (conn st) ++ sweep_events cfg n (deleted_by cfg n (conn st)).
Proof.
  unfold sweep, sweep_events, deleted_by, delete_older.
  set (d := Z.of_nat _).
  assert (Hd : negb (d =? 0) && (0 <? d) = (0 <? d)).
  { destruct (Z.ltb_spec 0 d), (Z.eqb_spec d 0); cbn; try reflexivity; lia. }
  rewrite Hd. destruct (0 <? d); cbn; rewrite <- ?app_assoc; reflexivity.
Qed.

Lemma sweep_readings (cfg : config) (now : PyFloat.float) (n : Z) (st : state) :
  readings (conn (sweep cfg now n st)) =
  filter (fun r => negb (older_than (cutoff_at cfg n) r)) (readings (conn st)).
Proof.
  unfold sweep, delete_older.
  now destruct (negb _ && _).
Qed.

Lemma sweep_globals (cfg : config) (now : PyFloat.float) (n : Z) (st : state) :
  _inserts_since_cleanup (sweep cfg now n st) = 0
  /\ _last_cleanup_ts (sweep cfg now n st) = now
  /\ _inserts_since_commit (sweep cfg now n st) = _inserts_since_commit st.
Proof. unfold sweep, delete_older. now destruct (negb _ && _). Qed.

(** ** The handler, phase by phase *)

Lemma do_POST_raise (cfg : config) (rq : request) (st : state) (e : pyexc) :
  extract cfg (body rq) (t_recv rq) = Raise e -> do_POST cfg rq st = (500, st).
Proof. intros H. unfold do_POST. now rewrite H. Qed.

Lemma do_POST_no_row (cfg : config) (rq : request) (st : state) (f : fields) :
  extract cfg (body rq) (t_recv rq) = Ok f ->
  group_rows cfg f = [] ->
  do_POST cfg rq st = (200, st).
Proof.
  intros H Hrows. unfold do_POST.
  rewrite H, (insert_groups_nil _ _ _ Hrows). now rewrite with_conn_same.
Qed.

Lemma do_POST_rows (cfg : config) (rq : request) (st : state) (f : fields) :
  extract cfg (body rq) (t_recv rq) = Ok f ->
  group_rows cfg f <> [] ->
  do_POST cfg rq st =
  match retention_sweeper cfg (t_maint rq) (batched cfg f st) with
  | Ok st3 => (200, st3)
  | Raise _ => (500, batched cfg f st)
  end.
Proof.
  intros H Hrows. unfold do_POST, batched.
  rewrite H, insert_groups_spec.
  destruct (group_rows cfg f); [congruence|reflexivity].
Qed.

Lemma batched_conn (cfg : config) (f : fields) (st : state) :
  readings (conn (batched cfg f st)) = readings (conn st) ++ group_rows cfg f
  /\ trace (conn (batched cfg f st)) =
     trace (conn st) ++ map Insert (group_rows cfg f)
       ++ (if COMMIT_EVERY cfg <=? _inserts_since_commit st + 1 then [Commit] else []).
Proof.
  unfold batched. rewrite write_batcher_readings, write_batcher_trace.
  rewrite insert_groups_spec. unfold flush_due. cbn. now rewrite app_assoc.
Qed.

Lemma batched_globals (cfg : config) (f : fields) (st : state) :
  _inserts_since_commit (batched cfg f st) =
    (if COMMIT_EVERY cfg <=? _inserts_since_commit st + 1 then 0
     else _inserts_since_commit st + 1)
  /\ _inserts_since_cleanup (batched cfg f st) = _inserts_since_cleanup st + 1
  /\ _last_cleanup_ts (batched cfg f st) = _last_cleanup_ts st.
Proof.
  unfold batched.
  rewrite write_batcher_commit.
  destruct (write_batcher_cleanup cfg
              (count_write (with_conn st (fst (insert_groups cfg f (conn st))))))
    as [-> ->].
  now cbn.
Qed.

Lemma sweep_due_batched (cfg : config) (rq : request) (f : fields) (st : state) :
  sweep_due cfg (t_maint rq) (batched cfg f st) = gate cfg rq st.
Proof.
  unfold sweep_due, gate.
  destruct (batched_globals cfg f st) as (_ & -> & ->). reflexivity.
Qed.

Lemma do_POST_trace (cfg : config) (rq : request) (st : state) :
  trace (conn (snd (do_POST cfg rq st))) = trace (conn st) ++ step_events cfg rq st.
Proof.
  unfold step_events.
  destruct (extract cfg (body rq) (t_recv rq)) as [f|e] eqn:Hx.
  - destruct (group_rows cfg f) as [|r rs] eqn:Hrows.
    + rewrite (do_POST_no_row _ _ _ _ Hx Hrows). cbn. now rewrite app_nil_r.
    + assert (Hne : group_rows cfg f <> []) by (rewrite Hrows; discriminate).
      rewrite (do_POST_rows _ _ _ _ Hx Hne).
      unfold retention_sweeper. rewrite sweep_due_batched.
      destruct (batched_conn cfg f st) as [Hr Ht].
      cbv zeta. rewrite <- Hrows.
      destruct (gate cfg rq st).
      * destruct (PyFloat.to_Z (t_maint rq)) as [n|e]; cbn [bind snd].
        -- unfold bind_int.
           destruct (int64 (cutoff_at cfg n)); cbn [bind snd].
           ++ rewrite sweep_trace, Ht. unfold deleted_by. rewrite Hr.
              now rewrite <- !app_assoc.
           ++ rewrite Ht. now rewrite app_nil_r.
        -- rewrite Ht. now rewrite app_nil_r.
      * cbn [snd]. rewrite Ht. now rewrite app_nil_r.
  - rewrite (do_POST_raise _ _ _ _ Hx). cbn. now rewrite app_nil_r.
Qed.

Lemma events_of_step (cfg : config) (rq : request) (st : state) :
  events_of cfg rq st = step_events cfg rq st.
Proof.
  unfold events_of. rewrite do_POST_trace, skipn_app, skipn_all, Nat.sub_diag.
  reflexivity.
Qed.

Lemma after_inserts_map (rs : list row) (evs : list event) :
  after_inserts (map Insert rs ++ evs) = after_inserts evs.
Proof. induction rs; cbn; auto. Qed.

Lemma writes_ok (cfg : config) (rq : request) (f : fields) :
  extract cfg (body rq) (t_recv rq) = Ok f ->
  writes cfg rq = match group_rows cfg f with [] => false | _ => true end.
Proof. intros H. unfold writes. now rewrite H. Qed.

(** The counter of the batcher after one request. *)
Lemma do_POST_commit_counter (cfg : config) (rq : request) (st : state) :
  _inserts_since_commit (snd (do_POST cfg rq st)) =
  if writes cfg rq then
    if COMMIT_EVERY cfg <=? _inserts_since_commit st + 1 then 0
    else _inserts_since_commit st + 1
  else _inserts_since_commit st.
Proof.
  unfold writes.
  destruct (extract cfg (body rq) (t_recv rq)) as [f|e] eqn:Hx.
  - destruct (group_rows cfg f) as [|r rs] eqn:Hrows.
    + now rewrite (do_POST_no_row _ _ _ _ Hx Hrows).
    + assert (Hne : group_rows cfg f <> []) by (rewrite Hrows; discriminate).
      rewrite (do_POST_rows _ _ _ _ Hx Hne).
      destruct (batched_globals cfg f st) as (Hc & _).
      unfold retention_sweeper.
      destruct (sweep_due _ _ _); [|now cbn].
      destruct (PyFloat.to_Z (t_maint rq)) as [n|e]; cbn [bind snd]; [|assumption].
      unfold bind_int.
      destruct (int64 (cutoff_at cfg n)); cbn [bind snd]; [|assumption].
      destruct (sweep_globals cfg (t_maint rq) n (batched cfg f st)) as (_ & _ & ->).
      assumption.
  - now rewrite (do_POST_raise _ _ _ _ Hx).
Qed.

(** The batcher flushes exactly when the advanced counter reaches the
    threshold. *)
Lemma batch_flushed_iff (cfg : config) (rq : request) (st : state) :
  batch_flushed cfg rq st =
  writes cfg rq && (COMMIT_EVERY cfg <=? _inserts_since_commit st + 1).
Proof.
  unfold batch_flushed, writes. rewrite events_of_step. unfold step_events.
  destruct (extract cfg (body rq) (t_recv rq)) as [f|e]; [|reflexivity].
  cbv zeta. rewrite after_inserts_map.
  destruct (group_rows cfg f) as [|r rs]; [reflexivity|].
  destruct (COMMIT_EVERY cfg <=? _inserts_since_commit st + 1); [reflexivity|].
  cbn [app andb].
  destruct (gate cfg rq st); [|reflexivity].
  destruct (PyFloat.to_Z (t_maint rq)) as [n|e]; [|reflexivity].
  now destruct (int64 (cutoff_at cfg n)).
Qed.

Lemma inserted_rows_sweep_events (cfg : config) (n d : Z) :
  inserted_rows (sweep_events cfg n d) = [].
Proof. unfold sweep_events. now destruct (0 <? d). Qed.

(** The rows a request inserts are the rows of its groups. *)
Lemma inserted_rows_step (cfg : config) (rq : request) (st : state) :
  inserted_rows (events_of cfg rq st) =
  match extract cfg (body rq) (t_recv rq) with
  | Ok f => group_rows cfg f
  | Raise _ => []
  end.
Proof.
  rewrite events_of_step. unfold step_events.
  destruct (extract cfg (body rq) (t_recv rq)) as [f|e]; [|reflexivity].
  cbv zeta. rewrite inserted_rows_app, inserted_rows_map.
  destruct (group_rows cfg f) as [|r rs]; [reflexivity|].
  rewrite inserted_rows_app.
  replace (inserted_rows (if COMMIT_EVERY cfg <=? _inserts_since_commit st + 1
                          then [Commit] else [])) with (@nil row)
    by now destruct (_ <=? _).
  destruct (gate cfg rq st); [|now rewrite app_nil_r].
  destruct (PyFloat.to_Z (t_maint rq)) as [n|e]; [|now rewrite app_nil_r].
  destruct (int64 (cutoff_at cfg n)); [|now rewrite app_nil_r].
  rewrite inserted_rows_sweep_events. now rewrite app_nil_r.
Qed.

(** ** Runs of the server *)

Lemma serve_app (cfg : config) (a b : list request) (st : state) :
  serve cfg (a ++ b) st = serve cfg b (serve cfg a st).
Proof. revert st. induction a as [|rq a IH]; intros st; cbn; auto. Qed.

Lemma writing_cons (cfg : config) (rq : request) (rqs : list request) :
  writing cfg (rq :: rqs) = (if writes cfg rq then 1 else 0) + writing cfg rqs.
Proof. unfold writing. cbn. destruct (writes cfg rq); cbn [List.length]; lia. Qed.

Lemma writing_app (cfg : config) (a b : list request) :
  writing cfg (a ++ b) = writing cfg a + writing cfg b.
Proof. unfold writing. rewrite filter_app, length_app. lia. Qed.

Lemma writing_nonneg (cfg : config) (rqs : list request) : 0 <= writing cfg rqs.
Proof. unfold writing. lia. Qed.

(** One request keeps the counter of the batcher below the threshold and
    advances it modulo the threshold. *)
Lemma commit_counter_step (cfg : config) (rq : request) (st : state) :
  1 <= COMMIT_EVERY cfg ->
  0 <= _inserts_since_commit st < COMMIT_EVERY cfg ->
  let c := _inserts_since_commit (snd (do_POST cfg rq st)) in
  0 <= c < COMMIT_EVERY cfg
  /\ c = (_inserts_since_commit st + (if writes cfg rq then 1 else 0))
           mod COMMIT_EVERY cfg.
Proof.
  intros HT Hc. cbv zeta. rewrite do_POST_commit_counter.
  destruct (writes cfg rq).
  - destruct (Z.leb_spec (COMMIT_EVERY cfg) (_inserts_since_commit st + 1)).
    + assert (E : _inserts_since_commit st + 1 = COMMIT_EVERY cfg) by lia.
      rewrite E, Z_mod_same_full. lia.
    + rewrite Z.mod_small by lia. lia.
  - rewrite Z.add_0_r, Z.mod_small by lia. lia.
Qed.

Lemma commit_counter_run (cfg : config) (rqs : list request) (st : state) :
  1 <= COMMIT_EVERY cfg ->
  0 <= _inserts_since_commit st < COMMIT_EVERY cfg ->
  let c := _inserts_since_commit (serve cfg rqs st) in
  0 <= c < COMMIT_EVERY cfg
  /\ c = (_inserts_since_commit st + writing cfg rqs) mod COMMIT_EVERY cfg.
Proof.
  intros HT. revert st. induction rqs as [|rq rqs IH]; intros st Hc; cbv zeta.
  - cbn [serve]. unfold writing. cbn. rewrite Z.add_0_r, Z.mod_small by lia. lia.
  - cbn [serve].
    destruct (commit_counter_step cfg rq st HT Hc) as [Hb He].
    destruct (IH _ Hb) as [Hb' He'].
    split; [exact Hb'|].
    rewrite He', He, writing_cons.
    rewrite Zplus_mod_idemp_l. f_equal. lia.
Qed.

(** ** End-to-end scenario *)

Lemma default_config_loaded : load_config (fun _ => None) = Ok default_config.
Proof. reflexivity. Qed.

(** C1, as stated, fails: under the default configuration the row of the
    scenario is not the one whose zone column holds "indoor". *)
Lemma end_to_end_zone_column_counterexample :
  inserted_rows (events_of default_config bme_indoor_request (start []))
  <> [bme_indoor_row (Some "indoor")].
Proof. vm_compute. discriminate. Qed.

(** C1, amended: the submission [{t_bme: 21.5, h_bme: 44, pressure: 751,
    zone: "indoor"}] received at server time 1700000000 under the default
    configuration inserts exactly one row, whatever the state of the server:
    sensor "bme280", ts 1700000000, temp 21.5, hum 44, press 751, and the
    zone and source columns NULL, the resolved zone "indoor" being the
    default zone. *)
Theorem end_to_end_bme_indoor (st : state) (t0 t1 : PyFloat.float) :
  PyFloat.to_Z t0 = Ok 1700000000 ->
  inserted_rows
    (events_of default_config
       {| body := Ok bme_indoor_payload; t_recv := t0; t_maint := t1 |} st)
  = [bme_indoor_row None]
  /\ resolve_zone default_config "bme280" "indoor" = "indoor"
  /\ DEFAULT_ZONE default_config = "indoor".
Proof.
  intros H. split; [|split; reflexivity].
  rewrite inserted_rows_step. unfold extract. cbn [body t_recv bind].
  rewrite H. vm_compute. reflexivity.
Qed.

Lemma end_to_end_bme_indoor_witness :
  PyFloat.to_Z clock_1700000000 = Ok 1700000000
  /\ inserted_rows (events_of default_config bme_indoor_request (start []))
     = [bme_indoor_row None].
Proof.
  split; [reflexivity|].
  apply (end_to_end_bme_indoor (start []) clock_1700000000 clock_1700000000).
  reflexivity.
Defined.

(** ** Synonym priority *)

(** The chain [payload.get(k) or rest] yields the value under [k] when that
    value is true, and goes on to [rest] when the key is missing or its
    value is false. *)
Lemma synonym_chain_takes_truthy
  (d : list (string * value)) (k : string) (rest : result value) (v : value) :
  lookup k d = Some v -> truthy v = true ->
  or_ (get (VDict d) k) rest = Ok v.
Proof. intros Hl Ht. unfold or_, get. cbn [bind]. now rewrite Hl, Ht. Qed.

Lemma synonym_chain_skips_falsy
  (d : list (string * value)) (k : string) (rest : result value) :
  match lookup k d with Some v => truthy v = false | None => True end ->
  or_ (get (VDict d) k) rest = rest.
Proof.
  intros H. unfold or_, get. cbn [bind].
  destruct (lookup k d) as [v|]; [now rewrite H|reflexivity].
Qed.

(** C2 on the code: with [{"t_bme": 0, "temperature": 25}] the value 0 under
    the first key coerces to the finite number 0.0, yet the temperature
    stored is 25.0, taken from the second key; with [{"t_bme": 0}] alone no
    temperature is stored and no row is written. *)
Lemma zero_under_first_synonym_is_skipped :
  to_float (VInt 0) = Some (PyFloat.of_Z 0)
  /\ (exists f,
        extract default_config (Ok zero_first_payload) clock_1700000000 = Ok f
        /\ t_bme f = Some (PyFloat.of_Z 25))
  /\ (exists f,
        extract default_config (Ok zero_only_payload) clock_1700000000 = Ok f
        /\ t_bme f = None
        /\ group_rows default_config f = []).
Proof.
  split; [reflexivity|].
  split; eexists; (split; [vm_compute; reflexivity|]); [reflexivity|].
  split; reflexivity.
Qed.

(** ** Write batching *)

(** C3, as stated, fails: with threshold 2, a submission that inserts two
    rows is followed by no commit, and the counter stands at 1. *)
Lemma flush_on_second_row_counterexample :
  let cfg := with_commit_every default_config 2 in
  let st' := snd (do_POST cfg both_groups_request (start [])) in
  List.length (inserted_rows (trace (conn st'))) = 2%nat
  /\ count is_commit (trace (conn st')) = 0%nat
  /\ _inserts_since_commit st' = 1.
Proof. vm_compute. repeat split. Qed.

(** C3, amended: with a flush threshold T >= 1 and a server started with its
    counters at zero, the write batcher commits at a request exactly when
    the request is the T-th, 2T-th, ... writing submission (a submission
    that inserted one or two rows), and the counter of inserts since the
    last flush is then zero; at every moment the counter is the number of
    writing submissions modulo T. *)
Theorem flush_every_Tth_writing_submission
  (cfg : config) (existing : list row) (rqs : list request) (rq : request) :
  1 <= COMMIT_EVERY cfg ->
  let st := serve cfg rqs (start existing) in
  let k := writing cfg (rqs ++ [rq]) in
  batch_flushed cfg rq st = writes cfg rq && (k mod COMMIT_EVERY cfg =? 0)
  /\ _inserts_since_commit (snd (do_POST cfg rq st)) = k mod COMMIT_EVERY cfg
  /\ (batch_flushed cfg rq st = true ->
      _inserts_since_commit (snd (do_POST cfg rq st)) = 0).
Proof.
  intros HT st k.
  assert (H0 : 0 <= _inserts_since_commit (start existing) < COMMIT_EVERY cfg)
    by (cbn; lia).
  destruct (commit_counter_run cfg rqs _ HT H0) as [Hb He]. fold st in Hb, He.
  destruct (commit_counter_step cfg rq st HT Hb) as [Hb' He'].
  assert (Hk : _inserts_since_commit (snd (do_POST cfg rq st))
               = k mod COMMIT_EVERY cfg).
  { rewrite He', He. unfold k. rewrite writing_app, writing_cons.
    rewrite Zplus_mod_idemp_l. f_equal. cbn [start _inserts_since_commit].
    unfold writing at 3. cbn. lia. }
  assert (Hf : batch_flushed cfg rq st
               = writes cfg rq && (k mod COMMIT_EVERY cfg =? 0)).
  { rewrite batch_flushed_iff. rewrite <- Hk, do_POST_commit_counter.
    destruct (writes cfg rq); [|reflexivity]. cbn [andb].
    destruct (Z.leb_spec (COMMIT_EVERY cfg) (_inserts_since_commit st + 1)).
    - reflexivity.
    - symmetry. apply Z.eqb_neq. lia. }
  split; [exact Hf|]. split; [exact Hk|].
  intros Hfl. rewrite Hf in Hfl. apply andb_prop in Hfl as [_ Hz].
  apply Z.eqb_eq in Hz. now rewrite Hk.
Qed.

Lemma flush_every_Tth_writing_submission_witness :
  let cfg := with_commit_every default_config 2 in
  1 <= COMMIT_EVERY cfg
  /\ batch_flushed cfg both_groups_request (serve cfg [both_groups_request] (start []))
     = true
  /\ _inserts_since_commit
       (serve cfg [both_groups_request; both_groups_request] (start [])) = 0.
Proof.
  cbv zeta.
  assert (HT : 1 <= COMMIT_EVERY (with_commit_every default_config 2))
    by (cbn; lia).
  pose proof (flush_every_Tth_writing_submission
                (with_commit_every default_config 2) []
                [both_groups_request] both_groups_request HT) as H.
  cbv zeta in H. destruct H as (Hf & Hk & _).
  split; [exact HT|]. split.
  - rewrite Hf. vm_compute. reflexivity.
  - change (serve (with_commit_every default_config 2)
              [both_groups_request; both_groups_request] (start []))
      with (snd (do_POST (with_commit_every default_config 2) both_groups_request
                   (serve (with_commit_every default_config 2)
                      [both_groups_request] (start [])))).
    rewrite Hk. vm_compute. reflexivity.
Defined.

(** ** Counters advance once per writing submission *)

Lemma do_POST_cleanup_counter (cfg : config) (rq : request) (st : state) (f : fields) :
  extract cfg (body rq) (t_recv rq) = Ok f ->
  group_rows cfg f <> [] ->
  fst (do_POST cfg rq st) = 200 ->
  _inserts_since_cleanup (snd (do_POST cfg rq st)) =
  if gate cfg rq st then 0 else _inserts_since_cleanup st + 1.
Proof.
  intros Hx Hne. rewrite (do_POST_rows _ _ _ _ Hx Hne).
  unfold retention_sweeper. rewrite sweep_due_batched.
  destruct (batched_globals cfg f st) as (_ & Hc & _).
  destruct (gate cfg rq st); [|intros _; exact Hc].
  destruct (PyFloat.to_Z (t_maint rq)) as [n|e]; cbn [bind fst snd];
    [|discriminate].
  unfold bind_int.
  destruct (int64 (cutoff_at cfg n)); cbn [bind fst snd]; [|discriminate].
  intros _. now destruct (sweep_globals cfg (t_maint rq) n (batched cfg f st)).
Qed.

(** C4: when a request is answered with success, it inserted at most two
    rows; if it inserted none, the state is unchanged; if it inserted one or
    two, each counter was advanced by one before its threshold was looked
    at, so the flush counter ends at 0 or at its old value plus one and the
    sweep counter ends at 0 or at its old value plus one. A submission that
    is processed and yields no row is answered with success. *)
Theorem counters_advance_once_per_submission
  (cfg : config) (rq : request) (st : state) :
  let rows := inserted_rows (events_of cfg rq st) in
  let st' := snd (do_POST cfg rq st) in
  (fst (do_POST cfg rq st) = 200 ->
   (List.length rows <= 2)%nat
   /\ (rows = [] -> st' = st)
   /\ (rows <> [] ->
       _inserts_since_commit st' =
         (if COMMIT_EVERY cfg <=? _inserts_since_commit st + 1 then 0
          else _inserts_since_commit st + 1)
       /\ _inserts_since_cleanup st' =
         (if gate cfg rq st then 0 else _inserts_since_cleanup st + 1)))
  /\ (forall f, extract cfg (body rq) (t_recv rq) = Ok f ->
      rows = [] -> do_POST cfg rq st = (200, st)).
Proof.
  cbv zeta. rewrite inserted_rows_step.
  destruct (extract cfg (body rq) (t_recv rq)) as [f|e] eqn:Hx.
  - split.
    + intros H200. split; [apply group_rows_length|]. split.
      * intros Hrows. now rewrite (do_POST_no_row _ _ _ _ Hx Hrows).
      * intros Hne. split.
        -- rewrite do_POST_commit_counter, (writes_ok _ _ _ Hx).
           destruct (group_rows cfg f); [congruence|reflexivity].
        -- now apply (do_POST_cleanup_counter _ _ _ f).
    + intros f' Hf' Hrows. injection Hf' as <-.
      now apply (do_POST_no_row _ _ _ f).
  - rewrite (do_POST_raise _ _ _ _ Hx). split; [discriminate|discriminate].
Qed.

Lemma counters_advance_once_per_submission_witness :
  let cfg := with_commit_every default_config 5 in
  let st' := snd (do_POST cfg both_groups_request (start [])) in
  fst (do_POST cfg both_groups_request (start [])) = 200
  /\ List.length (inserted_rows (events_of cfg both_groups_request (start []))) = 2%nat
  /\ _inserts_since_commit st' = 1
  /\ _inserts_since_cleanup st' = 1
  /\ do_POST cfg empty_request aged_state = (200, aged_state).
Proof.
  cbv zeta.
  destruct (counters_advance_once_per_submission
              (with_commit_every default_config 5) both_groups_request (start []))
    as [H _].
  destruct (counters_advance_once_per_submission
              (with_commit_every default_config 5) empty_request aged_state)
    as [_ H0].
  cbv zeta in H, H0.
  assert (H200 : fst (do_POST (with_commit_every default_config 5)
                        both_groups_request (start [])) = 200)
    by (vm_compute; reflexivity).
  destruct (H H200) as (_ & _ & Hc).
  assert (Hne : inserted_rows
                  (events_of (with_commit_every default_config 5)
                     both_groups_request (start [])) <> [])
    by (vm_compute; discriminate).
  destruct (Hc Hne) as [H1 H2].
  split; [exact H200|]. split; [vm_compute; reflexivity|].
  split; [rewrite H1; vm_compute; reflexivity|].
  split; [rewrite H2; vm_compute; reflexivity|].
  eapply H0; vm_compute; reflexivity.
Defined.

(** ** Sweep gating *)

Lemma count_app (p : event -> bool) (a b : list event) :
  count p (a ++ b) = (count p a + count p b)%nat.
Proof. unfold count. now rewrite filter_app, length_app. Qed.

Lemma count_delete_inserts (rs : list row) : count is_delete (map Insert rs) = 0%nat.
Proof. induction rs; cbn; auto. Qed.

Lemma count_delete_sweep_events (cfg : config) (n d : Z) :
  count is_delete (sweep_events cfg n d) = 1%nat.
Proof. unfold sweep_events. now destruct (0 <? d). Qed.

Lemma int64_range (z : Z) : int64 z = true <-> - 2 ^ 63 <= z < 2 ^ 63.
Proof. unfold int64. rewrite andb_true_iff, Z.leb_le, Z.ltb_lt. reflexivity. Qed.

Lemma cutoff_binds_at (cfg : config) (now : PyFloat.float) (n : Z) :
  PyFloat.to_Z now = Ok n ->
  cutoff_binds cfg now = int64 (n - RETENTION_DAYS cfg * 86400).
Proof.
  intros H. unfold cutoff_binds, cutoff_at. rewrite H. f_equal. lia.
Qed.

(** Number of sweeps a request runs. *)
Lemma sweeps_of_request (cfg : config) (rq : request) (st : state) :
  count is_delete (events_of cfg rq st) =
  if writes cfg rq && gate cfg rq st && cutoff_binds cfg (t_maint rq)
  then 1%nat else 0%nat.
Proof.
  rewrite events_of_step. unfold step_events, writes.
  destruct (extract cfg (body rq) (t_recv rq)) as [f|e]; [|reflexivity].
  cbv zeta. rewrite count_app, count_delete_inserts.
  destruct (group_rows cfg f) as [|r rs]; [reflexivity|].
  rewrite count_app.
  replace (count is_delete (if COMMIT_EVERY cfg <=? _inserts_since_commit st + 1
                            then [Commit] else [])) with 0%nat
    by now destruct (_ <=? _).
  cbn [andb Nat.add].
  destruct (gate cfg rq st); [|reflexivity].
  unfold cutoff_binds.
  destruct (PyFloat.to_Z (t_maint rq)) as [n|e]; [|reflexivity].
  destruct (int64 (cutoff_at cfg n)); [|reflexivity].
  apply count_delete_sweep_events.
Qed.

(** C5, as stated, fails: under [RETENTION_DAYS=999999999999999], which
    loads, a request that wrote a row with both gates satisfied at the
    finite clock reading 1700000000 runs no sweep: the cutoff
    [1700000000 - 999999999999999 * 86400] is below [- 2 ^ 63], binding it
    to the DELETE raises [OverflowError] and the request is answered 500. *)
Lemma sweep_gates_cutoff_overflow_counterexample :
  let cfg := keep_forever_config in
  let rq := bme_indoor_request in
  let st := almost_due_state in
  load_config (env_of [("RETENTION_DAYS", "999999999999999")]) = Ok cfg
  /\ writes cfg rq = true
  /\ CLEANUP_EVERY cfg <= _inserts_since_cleanup st + 1
  /\ PyFloat.ge_int (PyFloat.sub (t_maint rq) (_last_cleanup_ts st))
       (CLEANUP_INTERVAL_SEC cfg) = true
  /\ PyFloat.isfinite (t_maint rq) = true
  /\ count is_delete (events_of cfg rq st) = 0%nat
  /\ fst (do_POST cfg rq st) = 500.
Proof. vm_compute. repeat split; discriminate. Qed.

(** C5, amended: at a request, with the sweep counter advanced by the
    request and the elapsed time computed as [now - _last_cleanup_ts], no
    sweep runs when the counter is below CLEANUP_EVERY, none when the
    elapsed time is below CLEANUP_INTERVAL_SEC, whatever the other gate
    says, and none when the request wrote nothing; when the request wrote,
    both gates hold, and the time stamp [int(time.time())] of the request
    and the cutoff [int(now) - RETENTION_DAYS * 86400] of the sweep are
    signed 64-bit integers, exactly one sweep runs. *)
Theorem sweep_needs_both_gates (cfg : config) (rq : request) (st : state) :
  let sweeps := count is_delete (events_of cfg rq st) in
  let elapsed := PyFloat.sub (t_maint rq) (_last_cleanup_ts st) in
  (_inserts_since_cleanup st + 1 < CLEANUP_EVERY cfg -> sweeps = 0%nat)
  /\ (PyFloat.ge_int elapsed (CLEANUP_INTERVAL_SEC cfg) = false -> sweeps = 0%nat)
  /\ (writes cfg rq = false -> sweeps = 0%nat)
  /\ (forall t n,
      writes cfg rq = true ->
      CLEANUP_EVERY cfg <= _inserts_since_cleanup st + 1 ->
      PyFloat.ge_int elapsed (CLEANUP_INTERVAL_SEC cfg) = true ->
      PyFloat.to_Z (t_recv rq) = Ok t ->
      - 2 ^ 63 <= t < 2 ^ 63 ->
      PyFloat.to_Z (t_maint rq) = Ok n ->
      - 2 ^ 63 <= n - RETENTION_DAYS cfg * 86400 < 2 ^ 63 ->
      sweeps = 1%nat).
Proof.
  cbv zeta. rewrite sweeps_of_request. unfold gate.
  repeat split.
  - intros H. apply Z.leb_gt in H. rewrite H.
    now rewrite andb_false_r.
  - intros H. rewrite H. now rewrite !andb_false_r.
  - intros H. now rewrite H.
  - intros t n Hw Hc He _ _ Hn Hr. apply Z.leb_le in Hc.
    apply int64_range in Hr.
    now rewrite Hw, Hc, He, (cutoff_binds_at cfg _ n Hn), Hr.
Qed.

Lemma sweep_needs_both_gates_witness :
  writes default_config bme_indoor_request = true
  /\ CLEANUP_EVERY default_config <= _inserts_since_cleanup almost_due_state + 1
  /\ PyFloat.ge_int
       (PyFloat.sub (t_maint bme_indoor_request) (_last_cleanup_ts almost_due_state))
       (CLEANUP_INTERVAL_SEC default_config) = true
  /\ PyFloat.to_Z (t_recv bme_indoor_request) = Ok 1700000000
  /\ - 2 ^ 63 <= 1700000000 < 2 ^ 63
  /\ PyFloat.to_Z (t_maint bme_indoor_request) = Ok 1700000000
  /\ - 2 ^ 63 <= 1700000000 - RETENTION_DAYS default_config * 86400 < 2 ^ 63
  /\ count is_delete (events_of default_config bme_indoor_request almost_due_state)
     = 1%nat
  /\ count is_delete (events_of default_config bme_indoor_request (start []))
     = 0%nat
  /\ count is_delete (events_of default_config bme_indoor_request just_swept_state)
     = 0%nat
  /\ count is_delete (events_of default_config empty_request aged_state)
     = 0%nat.
Proof.
  assert (Hw : writes default_config bme_indoor_request = true)
    by (vm_compute; reflexivity).
  assert (Hc : CLEANUP_EVERY default_config
               <= _inserts_since_cleanup almost_due_state + 1)
    by (cbn; lia).
  assert (He : PyFloat.ge_int
                 (PyFloat.sub (t_maint bme_indoor_request)
                    (_last_cleanup_ts almost_due_state))
                 (CLEANUP_INTERVAL_SEC default_config) = true)
    by (vm_compute; reflexivity).
  assert (Ht : PyFloat.to_Z (t_recv bme_indoor_request) = Ok 1700000000)
    by (vm_compute; reflexivity).
  assert (Hti : - 2 ^ 63 <= 1700000000 < 2 ^ 63) by lia.
  assert (Hn : PyFloat.to_Z (t_maint bme_indoor_request) = Ok 1700000000)
    by (vm_compute; reflexivity).
  assert (Hni : - 2 ^ 63 <= 1700000000 - RETENTION_DAYS default_config * 86400
                < 2 ^ 63)
    by (cbn; lia).
  repeat (split; [assumption|]).
  split.
  - destruct (sweep_needs_both_gates default_config bme_indoor_request
                almost_due_state) as (_ & _ & _ & H).
    exact (H _ _ Hw Hc He Ht Hti Hn Hni).
  - split.
    + destruct (sweep_needs_both_gates default_config bme_indoor_request (start []))
        as (H & _).
      apply H. cbn. lia.
    + split.
      * destruct (sweep_needs_both_gates default_config bme_indoor_request
                    just_swept_state) as (_ & H & _).
        apply H. vm_compute. reflexivity.
      * destruct (sweep_needs_both_gates default_config empty_request aged_state)
          as (_ & _ & H & _).
        apply H. vm_compute. reflexivity.
Defined.

(** ** Retention sweep *)

Lemma retention_sweeper_due
  (cfg : config) (now : PyFloat.float) (st : state) (n : Z) :
  sweep_due cfg now st = true ->
  PyFloat.to_Z now = Ok n ->
  - 2 ^ 63 <= n - RETENTION_DAYS cfg * 86400 < 2 ^ 63 ->
  retention_sweeper cfg now st = Ok (sweep cfg now n st).
Proof.
  intros Hdue Hn Hr. apply int64_range in Hr.
  rewrite <- (cutoff_binds_at cfg now n Hn) in Hr. unfold cutoff_binds in Hr.
  rewrite Hn in Hr.
  unfold retention_sweeper. rewrite Hdue, Hn. cbn [bind].
  unfold bind_int. now rewrite Hr.
Qed.

Lemma cutoff_at_seconds (cfg : config) (n : Z) :
  cutoff_at cfg n = n - RETENTION_DAYS cfg * 86400.
Proof. unfold cutoff_at. lia. Qed.

(** C6, as stated, fails: under [RETENTION_DAYS=-999999999999999], which
    loads, the sweep triggered at the finite clock reading 1700000000 has
    the cutoff [1700000000 + 999999999999999 * 86400], above [2 ^ 63];
    binding it to the DELETE raises [OverflowError], the request is
    answered 500, and the rows that were in the table, all older than the
    cutoff, are still there. *)
Lemma sweep_keeps_older_rows_counterexample :
  let cfg := keep_nothing_config in
  let now := clock_1700000000 in
  let cutoff := 1700000000 - RETENTION_DAYS cfg * 86400 in
  let st' := snd (do_POST cfg bme_indoor_request aged_state) in
  load_config (env_of [("RETENTION_DAYS", "-999999999999999")]) = Ok cfg
  /\ sweep_due cfg now aged_state = true
  /\ PyFloat.isfinite now = true
  /\ PyFloat.to_Z now = Ok 1700000000
  /\ retention_sweeper cfg now aged_state = Raise OverflowError
  /\ fst (do_POST cfg bme_indoor_request aged_state) = 500
  /\ ts (row_at 1600000000) < cutoff
  /\ In (row_at 1600000000) (readings (conn st')).
Proof.
  vm_compute. repeat split; try discriminate. left. reflexivity.
Qed.

(** C6, amended: a sweep triggered at a finite clock reading [now] whose
    [cutoff = int(now) - RETENTION_DAYS * 86400] is a signed 64-bit integer
    leaves in the table exactly the rows whose timestamp is not below the
    cutoff, each as it was and in its place; the rows whose timestamp is
    strictly below the cutoff are gone. *)
Theorem sweep_deletes_exactly_older_rows
  (cfg : config) (now : PyFloat.float) (st : state) (n : Z) :
  sweep_due cfg now st = true ->
  PyFloat.to_Z now = Ok n ->
  - 2 ^ 63 <= n - RETENTION_DAYS cfg * 86400 < 2 ^ 63 ->
  exists st',
    retention_sweeper cfg now st = Ok st'
    /\ let cutoff := n - RETENTION_DAYS cfg * 86400 in
       readings (conn st') = filter (fun r => cutoff <=? ts r) (readings (conn st))
       /\ (forall r, In r (readings (conn st'))
                     <-> In r (readings (conn st)) /\ cutoff <= ts r)
       /\ (forall r, ts r < cutoff -> ~ In r (readings (conn st'))).
Proof.
  intros Hdue Hn Hr.
  exists (sweep cfg now n st).
  split; [exact (retention_sweeper_due cfg now st n Hdue Hn Hr)|].
  cbv zeta. rewrite sweep_readings, cutoff_at_seconds.
  set (cutoff := n - RETENTION_DAYS cfg * 86400).
  assert (E : filter (fun r => negb (older_than cutoff r)) (readings (conn st))
              = filter (fun r => cutoff <=? ts r) (readings (conn st))).
  { apply filter_ext. intros r. unfold older_than.
    destruct (Z.ltb_spec (ts r) cutoff), (Z.leb_spec cutoff (ts r));
      cbn; try reflexivity; lia. }
  rewrite E. split; [reflexivity|]. split.
  - intros r. rewrite filter_In, Z.leb_le. reflexivity.
  - intros r Hlt Hin. apply filter_In in Hin as [_ Hge].
    apply Z.leb_le in Hge. lia.
Qed.

Lemma sweep_deletes_exactly_older_rows_witness :
  sweep_due default_config clock_1700000000 aged_state = true
  /\ PyFloat.to_Z clock_1700000000 = Ok 1700000000
  /\ - 2 ^ 63 <= 1700000000 - RETENTION_DAYS default_config * 86400 < 2 ^ 63
  /\ exists st',
       retention_sweeper default_config clock_1700000000 aged_state = Ok st'
       /\ readings (conn st') = [row_at 1692224000; row_at 1699999999].
Proof.
  assert (Hdue : sweep_due default_config clock_1700000000 aged_state = true)
    by (vm_compute; reflexivity).
  assert (Hn : PyFloat.to_Z clock_1700000000 = Ok 1700000000)
    by (vm_compute; reflexivity).
  assert (Hr : - 2 ^ 63 <= 1700000000 - RETENTION_DAYS default_config * 86400
               < 2 ^ 63)
    by (cbn; lia).
  split; [exact Hdue|]. split; [exact Hn|]. split; [exact Hr|].
  destruct (sweep_deletes_exactly_older_rows default_config clock_1700000000
              aged_state 1700000000 Hdue Hn Hr) as (st' & Hs & Hk & _).
  exists st'. split; [exact Hs|].
  rewrite Hk. reflexivity.
Defined.

(** C7, as stated, fails: under [RETENTION_DAYS=999999999999999], which
    loads, the sweep triggered at the finite clock reading 1700000000
    raises [OverflowError] when its cutoff is bound to the DELETE; the
    request that triggered it is answered 500, the sweep counter stands at
    401 and the watermark is still the old one. *)
Lemma sweep_leaves_counter_and_watermark_counterexample :
  let cfg := keep_forever_config in
  let now := clock_1700000000 in
  let st' := snd (do_POST cfg bme_indoor_request aged_state) in
  load_config (env_of [("RETENTION_DAYS", "999999999999999")]) = Ok cfg
  /\ sweep_due cfg now aged_state = true
  /\ PyFloat.isfinite now = true
  /\ retention_sweeper cfg now aged_state = Raise OverflowError
  /\ fst (do_POST cfg bme_indoor_request aged_state) = 500
  /\ _inserts_since_cleanup st' = 401
  /\ _last_cleanup_ts st' = _last_cleanup_ts aged_state
  /\ _last_cleanup_ts st' <> now
  /\ count is_delete (trace (conn st')) = 0%nat.
Proof. vm_compute. repeat split; discriminate. Qed.

(** C7, amended: a sweep, once triggered at a finite clock reading [now]
    whose cutoff [int(now) - RETENTION_DAYS * 86400] is a signed 64-bit
    integer, leaves the sweep counter at zero and the watermark at [now]
    whatever the number of rows it deleted; its statements are the DELETE
    and a commit, followed by the incremental vacuum and a commit exactly
    when the DELETE removed at least one row. *)
Theorem sweep_resets_counter_and_watermark
  (cfg : config) (now : PyFloat.float) (st : state) (n : Z) :
  sweep_due cfg now st = true ->
  PyFloat.to_Z now = Ok n ->
  - 2 ^ 63 <= n - RETENTION_DAYS cfg * 86400 < 2 ^ 63 ->
  exists st',
    retention_sweeper cfg now st = Ok st'
    /\ _inserts_since_cleanup st' = 0
    /\ _last_cleanup_ts st' = now
    /\ let deleted := deleted_by cfg n (conn st) in
       let evs := skipn (List.length (trace (conn st))) (trace (conn st')) in
       evs = sweep_events cfg n deleted
       /\ (In IncrementalVacuum evs <-> 0 < deleted)
       /\ count is_delete evs = 1%nat.
Proof.
  intros Hdue Hn Hr.
  exists (sweep cfg now n st).
  split; [exact (retention_sweeper_due cfg now st n Hdue Hn Hr)|].
  destruct (sweep_globals cfg now n st) as (Hc & Hl & _).
  split; [exact Hc|]. split; [exact Hl|].
  cbv zeta. rewrite sweep_trace, skipn_app, skipn_all, Nat.sub_diag.
  cbn [skipn app]. split; [reflexivity|]. split.
  - unfold sweep_events.
    destruct (Z.ltb_spec 0 (deleted_by cfg n (conn st))) as [Hpos|Hle]; cbn.
    + split; [intros _; exact Hpos|intros _; auto].
    + split; [intros [H|[H|[]]]; discriminate|lia].
  - apply count_delete_sweep_events.
Qed.

Lemma sweep_resets_counter_and_watermark_witness :
  sweep_due default_config clock_1700000000 aged_state = true
  /\ PyFloat.to_Z clock_1700000000 = Ok 1700000000
  /\ - 2 ^ 63 <= 1700000000 - RETENTION_DAYS default_config * 86400 < 2 ^ 63
  /\ exists st',
       retention_sweeper default_config clock_1700000000 aged_state = Ok st'
       /\ _inserts_since_cleanup st' = 0
       /\ _last_cleanup_ts st' = clock_1700000000.
Proof.
  assert (Hdue : sweep_due default_config clock_1700000000 aged_state = true)
    by (vm_compute; reflexivity).
  assert (Hn : PyFloat.to_Z clock_1700000000 = Ok 1700000000)
    by (vm_compute; reflexivity).
  assert (Hr : - 2 ^ 63 <= 1700000000 - RETENTION_DAYS default_config * 86400
               < 2 ^ 63)
    by (cbn; lia).
  split; [exact Hdue|]. split; [exact Hn|]. split; [exact Hr|].
  destruct (sweep_resets_counter_and_watermark default_config clock_1700000000
              aged_state 1700000000 Hdue Hn Hr) as (st' & Hs & Hc & Hl & _).
  exists st'. auto.
Defined.

(** ** Zone resolution *)

Lemma nonempty_true (s : string) : s <> "" -> nonempty s = true.
Proof. destruct s; [congruence|reflexivity]. Qed.

Lemma nonempty_false (s : string) : nonempty s = false -> s = "".
Proof. destruct s; [reflexivity|discriminate]. Qed.

Lemma no_binding (cfg : config) (sensor : string) :
  ~ binding_applies cfg sensor ->
  FORCE_ZONE_BY_SENSOR cfg
    && nonempty (INDOOR_SENSOR cfg)
    && String.eqb (strip (lower sensor)) (INDOOR_SENSOR cfg) = false
  /\ FORCE_ZONE_BY_SENSOR cfg
       && nonempty (OUTDOOR_SENSOR cfg)
       && String.eqb (strip (lower sensor)) (OUTDOOR_SENSOR cfg) = false.
Proof.
  intros Hno. unfold binding_applies in Hno.
  destruct (FORCE_ZONE_BY_SENSOR cfg); [|split; reflexivity].
  cbn [andb]. split.
  - destruct (nonempty (INDOOR_SENSOR cfg)) eqn:Hn; [|reflexivity].
    destruct (String.eqb_spec (strip (lower sensor)) (INDOOR_SENSOR cfg)) as [E|];
      [|reflexivity].
    exfalso. apply Hno. split; [reflexivity|]. left. split; [|exact E].
    intros E0. rewrite E0 in Hn. discriminate.
  - destruct (nonempty (OUTDOOR_SENSOR cfg)) eqn:Hn; [|reflexivity].
    destruct (String.eqb_spec (strip (lower sensor)) (OUTDOOR_SENSOR cfg)) as [E|];
      [|reflexivity].
    exfalso. apply Hno. split; [reflexivity|]. right. split; [|exact E].
    intros E0. rewrite E0 in Hn. discriminate.
Qed.

Lemma recognized_eqb (z : string) :
  recognized z <-> String.eqb z "indoor" || String.eqb z "outdoor" = true.
Proof.
  unfold recognized. rewrite orb_true_iff, !String.eqb_eq. reflexivity.
Qed.

(** C8: the zone is a function of the sensor kind, the hint and four fields
    of the configuration. With the hard binding enabled and the sensor bound
    to indoor the zone is "indoor" whatever the hint, "outdoor" included;
    with the hard binding disabled the hint "outdoor" gives "outdoor"; when
    no binding applies, a hint that reads "indoor" or "outdoor" once
    lower-cased and trimmed gives that lower-cased, trimmed value, and any
    other hint gives the default zone. *)
Theorem resolve_zone_precedence :
  (forall cfg sensor hint,
      FORCE_ZONE_BY_SENSOR cfg = true ->
      INDOOR_SENSOR cfg <> "" ->
      strip (lower sensor) = INDOOR_SENSOR cfg ->
      resolve_zone cfg sensor hint = "indoor")
  /\ (forall cfg sensor,
         FORCE_ZONE_BY_SENSOR cfg = false ->
         resolve_zone cfg sensor "outdoor" = "outdoor")
  /\ (forall cfg sensor hint,
         ~ binding_applies cfg sensor ->
         recognized (strip (lower hint)) ->
         resolve_zone cfg sensor hint = strip (lower hint))
  /\ (forall cfg sensor hint,
         ~ binding_applies cfg sensor ->
         ~ recognized (strip (lower hint)) ->
         resolve_zone cfg sensor hint = DEFAULT_ZONE cfg)
  /\ (forall cfg cfg' sensor hint,
         FORCE_ZONE_BY_SENSOR cfg = FORCE_ZONE_BY_SENSOR cfg' ->
         INDOOR_SENSOR cfg = INDOOR_SENSOR cfg' ->
         OUTDOOR_SENSOR cfg = OUTDOOR_SENSOR cfg' ->
         DEFAULT_ZONE cfg = DEFAULT_ZONE cfg' ->
         resolve_zone cfg sensor hint = resolve_zone cfg' sensor hint).
Proof.
  repeat split.
  - intros cfg sensor hint HF HI HS. unfold resolve_zone.
    now rewrite HF, (nonempty_true _ HI), HS, String.eqb_refl.
  - intros cfg sensor HF. unfold resolve_zone. now rewrite HF.
  - intros cfg sensor hint Hno Hrec. unfold resolve_zone.
    destruct (no_binding cfg sensor Hno) as [-> ->].
    assert (Hn : nonempty hint = true).
    { destruct hint; [|reflexivity].
      destruct Hrec as [H|H]; vm_compute in H; discriminate. }
    apply recognized_eqb in Hrec. now rewrite Hn, Hrec.
  - intros cfg sensor hint Hno Hrec. unfold resolve_zone.
    destruct (no_binding cfg sensor Hno) as [-> ->].
    rewrite recognized_eqb in Hrec.
    destruct (String.eqb _ "indoor" || String.eqb _ "outdoor");
      [congruence|now rewrite andb_false_r].
  - intros cfg cfg' sensor hint HF HI HO HD. unfold resolve_zone.
    now rewrite HF, HI, HO, HD.
Qed.

Lemma resolve_zone_precedence_witness :
  resolve_zone bme_bound_indoor "bme280" "outdoor" = "indoor"
  /\ resolve_zone default_config "bme280" "outdoor" = "outdoor"
  /\ resolve_zone default_config "dht22" "  OutDoor " = "outdoor"
  /\ resolve_zone bme_bound_indoor "dht22" "garden" = "indoor"
  /\ resolve_zone (with_commit_every default_config 7) "dht22" "outdoor"
     = resolve_zone default_config "dht22" "outdoor".
Proof.
  destruct resolve_zone_precedence as (H1 & H2 & H3 & H4 & H5).
  assert (Hd : forall s, ~ binding_applies default_config s).
  { intros s [HF _]. discriminate. }
  assert (Hb : ~ binding_applies bme_bound_indoor "dht22").
  { intros [_ [[_ E]|[E _]]]; [vm_compute in E; discriminate|now apply E]. }
  split.
  - apply H1; [reflexivity|discriminate|reflexivity].
  - split; [apply H2; reflexivity|].
    split.
    + change "outdoor" with (strip (lower "  OutDoor ")).
      apply H3; [apply Hd|right; reflexivity].
    + split.
      * change (resolve_zone bme_bound_indoor "dht22" "garden"
                = DEFAULT_ZONE bme_bound_indoor).
        apply H4; [exact Hb|].
        intros [E|E]; vm_compute in E; discriminate.
      * apply H5; reflexivity.
Defined.

(** ** Numeric coercion *)

Lemma rstrip_by_head (sp : ascii -> bool) (c : ascii) (r : string) :
  sp c = false -> exists r', rstrip_by sp (String c r) = String c r'.
Proof.
  intros H. cbn [rstrip_by]. destruct (rstrip_by sp r); rewrite ?H; eauto.
Qed.

Lemma strip_by_head (sp : ascii -> bool) (c : ascii) (r : string) :
  sp c = false -> exists r', strip_by sp (String c r) = String c r'.
Proof.
  intros H. unfold strip_by. cbn [lstrip_by]. rewrite H.
  now apply rstrip_by_head.
Qed.

(** A string that opens with a bracket or a brace is no float literal. *)
Lemma of_string_opening (c : ascii) (r : string) :
  c = "["%char \/ c = "{"%char ->
  PyFloat.of_string (String c r) = Raise ValueError.
Proof.
  intros Hc. unfold PyFloat.of_string. cbn [PyFloat.remove_underscores].
  assert (H1 : PyFloat.is_char c 95 = false) by (destruct Hc; subst; reflexivity).
  assert (H2 : PyFloat.is_float_space c = false) by (destruct Hc; subst; reflexivity).
  rewrite H1. cbn [PyFloat.is_char andb].
  replace (PyFloat.is_char zero 95) with false by reflexivity. cbn [andb].
  destruct (PyFloat.remove_underscores c r) as [r1|]; [|reflexivity].
  cbn [option_map].
  destruct (strip_by_head PyFloat.is_float_space c r1 H2) as [r2 ->].
  destruct Hc; subst; reflexivity.
Qed.

Lemma to_float_opening (c : ascii) (r : string) :
  c = "["%char \/ c = "{"%char ->
  (let s := strip (String c r) in
   if negb (nonempty s) || String.eqb (lower s) "nan" then None
   else match PyFloat.of_string s with
        | Ok v => if PyFloat.isfinite v then Some v else None
        | Raise _ => None
        end) = None.
Proof.
  intros Hc. cbv zeta.
  assert (H : isspace c = false) by (destruct Hc; subst; reflexivity).
  destruct (strip_by_head isspace c r H) as [r' E]. unfold strip. rewrite E.
  rewrite (of_string_opening c r' Hc).
  now destruct (negb _ || _).
Qed.

Lemma to_float_finite (x : value) (v : PyFloat.float) :
  to_float x = Some v -> PyFloat.isfinite v = true.
Proof.
  unfold to_float.
  destruct x; try discriminate;
    (destruct (negb _ || _); [discriminate|];
     destruct (PyFloat.of_string _) as [w|]; [|discriminate];
     destruct (PyFloat.isfinite w) eqn:Hw; [|discriminate];
     intros E; injection E as <-; exact Hw).
Qed.

(** C9: [to_float] is total: it gives either nothing or a finite number.
    [None], the empty string, "nan", "inf" and "-inf" give nothing; so do a
    float that is not finite, a string that [float] rejects, a boolean, a
    list and a dict. The string form [str(x)] of a value and the value give
    the same result, for instance "21.5" and 21.5, or "44" and 44. *)
Theorem to_float_is_total_and_drops_non_numbers :
  (forall x, to_float x = None
             \/ exists v, to_float x = Some v /\ PyFloat.isfinite v = true)
  /\ to_float VNone = None
  /\ to_float (VStr "") = None
  /\ to_float (VStr "nan") = None
  /\ to_float (VStr "inf") = None
  /\ to_float (VStr "-inf") = None
  /\ (forall f, PyFloat.isfinite f = false -> to_float (VFloat f) = None)
  /\ (forall s e, PyFloat.of_string (strip s) = Raise e -> to_float (VStr s) = None)
  /\ (forall b, to_float (VBool b) = None)
  /\ (forall l, to_float (VList l) = None)
  /\ (forall d, to_float (VDict d) = None)
  /\ (forall x, to_float (VStr (str x)) = to_float x)
  /\ to_float (VStr "21.5") = Some (PyFloat.of_decimal false 215 (-1))
  /\ to_float (VFloat (PyFloat.of_decimal false 215 (-1)))
     = Some (PyFloat.of_decimal false 215 (-1))
  /\ to_float (VStr "44") = Some (PyFloat.of_Z 44)
  /\ to_float (VInt 44) = Some (PyFloat.of_Z 44).
Proof.
  split.
  { intros x. destruct (to_float x) as [v|] eqn:E; [right|left; reflexivity].
    exists v. split; [reflexivity|]. now apply (to_float_finite x). }
  do 5 (split; [reflexivity|]).
  split.
  { intros f Hf. destruct f as [s|s| |s m e]; try discriminate.
    - destruct s; reflexivity.
    - reflexivity. }
  split.
  { intros s e H. unfold to_float. cbn [str]. rewrite H.
    now destruct (negb _ || _). }
  split; [intros b; destruct b; reflexivity|].
  split.
  { intros l. unfold to_float. cbn [str repr].
    apply to_float_opening. now left. }
  split.
  { intros d. unfold to_float. cbn [str repr].
    apply to_float_opening. now right. }
  split.
  { intros x. destruct x; reflexivity. }
  repeat split; vm_compute; reflexivity.
Qed.

Lemma to_float_is_total_and_drops_non_numbers_witness :
  PyFloat.isfinite PyFloat.inf = false
  /\ to_float (VFloat PyFloat.inf) = None
  /\ PyFloat.of_string (strip " 12abc ") = Raise ValueError
  /\ to_float (VStr " 12abc ") = None.
Proof.
  destruct to_float_is_total_and_drops_non_numbers
    as (_ & _ & _ & _ & _ & _ & H7 & H8 & _).
  assert (Hi : PyFloat.isfinite PyFloat.inf = false) by reflexivity.
  assert (Hs : PyFloat.of_string (strip " 12abc ") = Raise ValueError)
    by (vm_compute; reflexivity).
  split; [exact Hi|]. split; [exact (H7 _ Hi)|].
  split; [exact Hs|]. exact (H8 _ _ Hs).
Defined.

(** ** DHT rows carry no pressure *)

Lemma sensor_fold (cols : list column) (r : row) :
  sensor (fold_left bind_column cols r) = sensor r.
Proof.
  revert r. induction cols as [|c cols IH]; intros r; [reflexivity|].
  cbn [fold_left]. rewrite IH. now destruct c.
Qed.

Lemma sensor_new_row (t : Z) (s : string) (cols : list column) :
  sensor (new_row t s cols) = s.
Proof. unfold new_row. now rewrite sensor_fold. Qed.

Lemma press_fold (cols : list column) (r : row) :
  forallb (fun c => negb (binds_press c)) cols = true ->
  press (fold_left bind_column cols r) = press r.
Proof.
  revert r. induction cols as [|c cols IH]; intros r H; [reflexivity|].
  cbn [forallb] in H. apply andb_prop in H as [Hc H].
  cbn [fold_left]. rewrite (IH _ H). destruct c; try reflexivity; discriminate.
Qed.

(** The row of the DHT group binds no pressure, the row of the BME group is
    tagged bme280. *)
Lemma group_rows_dht22 (cfg : config) (f : fields) (r : row) :
  In r (group_rows cfg f) -> sensor r = "dht22" -> press r = None.
Proof.
  unfold group_rows, insert_groups, insert_dht22, insert_bme280.
  assert (Hd : forall cols,
             forallb (fun c => negb (binds_press c)) cols = true ->
             press (new_row (f_ts f) "dht22" cols) = None).
  { intros cols H. unfold new_row. now rewrite press_fold. }
  assert (Hcols : forallb (fun c => negb (binds_press c))
            (append_unless_default ColZone
               (resolve_zone cfg "dht22" (f_zone f)) (DEFAULT_ZONE cfg)
             ++ append_some ColTemp (t_dht f)
             ++ append_some ColHum (h_dht f)
             ++ append_unless_default ColSource (f_source f) (DEFAULT_SOURCE cfg))
          = true).
  { unfold append_unless_default, append_some.
    destruct (String.eqb _ (DEFAULT_ZONE cfg)), (t_dht f), (h_dht f),
      (String.eqb _ (DEFAULT_SOURCE cfg)); reflexivity. }
  destruct (is_some (t_dht f) || is_some (h_dht f));
    destruct (is_some (t_bme f) || is_some (h_bme f) || is_some (p_bme f));
    unfold Sqlite.insert, Sqlite.open; cbn [fst snd readings app In];
    intros Hin Hs.
  - destruct Hin as [<-|[<-|[]]].
    + now apply Hd.
    + rewrite sensor_new_row in Hs. discriminate.
  - destruct Hin as [<-|[]]. now apply Hd.
  - destruct Hin as [<-|[]]. rewrite sensor_new_row in Hs. discriminate.
  - destruct Hin.
Qed.

Lemma serve_inserted (cfg : config) (P : row -> Prop) :
  (forall f r, In r (group_rows cfg f) -> P r) ->
  forall rqs st,
    (forall r, In r (inserted_rows (trace (conn st))) -> P r) ->
    forall r, In r (inserted_rows (trace (conn (serve cfg rqs st)))) -> P r.
Proof.
  intros Hstep. induction rqs as [|rq rqs IH]; intros st Hst r Hin.
  - now apply Hst.
  - cbn [serve] in Hin. apply (IH (snd (do_POST cfg rq st))); [|exact Hin].
    intros r' Hr'. rewrite do_POST_trace, inserted_rows_app in Hr'.
    apply in_app_or in Hr' as [Hold|Hnew]; [now apply Hst|].
    rewrite <- events_of_step, inserted_rows_step in Hnew.
    destruct (extract cfg (body rq) (t_recv rq)) as [f|e]; [|destruct Hnew].
    now apply (Hstep f).
Qed.

(** C10: in every run of the server, every row inserted with sensor
    "dht22" has its pressure column NULL, whatever the payloads carried. *)
Theorem dht22_rows_have_no_pressure
  (cfg : config) (existing : list row) (rqs : list request) (r : row) :
  In r (inserted_rows (trace (conn (serve cfg rqs (start existing))))) ->
  sensor r = "dht22" ->
  press r = None.
Proof.
  intros Hin Hs.
  refine (serve_inserted cfg (fun r => sensor r = "dht22" -> press r = None)
            _ rqs (start existing) _ r Hin Hs).
  - intros f r'. apply group_rows_dht22.
  - intros r' [].
Qed.

Lemma dht22_rows_have_no_pressure_witness :
  let r := {| ts := 1700000000; sensor := "dht22"; zone := None;
              temp := Some (PyFloat.of_Z 22); hum := None; press := None;
              source := None |} in
  In r (inserted_rows
          (trace (conn (serve default_config [dht_with_pressure_request] (start [])))))
  /\ sensor r = "dht22"
  /\ press r = None.
Proof.
  cbv zeta.
  assert (Hin : In {| ts := 1700000000; sensor := "dht22"; zone := None;
                      temp := Some (PyFloat.of_Z 22); hum := None; press := None;
                      source := None |}
                  (inserted_rows
                     (trace (conn (serve default_config
                                     [dht_with_pressure_request] (start []))))))
    by (vm_compute; left; reflexivity).
  split; [exact Hin|]. split; [reflexivity|].
  exact (dht22_rows_have_no_pressure default_config [] [dht_with_pressure_request]
           _ Hin eq_refl).
Defined.

(** * Further properties of the server *)

(** ** What a submission is turned into *)

Lemma chain2 (d : list (string * value)) (a b : string) :
  or_ (get (VDict d) a) (get (VDict d) b) = Ok (chain d [a; b]).
Proof. unfold or_, get. cbn [bind chain]. fold (getv d a). fold (getv d b).
  now destruct (truthy (getv d a)). Qed.

Lemma chain3 (d : list (string * value)) (a b c : string) :
  or_ (get (VDict d) a) (or_ (get (VDict d) b) (get (VDict d) c))
  = Ok (chain d [a; b; c]).
Proof.
  rewrite chain2. unfold or_ at 1. unfold get. cbn [bind]. fold (getv d a).
  change (chain d [a; b; c])
    with (if truthy (getv d a) then getv d a else chain d [b; c]).
  now destruct (truthy (getv d a)).
Qed.

Lemma chain4 (d : list (string * value)) (a b c e : string) :
  or_ (get (VDict d) a)
    (or_ (get (VDict d) b) (or_ (get (VDict d) c) (get (VDict d) e)))
  = Ok (chain d [a; b; c; e]).
Proof.
  rewrite chain3. unfold or_ at 1. unfold get. cbn [bind]. fold (getv d a).
  change (chain d [a; b; c; e])
    with (if truthy (getv d a) then getv d a else chain d [b; c; e]).
  now destruct (truthy (getv d a)).
Qed.

Lemma chain_default (d : list (string * value)) (k : string) (v : value) :
  or_ (get (VDict d) k) (Ok v) = Ok (get_or d k v).
Proof.
  unfold or_, get, get_or. cbn [bind]. fold (getv d k).
  now destruct (truthy (getv d k)).
Qed.

(** [extract] on a dict: the five chains never raise; only the clock and
    the two [strip] calls can. *)
Lemma extract_dict (cfg : config) (d : list (string * value)) (t : PyFloat.float) :
  extract cfg (Ok (VDict d)) t =
  (ts <- PyFloat.to_Z t ;;
   zone <- strip_method (get_or d "zone" (VStr "")) ;;
   source <- strip_method (get_or d "source" (VStr (DEFAULT_SOURCE cfg))) ;;
   Ok {| f_ts := ts;
         t_dht := to_float (chain d ["t_dht"; "temperature_dht"]);
         h_dht := to_float (chain d ["h_dht"; "humidity_dht"]);
         t_bme := to_float (chain d ["t_bme"; "temperature"; "temp"; "lt_bme"]);
         h_bme := to_float (chain d ["h_bme"; "humidity"; "hum"]);
         p_bme := to_float (chain d ["pressure"; "press"; "p_bme"]);
         f_zone := zone;
         f_source := source |}).
Proof.
  unfold extract. cbn [bind].
  destruct (PyFloat.to_Z t) as [ts|e]; [|reflexivity].
  cbn [bind]. rewrite chain4, !chain3, !chain2, !chain_default. reflexivity.
Qed.

Lemma strip_method_hint (v : value) (default : string) :
  hint_ok v = true ->
  strip_method (if truthy v then v else VStr default) = Ok (hint_text v default).
Proof.
  unfold hint_ok, hint_text. destruct v; cbn; try discriminate; try reflexivity.
  - destruct b; [discriminate|reflexivity].
  - destruct (z =? 0); [reflexivity|discriminate].
  - destruct f; try discriminate; reflexivity.
  - destruct s; reflexivity.
  - destruct l; [reflexivity|discriminate].
  - destruct d; [reflexivity|discriminate].
Qed.

Lemma strip_method_bad (v : value) (default : string) :
  hint_ok v = false ->
  strip_method (if truthy v then v else VStr default) = Raise AttributeError.
Proof.
  unfold hint_ok. destruct (truthy v) eqn:Ht; [|discriminate].
  destruct v; cbn; try discriminate; reflexivity.
Qed.

(** ** Rejected and accepted submissions *)

(** X1: a body that [json.loads] rejects, or that is not a JSON object, is
    answered with 500 and leaves the connection and the counters as they
    were. *)
Theorem rejected_body_changes_nothing (cfg : config) (rq : request) (st : state) :
  match body rq with
  | Ok payload => is_dict payload = false
  | Raise _ => True
  end ->
  do_POST cfg rq st = (500, st).
Proof.
  intros H.
  assert (E : exists e, extract cfg (body rq) (t_recv rq) = Raise e).
  { unfold extract. destruct (body rq) as [p|e]; [|eexists; reflexivity].
    cbn [bind]. destruct (PyFloat.to_Z (t_recv rq)); [|eexists; reflexivity].
    destruct p; try discriminate; eexists; reflexivity. }
  destruct E as [e E]. now apply (do_POST_raise _ _ _ e).
Qed.

Lemma rejected_body_changes_nothing_witness :
  do_POST default_config
    {| body := Ok (VList [VInt 1]); t_recv := clock_1700000000;
       t_maint := clock_1700000000 |} aged_state
  = (500, aged_state)
  /\ do_POST default_config
       {| body := Raise JSONDecodeError; t_recv := clock_1700000000;
          t_maint := clock_1700000000 |} aged_state
     = (500, aged_state).
Proof.
  split; apply rejected_body_changes_nothing; cbn; auto.
Defined.

(** X2: when the entry under "zone" or under "source" is true and is not a
    string (a number, a list, [true]), the request is answered with 500 and
    nothing is written, whatever readings the submission carries. *)
Theorem non_string_hint_is_rejected
  (cfg : config) (d : list (string * value)) (t0 t1 : PyFloat.float) (st : state) :
  hint_ok (getv d "zone") = false \/ hint_ok (getv d "source") = false ->
  do_POST cfg {| body := Ok (VDict d); t_recv := t0; t_maint := t1 |} st = (500, st).
Proof.
  intros H.
  assert (E : exists e,
             extract cfg (Ok (VDict d)) t0 = Raise e).
  { rewrite extract_dict. destruct (PyFloat.to_Z t0); [|eexists; reflexivity].
    cbn [bind]. unfold get_or.
    destruct (hint_ok (getv d "zone")) eqn:Hz.
    - destruct H as [H|H]; [discriminate|].
      rewrite (strip_method_hint _ _ Hz). cbn [bind].
      rewrite (strip_method_bad _ _ H). eexists; reflexivity.
    - rewrite (strip_method_bad _ _ Hz). eexists; reflexivity. }
  destruct E as [e E]. now apply (do_POST_raise _ _ _ e).
Qed.

Lemma non_string_hint_is_rejected_witness :
  let d := [("t_bme", VInt 21); ("zone", VInt 5)] in
  hint_ok (getv d "zone") = false
  /\ do_POST default_config
       {| body := Ok (VDict d); t_recv := clock_1700000000;
          t_maint := clock_1700000000 |} (start [])
     = (500, start []).
Proof.
  cbv zeta. split; [reflexivity|].
  apply non_string_hint_is_rejected. left. reflexivity.
Defined.

Lemma extract_well_formed
  (cfg : config) (d : list (string * value)) (t : PyFloat.float) (n : Z) :
  hint_ok (getv d "zone") = true ->
  hint_ok (getv d "source") = true ->
  PyFloat.to_Z t = Ok n ->
  extract cfg (Ok (VDict d)) t =
  Ok {| f_ts := n;
        t_dht := to_float (chain d ["t_dht"; "temperature_dht"]);
        h_dht := to_float (chain d ["h_dht"; "humidity_dht"]);
        t_bme := to_float (chain d ["t_bme"; "temperature"; "temp"; "lt_bme"]);
        h_bme := to_float (chain d ["h_bme"; "humidity"; "hum"]);
        p_bme := to_float (chain d ["pressure"; "press"; "p_bme"]);
        f_zone := hint_text (getv d "zone") "";
        f_source := hint_text (getv d "source") (DEFAULT_SOURCE cfg) |}.
Proof.
  intros Hz Hs Hn. rewrite extract_dict, Hn. cbn [bind]. unfold get_or.
  rewrite (strip_method_hint _ _ Hz). cbn [bind].
  rewrite (strip_method_hint _ _ Hs). reflexivity.
Qed.

Lemma do_POST_status
  (cfg : config) (rq : request) (st : state) (f : fields) (n : Z) :
  extract cfg (body rq) (t_recv rq) = Ok f ->
  PyFloat.to_Z (t_maint rq) = Ok n ->
  - 2 ^ 63 <= n - RETENTION_DAYS cfg * 86400 < 2 ^ 63 ->
  fst (do_POST cfg rq st) = 200.
Proof.
  intros Hx Hn Hr.
  destruct (group_rows cfg f) as [|r rs] eqn:Hrows.
  - now rewrite (do_POST_no_row _ _ _ _ Hx Hrows).
  - assert (Hne : group_rows cfg f <> []) by (rewrite Hrows; discriminate).
    rewrite (do_POST_rows _ _ _ _ Hx Hne).
    destruct (sweep_due cfg (t_maint rq) (batched cfg f st)) eqn:Hdue.
    + now rewrite (retention_sweeper_due _ _ _ n Hdue Hn Hr).
    + unfold retention_sweeper. now rewrite Hdue.
Qed.

(** X3: a JSON object whose "zone" and "source" entries are missing, false
    or strings (of code points 0..255) is answered with 200 at finite clock
    readings, whatever its other entries hold, provided the integers bound
    to the statements are signed 64-bit integers: the time stamp
    [int(time.time())] of the request and the cutoff
    [int(now) - RETENTION_DAYS * 86400] of a sweep. A field that does not
    coerce is no error. *)
Theorem well_formed_submission_is_accepted
  (cfg : config) (d : list (string * value)) (t0 t1 : PyFloat.float) (st : state)
  (n0 n1 : Z) :
  hint_ok (getv d "zone") = true ->
  hint_ok (getv d "source") = true ->
  PyFloat.to_Z t0 = Ok n0 ->
  - 2 ^ 63 <= n0 < 2 ^ 63 ->
  PyFloat.to_Z t1 = Ok n1 ->
  - 2 ^ 63 <= n1 - RETENTION_DAYS cfg * 86400 < 2 ^ 63 ->
  fst (do_POST cfg {| body := Ok (VDict d); t_recv := t0; t_maint := t1 |} st) = 200.
Proof.
  intros Hz Hs H0 _ H1 Hr.
  exact (do_POST_status cfg
           {| body := Ok (VDict d); t_recv := t0; t_maint := t1 |} st _ n1
           (extract_well_formed cfg d t0 n0 Hz Hs H0) H1 Hr).
Qed.

Lemma well_formed_submission_is_accepted_witness :
  let d := [("t_bme", VStr "abc"); ("pressure", VList [VNone]);
            ("h_dht", VDict []); ("zone", VStr " Outdoor ")] in
  hint_ok (getv d "zone") = true
  /\ hint_ok (getv d "source") = true
  /\ PyFloat.to_Z clock_1700000000 = Ok 1700000000
  /\ - 2 ^ 63 <= 1700000000 < 2 ^ 63
  /\ - 2 ^ 63 <= 1700000000 - RETENTION_DAYS default_config * 86400 < 2 ^ 63
  /\ fst (do_POST default_config
            {| body := Ok (VDict d); t_recv := clock_1700000000;
               t_maint := clock_1700000000 |} aged_state) = 200.
Proof.
  cbv zeta. split; [reflexivity|]. split; [reflexivity|].
  split; [vm_compute; reflexivity|]. split; [lia|]. split; [cbn; lia|].
  apply (well_formed_submission_is_accepted default_config _ _ _ aged_state
           1700000000 1700000000);
    first [reflexivity | vm_compute; reflexivity | cbn; lia].
Defined.

(** ** The rows of a submission *)

Lemma group_rows_explicit (cfg : config) (f : fields) :
  group_rows cfg f =
  (if is_some (t_dht f) || is_some (h_dht f) then [dht22_row cfg f] else [])
  ++ (if is_some (t_bme f) || is_some (h_bme f) || is_some (p_bme f)
      then [bme280_row cfg f] else []).
Proof.
  assert (Hd : new_row (f_ts f) "dht22"
                 (append_unless_default ColZone
                    (resolve_zone cfg "dht22" (f_zone f)) (DEFAULT_ZONE cfg)
                  ++ append_some ColTemp (t_dht f)
                  ++ append_some ColHum (h_dht f)
                  ++ append_unless_default ColSource (f_source f) (DEFAULT_SOURCE cfg))
               = dht22_row cfg f).
  { unfold dht22_row, stored_zone, stored_source, new_row,
      append_unless_default, append_some.
    destruct (String.eqb _ (DEFAULT_ZONE cfg)), (t_dht f), (h_dht f),
      (String.eqb _ (DEFAULT_SOURCE cfg)); reflexivity. }
  assert (Hb : new_row (f_ts f) "bme280"
                 (append_unless_default ColZone
                    (resolve_zone cfg "bme280" (f_zone f)) (DEFAULT_ZONE cfg)
                  ++ append_some ColTemp (t_bme f)
                  ++ append_some ColHum (h_bme f)
                  ++ append_some ColPress (p_bme f)
                  ++ append_unless_default ColSource (f_source f) (DEFAULT_SOURCE cfg))
               = bme280_row cfg f).
  { unfold bme280_row, stored_zone, stored_source, new_row,
      append_unless_default, append_some.
    destruct (String.eqb _ (DEFAULT_ZONE cfg)), (t_bme f), (h_bme f), (p_bme f),
      (String.eqb _ (DEFAULT_SOURCE cfg)); reflexivity. }
  unfold group_rows, insert_groups, insert_dht22, insert_bme280.
  destruct (is_some (t_dht f) || is_some (h_dht f));
    destruct (is_some (t_bme f) || is_some (h_bme f) || is_some (p_bme f));
    unfold Sqlite.insert, Sqlite.open; cbn [fst snd readings app];
    rewrite ?Hd, ?Hb; reflexivity.
Qed.

Lemma in_group_rows (cfg : config) (f : fields) (r : row) :
  In r (group_rows cfg f) ->
  (r = dht22_row cfg f /\ is_some (t_dht f) || is_some (h_dht f) = true)
  \/ (r = bme280_row cfg f
      /\ is_some (t_bme f) || is_some (h_bme f) || is_some (p_bme f) = true).
Proof.
  rewrite group_rows_explicit. intros H. apply in_app_or in H as [H|H].
  - destruct (is_some (t_dht f) || is_some (h_dht f)); [|destruct H].
    destruct H as [<-|[]]. now left.
  - destruct (is_some (t_bme f) || is_some (h_bme f) || is_some (p_bme f));
      [|destruct H].
    destruct H as [<-|[]]. now right.
Qed.

(** Every row the server ever inserted came from the fields of a request. *)
Lemma serve_inserted_from_fields (cfg : config) (P : row -> Prop) :
  (forall rq f r,
      extract cfg (body rq) (t_recv rq) = Ok f -> In r (group_rows cfg f) -> P r) ->
  forall rqs st,
    (forall r, In r (inserted_rows (trace (conn st))) -> P r) ->
    forall r, In r (inserted_rows (trace (conn (serve cfg rqs st)))) -> P r.
Proof.
  intros Hstep. induction rqs as [|rq rqs IH]; intros st Hst r Hin.
  - now apply Hst.
  - cbn [serve] in Hin. apply (IH (snd (do_POST cfg rq st))); [|exact Hin].
    intros r' Hr'. rewrite do_POST_trace, inserted_rows_app in Hr'.
    apply in_app_or in Hr' as [Hold|Hnew]; [now apply Hst|].
    rewrite <- events_of_step, inserted_rows_step in Hnew.
    destruct (extract cfg (body rq) (t_recv rq)) as [f|e] eqn:Hx; [|destruct Hnew].
    now apply (Hstep rq f).
Qed.

Lemma extract_finite (cfg : config) (b : result value) (t : PyFloat.float) (f : fields) :
  extract cfg b t = Ok f ->
  finite_or_null (t_dht f) = true /\ finite_or_null (h_dht f) = true
  /\ finite_or_null (t_bme f) = true /\ finite_or_null (h_bme f) = true
  /\ finite_or_null (p_bme f) = true.
Proof.
  assert (Hfin : forall x, finite_or_null (to_float x) = true).
  { intros x. destruct (to_float x) as [v|] eqn:E; [|reflexivity].
    cbn. now apply (to_float_finite x). }
  unfold extract. intros H.
  destruct b as [p|]; [|discriminate]. cbn [bind] in H.
  destruct (PyFloat.to_Z t); [|discriminate]. cbn [bind] in H.
  repeat match type of H with
         | bind ?m _ = Ok _ => destruct m; [cbn [bind] in H|discriminate]
         end.
  injection H as <-. cbn. repeat split; apply Hfin.
Qed.

Lemma extract_ts (cfg : config) (b : result value) (t : PyFloat.float) (f : fields) :
  extract cfg b t = Ok f -> PyFloat.to_Z t = Ok (f_ts f).
Proof.
  unfold extract. intros H.
  destruct b as [p|]; [|discriminate]. cbn [bind] in H.
  destruct (PyFloat.to_Z t); [|discriminate]. cbn [bind] in H.
  repeat match type of H with
         | bind ?m _ = Ok _ => destruct m; [cbn [bind] in H|discriminate]
         end.
  injection H as <-. reflexivity.
Qed.

(** ** Invariants of the rows written *)

(** X4: all the rows one request inserts carry the same timestamp, the
    clock reading of line 131 truncated to whole seconds, and the same
    source column. *)
Theorem rows_of_a_request_share_timestamp
  (cfg : config) (rq : request) (st : state) (n : Z) :
  PyFloat.to_Z (t_recv rq) = Ok n ->
  forall r, In r (inserted_rows (events_of cfg rq st)) ->
            ts r = n
            /\ forall r', In r' (inserted_rows (events_of cfg rq st)) ->
                          source r' = source r.
Proof.
  intros Hn r Hr. rewrite inserted_rows_step in *.
  destruct (extract cfg (body rq) (t_recv rq)) as [f|e] eqn:Hx; [|destruct Hr].
  apply extract_ts in Hx. rewrite Hn in Hx. injection Hx as ->.
  assert (Hrow : forall x, In x (group_rows cfg f) ->
                           ts x = f_ts f /\ source x = stored_source cfg f).
  { intros x Hin. destruct (in_group_rows _ _ _ Hin) as [[-> _]|[-> _]]; now split. }
  destruct (Hrow r Hr) as [Ht Hs]. split; [exact Ht|].
  intros r' Hr'. destruct (Hrow r' Hr') as [_ Hs']. congruence.
Qed.

Lemma rows_of_a_request_share_timestamp_witness :
  PyFloat.to_Z (t_recv both_groups_request) = Ok 1700000000
  /\ Forall (fun r => ts r = 1700000000)
       (inserted_rows (events_of default_config both_groups_request (start []))).
Proof.
  assert (Hn : PyFloat.to_Z (t_recv both_groups_request) = Ok 1700000000)
    by reflexivity.
  split; [exact Hn|]. apply Forall_forall. intros r Hr.
  exact (proj1 (rows_of_a_request_share_timestamp default_config
                  both_groups_request (start []) 1700000000 Hn r Hr)).
Defined.

(** X5: in every run of the server, every row inserted is tagged "dht22"
    or "bme280" and carries at least one of temp, hum and press. *)
Theorem inserted_rows_are_tagged_and_measured
  (cfg : config) (existing : list row) (rqs : list request) (r : row) :
  In r (inserted_rows (trace (conn (serve cfg rqs (start existing))))) ->
  (sensor r = "dht22" \/ sensor r = "bme280") /\ measured r = true.
Proof.
  apply (serve_inserted cfg
           (fun r => (sensor r = "dht22" \/ sensor r = "bme280")
                     /\ measured r = true)).
  - intros f r' Hin.
    destruct (in_group_rows _ _ _ Hin) as [[-> H]|[-> H]]; unfold measured; cbn.
    + split; [now left|]. now rewrite orb_false_r.
    + split; [now right|exact H].
  - intros r' [].
Qed.

Lemma inserted_rows_are_tagged_and_measured_witness :
  let r := {| ts := 1700000000; sensor := "dht22"; zone := None;
              temp := Some (PyFloat.of_Z 22); hum := None; press := None;
              source := None |} in
  In r (inserted_rows
          (trace (conn (serve default_config [dht_with_pressure_request] (start [])))))
  /\ measured r = true.
Proof.
  cbv zeta.
  assert (Hin : In {| ts := 1700000000; sensor := "dht22"; zone := None;
                      temp := Some (PyFloat.of_Z 22); hum := None; press := None;
                      source := None |}
                  (inserted_rows
                     (trace (conn (serve default_config
                                     [dht_with_pressure_request] (start []))))))
    by (vm_compute; left; reflexivity).
  split; [exact Hin|].
  exact (proj2 (inserted_rows_are_tagged_and_measured default_config []
                  [dht_with_pressure_request] _ Hin)).
Defined.

(** X6: in every run of the server, the temp, hum and press of every row
    inserted are NULL or finite numbers: no NaN and no infinity reaches the
    table. *)
Theorem inserted_values_are_finite
  (cfg : config) (existing : list row) (rqs : list request) (r : row) :
  In r (inserted_rows (trace (conn (serve cfg rqs (start existing))))) ->
  finite_or_null (temp r) = true
  /\ finite_or_null (hum r) = true
  /\ finite_or_null (press r) = true.
Proof.
  apply (serve_inserted_from_fields cfg
           (fun r => finite_or_null (temp r) = true
                     /\ finite_or_null (hum r) = true
                     /\ finite_or_null (press r) = true)).
  - intros rq f r' Hx Hin.
    destruct (extract_finite _ _ _ _ Hx) as (H1 & H2 & H3 & H4 & H5).
    destruct (in_group_rows _ _ _ Hin) as [[-> _]|[-> _]]; cbn; auto.
  - intros r' [].
Qed.

Lemma inserted_values_are_finite_witness :
  let r := {| ts := 1700000000; sensor := "dht22"; zone := None;
              temp := Some (PyFloat.of_Z 22); hum := None; press := None;
              source := None |} in
  In r (inserted_rows
          (trace (conn (serve default_config [dht_with_pressure_request] (start [])))))
  /\ finite_or_null (temp r) = true.
Proof.
  cbv zeta.
  assert (Hin : In {| ts := 1700000000; sensor := "dht22"; zone := None;
                      temp := Some (PyFloat.of_Z 22); hum := None; press := None;
                      source := None |}
                  (inserted_rows
                     (trace (conn (serve default_config
                                     [dht_with_pressure_request] (start []))))))
    by (vm_compute; left; reflexivity).
  split; [exact Hin|].
  exact (proj1 (inserted_values_are_finite default_config []
                  [dht_with_pressure_request] _ Hin)).
Defined.

Lemma resolve_zone_range (cfg : config) (sensor hint : string) :
  resolve_zone cfg sensor hint = "indoor"
  \/ resolve_zone cfg sensor hint = "outdoor"
  \/ resolve_zone cfg sensor hint = DEFAULT_ZONE cfg.
Proof.
  unfold resolve_zone.
  destruct (_ && _ && String.eqb _ (INDOOR_SENSOR cfg)); [now left|].
  destruct (_ && _ && String.eqb _ (OUTDOOR_SENSOR cfg)); [right; now left|].
  destruct (nonempty hint); [|right; now right]. cbn [andb].
  destruct (String.eqb_spec (strip (lower hint)) "indoor") as [->|_]; [now left|].
  destruct (String.eqb_spec (strip (lower hint)) "outdoor") as [->|_];
    [right; now left|right; now right].
Qed.

(** X7: [resolve_zone] answers "indoor", "outdoor" or the default zone,
    nothing else, whatever the sensor and the hint; so the zone a row is
    given never carries the spelling of the payload. *)
Theorem resolve_zone_closed (cfg : config) (sensor hint : string) :
  In (resolve_zone cfg sensor hint) ["indoor"; "outdoor"; DEFAULT_ZONE cfg].
Proof.
  destruct (resolve_zone_range cfg sensor hint) as [H|[H|H]]; rewrite H; cbn; auto.
Qed.

(** X8: in every run of the server, a zone column that is not NULL holds
    "indoor" or "outdoor" and differs from the default zone, and a source
    column that is not NULL differs from the default source. *)
Theorem stored_hints_are_never_the_defaults
  (cfg : config) (existing : list row) (rqs : list request) (r : row) :
  In r (inserted_rows (trace (conn (serve cfg rqs (start existing))))) ->
  (forall z, zone r = Some z ->
             z <> DEFAULT_ZONE cfg /\ (z = "indoor" \/ z = "outdoor"))
  /\ (forall s, source r = Some s -> s <> DEFAULT_SOURCE cfg).
Proof.
  apply (serve_inserted cfg
           (fun r => (forall z, zone r = Some z ->
                                z <> DEFAULT_ZONE cfg
                                /\ (z = "indoor" \/ z = "outdoor"))
                     /\ (forall s, source r = Some s -> s <> DEFAULT_SOURCE cfg))).
  - intros f r' Hin.
    assert (Hz : forall sn z, stored_zone cfg sn f = Some z ->
                              z <> DEFAULT_ZONE cfg /\ (z = "indoor" \/ z = "outdoor")).
    { intros sn z. unfold stored_zone.
      destruct (String.eqb_spec (resolve_zone cfg sn (f_zone f)) (DEFAULT_ZONE cfg))
        as [|Hne]; [discriminate|].
      intros E. injection E as <-. split; [exact Hne|].
      destruct (resolve_zone_range cfg sn (f_zone f)) as [H|[H|H]]; auto.
      contradiction. }
    assert (Hs : forall s, stored_source cfg f = Some s -> s <> DEFAULT_SOURCE cfg).
    { intros s. unfold stored_source.
      destruct (String.eqb_spec (f_source f) (DEFAULT_SOURCE cfg)) as [|Hne];
        [discriminate|].
      intros E. now injection E as <-. }
    destruct (in_group_rows _ _ _ Hin) as [[-> _]|[-> _]]; cbn; split; eauto.
  - intros r' [].
Qed.

Lemma stored_hints_are_never_the_defaults_witness :
  let rq := {| body := Ok (VDict [("t_dht", VInt 3); ("zone", VStr " OUTDOOR ");
                                  ("source", VStr "attic")]);
               t_recv := clock_1700000000; t_maint := clock_1700000000 |} in
  let r := {| ts := 1700000000; sensor := "dht22"; zone := Some "outdoor";
              temp := Some (PyFloat.of_Z 3); hum := None; press := None;
              source := Some "attic" |} in
  In r (inserted_rows (trace (conn (serve default_config [rq] (start [])))))
  /\ "outdoor" <> DEFAULT_ZONE default_config
  /\ "attic" <> DEFAULT_SOURCE default_config.
Proof.
  cbv zeta.
  match goal with
  | |- In ?r ?l /\ _ =>
      assert (Hin : In r l) by (vm_compute; left; reflexivity);
      destruct (stored_hints_are_never_the_defaults default_config [] _ _ Hin)
        as [Hz Hs]
  end.
  split; [exact Hin|]. split.
  - exact (proj1 (Hz "outdoor" eq_refl)).
  - exact (Hs "attic" eq_refl).
Defined.

(** ** How the table and its committed image evolve *)

Lemma sweep_durable (cfg : config) (now : PyFloat.float) (n : Z) (st : state) :
  durable (conn (sweep cfg now n st)) = readings (conn (sweep cfg now n st)).
Proof. unfold sweep, delete_older. now destruct (negb _ && _). Qed.

Lemma batched_durable (cfg : config) (f : fields) (st : state) :
  durable (conn (batched cfg f st)) =
  if COMMIT_EVERY cfg <=? _inserts_since_commit st + 1
  then readings (conn st) ++ group_rows cfg f
  else durable (conn st).
Proof.
  unfold batched, write_batcher, flush_due. rewrite insert_groups_spec.
  cbn. now destruct (_ <=? _).
Qed.

(** X9: a request changes the table only by appending the rows it inserts
    and, when a sweep runs, by removing the rows older than the cutoff: the
    table afterwards is the old table followed by the new rows, or that list
    filtered by [cutoff <= ts]. No row is altered and no other row appears. *)
Theorem table_is_append_only (cfg : config) (rq : request) (st : state) :
  let before := readings (conn st) in
  let new := inserted_rows (events_of cfg rq st) in
  let after := readings (conn (snd (do_POST cfg rq st))) in
  (after = before ++ new
   \/ exists n, PyFloat.to_Z (t_maint rq) = Ok n
                /\ after = filter (fun r => cutoff_at cfg n <=? ts r) (before ++ new))
  /\ forall r, In r after -> In r before \/ In r new.
Proof.
  cbv zeta. rewrite inserted_rows_step.
  assert (Hmain :
    readings (conn (snd (do_POST cfg rq st)))
      = readings (conn st)
          ++ match extract cfg (body rq) (t_recv rq) with
             | Ok f => group_rows cfg f | Raise _ => [] end
    \/ exists n, PyFloat.to_Z (t_maint rq) = Ok n
         /\ readings (conn (snd (do_POST cfg rq st)))
            = filter (fun r => cutoff_at cfg n <=? ts r)
                (readings (conn st)
                   ++ match extract cfg (body rq) (t_recv rq) with
                      | Ok f => group_rows cfg f | Raise _ => [] end)).
  { destruct (extract cfg (body rq) (t_recv rq)) as [f|e] eqn:Hx.
    - destruct (group_rows cfg f) as [|r0 rs] eqn:Hrows.
      + left. rewrite (do_POST_no_row _ _ _ _ Hx Hrows). now rewrite app_nil_r.
      + assert (Hne : group_rows cfg f <> []) by (rewrite Hrows; discriminate).
        rewrite (do_POST_rows _ _ _ _ Hx Hne). rewrite <- Hrows.
        destruct (batched_conn cfg f st) as [Hr _].
        unfold retention_sweeper. destruct (sweep_due _ _ _); [|now left].
        destruct (PyFloat.to_Z (t_maint rq)) as [n|e]; cbn [bind snd]; [|now left].
        unfold bind_int.
        destruct (int64 (cutoff_at cfg n)); cbn [bind snd]; [|now left].
        right. exists n. split; [reflexivity|].
        rewrite sweep_readings, Hr. apply filter_ext. intros r. unfold older_than.
        destruct (Z.ltb_spec (ts r) (cutoff_at cfg n)),
          (Z.leb_spec (cutoff_at cfg n) (ts r)); cbn; try reflexivity; lia.
    - left. rewrite (do_POST_raise _ _ _ _ Hx). now rewrite app_nil_r. }
  split; [exact Hmain|].
  intros r Hin. destruct Hmain as [E|(n & _ & E)]; rewrite E in Hin.
  - now apply in_app_or.
  - apply filter_In in Hin as [Hin _]. now apply in_app_or.
Qed.

(** X10: with COMMIT_EVERY at most 1 and a counter that is not negative,
    every request that writes leaves nothing uncommitted: the committed
    image of the table is the table. *)
Theorem every_write_is_committed (cfg : config) (rq : request) (st : state) :
  COMMIT_EVERY cfg <= 1 ->
  0 <= _inserts_since_commit st ->
  writes cfg rq = true ->
  durable (conn (snd (do_POST cfg rq st))) = readings (conn (snd (do_POST cfg rq st))).
Proof.
  intros HT Hc Hw. unfold writes in Hw.
  destruct (extract cfg (body rq) (t_recv rq)) as [f|e] eqn:Hx; [|discriminate].
  assert (Hne : group_rows cfg f <> [])
    by (destruct (group_rows cfg f); [discriminate|discriminate]).
  rewrite (do_POST_rows _ _ _ _ Hx Hne).
  assert (Hb : durable (conn (batched cfg f st)) = readings (conn (batched cfg f st))).
  { rewrite batched_durable. destruct (batched_conn cfg f st) as [-> _].
    destruct (Z.leb_spec (COMMIT_EVERY cfg) (_inserts_since_commit st + 1));
      [reflexivity|lia]. }
  unfold retention_sweeper. destruct (sweep_due _ _ _); [|exact Hb].
  destruct (PyFloat.to_Z (t_maint rq)) as [n|e]; cbn [bind snd]; [|exact Hb].
  unfold bind_int.
  destruct (int64 (cutoff_at cfg n)); cbn [bind snd]; [|exact Hb].
  apply sweep_durable.
Qed.

Lemma every_write_is_committed_witness :
  COMMIT_EVERY default_config <= 1
  /\ 0 <= _inserts_since_commit aged_state
  /\ writes default_config both_groups_request = true
  /\ durable (conn (snd (do_POST default_config both_groups_request aged_state)))
     = readings (conn (snd (do_POST default_config both_groups_request aged_state))).
Proof.
  assert (HT : COMMIT_EVERY default_config <= 1) by (cbn; lia).
  assert (Hc : 0 <= _inserts_since_commit aged_state) by (cbn; lia).
  assert (Hw : writes default_config both_groups_request = true)
    by (vm_compute; reflexivity).
  repeat (split; [assumption|]).
  exact (every_write_is_committed default_config both_groups_request aged_state
           HT Hc Hw).
Defined.

(** The invariant behind the crash window: the counter of the batcher stays
    below the threshold and bounds the rows not committed yet. *)
Lemma crash_window_step (cfg : config) (rq : request) (st : state) :
  1 <= COMMIT_EVERY cfg ->
  (0 <= _inserts_since_commit st < COMMIT_EVERY cfg
   /\ exists tail, uncommitted (conn st) tail
                   /\ Z.of_nat (List.length tail) <= 2 * _inserts_since_commit st) ->
  let st' := snd (do_POST cfg rq st) in
  0 <= _inserts_since_commit st' < COMMIT_EVERY cfg
  /\ exists tail, uncommitted (conn st') tail
                  /\ Z.of_nat (List.length tail) <= 2 * _inserts_since_commit st'.
Proof.
  intros HT (Hc & tail & Hu & Hlen). cbv zeta.
  destruct (extract cfg (body rq) (t_recv rq)) as [f|e] eqn:Hx.
  2:{ rewrite (do_POST_raise _ _ _ _ Hx). cbn [snd]. eauto. }
  destruct (group_rows cfg f) as [|r0 rs] eqn:Hrows.
  { rewrite (do_POST_no_row _ _ _ _ Hx Hrows). cbn [snd]. eauto. }
  assert (Hne : group_rows cfg f <> []) by (rewrite Hrows; discriminate).
  assert (Hb : 0 <= _inserts_since_commit (batched cfg f st) < COMMIT_EVERY cfg
               /\ exists tail', uncommitted (conn (batched cfg f st)) tail'
                    /\ Z.of_nat (List.length tail')
                       <= 2 * _inserts_since_commit (batched cfg f st)).
  { destruct (batched_globals cfg f st) as (Hi & _).
    destruct (batched_conn cfg f st) as [Hr _].
    pose proof (batched_durable cfg f st) as Hd.
    pose proof (group_rows_length cfg f) as Hl.
    unfold uncommitted. rewrite Hi, Hr, Hd.
    destruct (Z.leb_spec (COMMIT_EVERY cfg) (_inserts_since_commit st + 1)).
    - split; [lia|]. exists []. split; [now rewrite app_nil_r|cbn; lia].
    - split; [lia|]. exists (tail ++ group_rows cfg f). split.
      + unfold uncommitted in Hu. rewrite Hu. now rewrite app_assoc.
      + rewrite length_app. lia. }
  rewrite (do_POST_rows _ _ _ _ Hx Hne). unfold retention_sweeper.
  destruct (sweep_due _ _ _); [|exact Hb].
  destruct (PyFloat.to_Z (t_maint rq)) as [n|e]; cbn [bind snd]; [|exact Hb].
  unfold bind_int.
  destruct (int64 (cutoff_at cfg n)); cbn [bind snd]; [|exact Hb].
  destruct (sweep_globals cfg (t_maint rq) n (batched cfg f st)) as (_ & _ & ->).
  destruct Hb as [Hc' _].
  split; [exact Hc'|]. exists []. split.
  - unfold uncommitted. now rewrite sweep_durable, app_nil_r.
  - change (Z.of_nat (List.length (@nil row))) with 0. lia.
Qed.

(** X11: with a flush threshold T >= 1, after any run of a server started on
    a committed table, the table is its committed image followed by the rows
    not committed yet, and these are at most twice the counter of the
    batcher, hence at most 2 * (T - 1). *)
Theorem crash_window_is_bounded
  (cfg : config) (existing : list row) (rqs : list request) :
  1 <= COMMIT_EVERY cfg ->
  let st := serve cfg rqs (start existing) in
  exists tail,
    readings (conn st) = durable (conn st) ++ tail
    /\ Z.of_nat (List.length tail) <= 2 * _inserts_since_commit st
    /\ Z.of_nat (List.length tail) <= 2 * (COMMIT_EVERY cfg - 1).
Proof.
  intros HT. cbv zeta.
  assert (Hinv : forall rqs st,
             (0 <= _inserts_since_commit st < COMMIT_EVERY cfg
              /\ exists tail, uncommitted (conn st) tail
                   /\ Z.of_nat (List.length tail) <= 2 * _inserts_since_commit st) ->
             0 <= _inserts_since_commit (serve cfg rqs st) < COMMIT_EVERY cfg
             /\ exists tail, uncommitted (conn (serve cfg rqs st)) tail
                  /\ Z.of_nat (List.length tail)
                     <= 2 * _inserts_since_commit (serve cfg rqs st)).
  { induction rqs0 as [|rq rqs0 IH]; intros st H; [exact H|].
    cbn [serve]. apply IH. now apply crash_window_step. }
  destruct (Hinv rqs (start existing)) as (Hc & tail & Hu & Hlen).
  { split; [cbn; lia|]. exists []. split; [unfold uncommitted; cbn|cbn; lia].
    now rewrite app_nil_r. }
  exists tail. split; [exact Hu|]. split; [exact Hlen|lia].
Qed.

Lemma crash_window_is_bounded_witness :
  let cfg := with_commit_every default_config 3 in
  1 <= COMMIT_EVERY cfg
  /\ exists tail,
       readings (conn (serve cfg [both_groups_request; bme_indoor_request] (start [])))
       = durable (conn (serve cfg [both_groups_request; bme_indoor_request] (start [])))
           ++ tail
       /\ Z.of_nat (List.length tail) <= 4.
Proof.
  cbv zeta.
  assert (HT : 1 <= COMMIT_EVERY (with_commit_every default_config 3))
    by (cbn; lia).
  split; [exact HT|].
  destruct (crash_window_is_bounded (with_commit_every default_config 3) []
              [both_groups_request; bme_indoor_request] HT)
    as (tail & Hu & _ & Hlen).
  exists tail. split; [exact Hu|exact Hlen].
Defined.

(** ** Requests that write nothing *)

Lemma do_POST_idle (cfg : config) (rq : request) (st : state) :
  writes cfg rq = false -> snd (do_POST cfg rq st) = st.
Proof.
  unfold writes. intros H.
  destruct (extract cfg (body rq) (t_recv rq)) as [f|e] eqn:Hx.
  - destruct (group_rows cfg f) eqn:Hrows; [|discriminate].
    now rewrite (do_POST_no_row _ _ _ _ Hx Hrows).
  - now rewrite (do_POST_raise _ _ _ _ Hx).
Qed.

(** X12: requests that are rejected or carry no reading leave no trace in
    the state: a run ends in the state of the run of its writing requests
    alone. *)
Theorem idle_requests_are_invisible
  (cfg : config) (rqs : list request) (st : state) :
  serve cfg rqs st = serve cfg (filter (writes cfg) rqs) st.
Proof.
  revert st. induction rqs as [|rq rqs IH]; intros st; [reflexivity|].
  cbn [serve filter]. destruct (writes cfg rq) eqn:Hw.
  - cbn [serve]. apply IH.
  - rewrite (do_POST_idle _ _ _ Hw). apply IH.
Qed.

(** ** Synonym keys *)

Lemma chain_cons (d : list (string * value)) (k k' : string) (rest : list string) :
  chain d (k :: k' :: rest)
  = if truthy (getv d k) then getv d k else chain d (k' :: rest).
Proof. reflexivity. Qed.

Lemma chain_first_truthy (d : list (string * value)) (ks : list string) (v : value) :
  first_truthy d ks v -> chain d ks = v.
Proof.
  intros (before & k & after & -> & Hb & Hk & Hv). subst v.
  induction before as [|b before IH].
  - cbn [app]. destruct after as [|a after]; [reflexivity|].
    rewrite chain_cons. now rewrite Hv.
  - inversion Hb as [|? ? Hb1 Hb2]; subst.
    cbn [app]. destruct (before ++ k :: after) as [|x l] eqn:E.
    + destruct before; discriminate.
    + rewrite chain_cons, Hb1. now apply IH.
Qed.

Lemma chain_last (d : list (string * value)) (ks : list string) :
  ks <> [] ->
  Forall (falsy_at d) (removelast ks) ->
  chain d ks = getv d (last ks "").
Proof.
  induction ks as [|k ks IH]; [congruence|]. intros _ H.
  destruct ks as [|k' ks]; [reflexivity|].
  change (removelast (k :: k' :: ks)) with (k :: removelast (k' :: ks)) in H.
  inversion H as [|? ? H1 H2]; subst.
  rewrite chain_cons. unfold falsy_at in H1. rewrite H1.
  change (last (k :: k' :: ks) "") with (last (k' :: ks) "").
  apply IH; [discriminate|exact H2].
Qed.

Lemma extract_fields
  (cfg : config) (d : list (string * value)) (t : PyFloat.float) (f : fields) :
  extract cfg (Ok (VDict d)) t = Ok f ->
  forall proj ks, In (proj, ks) field_chains -> proj f = to_float (chain d ks).
Proof.
  rewrite extract_dict. intros H.
  destruct (PyFloat.to_Z t); [|discriminate]. cbn [bind] in H.
  destruct (strip_method _); [|discriminate]. cbn [bind] in H.
  destruct (strip_method _); [|discriminate]. cbn [bind] in H.
  injection H as <-. intros proj ks Hin. unfold field_chains in Hin.
  repeat (destruct Hin as [Hin|Hin];
          [injection Hin as <- <-; reflexivity|]).
  destruct Hin.
Qed.

(** X13: for each measurement field, the keys are tried in the order of
    lines 134-143 and the first one holding a true value gives the field,
    after coercion, whatever the later keys hold; when all the keys but the
    last are missing or false, the field is the coercion of whatever the
    last key holds, a zero included. *)
Theorem synonym_priority
  (cfg : config) (d : list (string * value)) (t : PyFloat.float) (f : fields) :
  extract cfg (Ok (VDict d)) t = Ok f ->
  forall proj ks,
    In (proj, ks) field_chains ->
    (forall v, first_truthy d ks v -> proj f = to_float v)
    /\ (Forall (falsy_at d) (removelast ks) ->
        proj f = to_float (getv d (last ks ""))).
Proof.
  intros Hx proj ks Hin. rewrite (extract_fields _ _ _ _ Hx _ _ Hin). split.
  - intros v Hv. now rewrite (chain_first_truthy _ _ _ Hv).
  - intros Hall. rewrite chain_last; [reflexivity| |exact Hall].
    unfold field_chains in Hin.
    repeat (destruct Hin as [Hin|Hin]; [injection Hin as _ <-; discriminate|]).
    destruct Hin.
Qed.

Lemma synonym_priority_witness :
  let d := [("temperature", VInt 25); ("t_bme", VStr "30.5"); ("p_bme", VInt 0)] in
  exists f,
    extract default_config (Ok (VDict d)) clock_1700000000 = Ok f
    /\ t_bme f = Some (PyFloat.of_decimal false 305 (-1))
    /\ p_bme f = Some (PyFloat.of_Z 0).
Proof.
  cbv zeta. eexists. split; [vm_compute; reflexivity|].
  match goal with
  | |- ?proj1' ?f = _ /\ _ =>
      assert (Hx : extract default_config
                     (Ok (VDict [("temperature", VInt 25); ("t_bme", VStr "30.5");
                                 ("p_bme", VInt 0)])) clock_1700000000 = Ok f)
        by (vm_compute; reflexivity)
  end.
  split.
  - destruct (synonym_priority _ _ _ _ Hx t_bme
                ["t_bme"; "temperature"; "temp"; "lt_bme"]) as [H _].
    { unfold field_chains. cbn. auto. }
    rewrite (H (VStr "30.5")); [vm_compute; reflexivity|].
    exists [], "t_bme", ["temperature"; "temp"; "lt_bme"].
    repeat split; constructor.
  - destruct (synonym_priority _ _ _ _ Hx p_bme ["pressure"; "press"; "p_bme"])
      as [_ H].
    { unfold field_chains. cbn. auto 6. }
    rewrite H; [vm_compute; reflexivity|].
    repeat constructor.
Defined.

(** ** Pressure check and sensor names *)

Lemma digits2_pos_gt (p : positive) : Zpos p < 2 ^ Zpos (digits2_pos p).
Proof.
  induction p as [p IH|p IH|]; cbn [digits2_pos].
  - rewrite Pos2Z.inj_succ, Z.pow_succ_r by lia. lia.
  - rewrite Pos2Z.inj_succ, Z.pow_succ_r by lia. lia.
  - reflexivity.
Qed.

Lemma shr_exponent (mrs : shr_record) (e n : Z) : e <= snd (shr mrs e n).
Proof. unfold shr. destruct n; cbn [snd]; lia. Qed.

Lemma shr_fexp_exponent (m e : Z) (l : location) :
  e <= snd (shr_fexp PyFloat.prec PyFloat.emax m e l).
Proof. unfold shr_fexp. apply shr_exponent. Qed.

(** What rounding gives: a zero, an infinity or a finite number of the sign
    asked for, whose exponent is not below the one given. *)
Lemma binary_round_aux_shape (s : bool) (m e : Z) (l : location) :
  match binary_round_aux PyFloat.prec PyFloat.emax s m e l with
  | S754_zero s' => s' = s
  | S754_infinity s' => s' = s
  | S754_nan => True
  | S754_finite s' _ e' => s' = s /\ e <= e'
  end.
Proof.
  unfold binary_round_aux.
  pose proof (shr_fexp_exponent m e l) as H1.
  destruct (shr_fexp PyFloat.prec PyFloat.emax m e l) as [mrs' e'].
  cbn [snd] in H1.
  match goal with
  | |- context [shr_fexp ?a ?b ?x e' ?y] =>
      pose proof (shr_fexp_exponent x e' y) as H2;
      destruct (shr_fexp a b x e' y) as [mrs'' e'']
  end.
  cbn [snd] in H2.
  destruct (shr_m mrs''); [reflexivity| |exact I].
  destruct (e'' <=? PyFloat.emax - PyFloat.prec); [split; [reflexivity|lia]|reflexivity].
Qed.

Lemma binary_round_shape (s : bool) (p : positive) :
  2048 <= Zpos p ->
  match binary_round PyFloat.prec PyFloat.emax s p 0 with
  | S754_zero s' => s' = s
  | S754_infinity s' => s' = s
  | S754_nan => True
  | S754_finite s' _ e' => s' = s /\ -41 <= e'
  end.
Proof.
  intros Hp. unfold binary_round.
  assert (Hd : 12 <= Zpos (digits2_pos p)).
  { pose proof (digits2_pos_gt p) as H.
    destruct (Z.le_gt_cases 12 (Zpos (digits2_pos p))) as [|Hlt]; [assumption|].
    assert (2 ^ Zpos (digits2_pos p) <= 2 ^ 11)
      by (apply Z.pow_le_mono_r; lia).
    change (2 ^ 11) with 2048 in *. lia. }
  assert (He : -41 <= snd (shl_align p 0
                             (fexp PyFloat.prec PyFloat.emax
                                (Zpos (digits2_pos p) + 0)))).
  { unfold shl_align, fexp, emin, PyFloat.prec, PyFloat.emax.
    destruct (Z.max _ _ - 0) eqn:E; cbn [snd]; lia. }
  destruct (shl_align p 0 _) as [mz ez]. cbn [snd] in He.
  pose proof (binary_round_aux_shape s (Zpos mz) ez loc_Exact) as H.
  destruct (binary_round_aux _ _ s (Zpos mz) ez loc_Exact); auto.
  destruct H. split; [assumption|lia].
Qed.

Lemma binary_round_negative (p : positive) :
  match binary_round PyFloat.prec PyFloat.emax true p 0 with
  | S754_zero s' => s' = true
  | S754_infinity s' => s' = true
  | S754_nan => True
  | S754_finite s' _ _ => s' = true
  end.
Proof.
  unfold binary_round. destruct (shl_align p 0 _) as [mz ez].
  pose proof (binary_round_aux_shape true (Zpos mz) ez loc_Exact) as H.
  destruct (binary_round_aux _ _ true (Zpos mz) ez loc_Exact); auto.
  now destruct H.
Qed.

Lemma has_pressure_mmhg_small :
  forallb (fun n => Bool.eqb (has_pressure_mmhg (VInt (Z.of_nat n)))
                      ((200 <=? Z.of_nat n) && (Z.of_nat n <=? 1200)))
    (seq 0 2048) = true.
Proof. vm_compute. reflexivity. Qed.

Lemma has_pressure_mmhg_VInt (z : Z) :
  has_pressure_mmhg (VInt z) = (200 <=? z) && (z <=? 1200).
Proof.
  destruct (Z.lt_ge_cases z 0) as [Hneg|Hpos].
  - replace ((200 <=? z) && (z <=? 1200)) with false
      by (symmetry; apply andb_false_intro1; apply Z.leb_gt; lia).
    destruct z as [|p|p]; try lia.
    unfold has_pressure_mmhg, float_of, PyFloat.of_Z, binary_normalize.
    pose proof (binary_round_negative p) as H.
    destruct (binary_round PyFloat.prec PyFloat.emax true p 0) as [s|s| |s m e];
      subst; reflexivity.
  - destruct (Z.lt_ge_cases z 2048) as [Hsmall|Hbig].
    + pose proof has_pressure_mmhg_small as H.
      rewrite forallb_forall in H.
      specialize (H (Z.to_nat z)). rewrite Z2Nat.id in H by lia.
      apply eqb_prop. apply H. apply in_seq. lia.
    + replace ((200 <=? z) && (z <=? 1200)) with false
        by (symmetry; apply andb_false_intro2; apply Z.leb_gt; lia).
      destruct z as [|p|p]; try lia.
      unfold has_pressure_mmhg, float_of, PyFloat.of_Z, binary_normalize.
      pose proof (binary_round_shape false p Hbig) as H.
      destruct (binary_round PyFloat.prec PyFloat.emax false p 0) as [s|s| |s m e].
      * subst. reflexivity.
      * reflexivity.
      * reflexivity.
      * destruct H as [-> He]. cbn [PyFloat.isfinite andb].
        apply andb_false_intro2.
        change (binary_round PyFloat.prec PyFloat.emax false 1200 0)
          with (S754_finite false 5277655813324800 (-42)).
        unfold SFleb, SFcompare.
        destruct (Z.compare_spec e (-42)); first [reflexivity | lia].
Qed.

(** X14: for an integer, [has_pressure_mmhg] holds exactly between 200 and
    1200, bounds included, however large or negative the integer is. *)
Theorem has_pressure_mmhg_int (z : Z) :
  has_pressure_mmhg (VInt z) = true <-> 200 <= z <= 1200.
Proof.
  rewrite has_pressure_mmhg_VInt, andb_true_iff, !Z.leb_le. reflexivity.
Qed.

(** X15: [has_pressure_mmhg] accepts only what [float] turns into a finite
    number: never [None], a list or a dict, never a boolean, never NaN or an
    infinity, never a string that is no float literal. *)
Theorem has_pressure_mmhg_sound (v : value) :
  has_pressure_mmhg v = true ->
  numeric_like v = true
  /\ (forall b, v <> VBool b)
  /\ exists f, float_of v = Some f /\ PyFloat.isfinite f = true.
Proof.
  unfold has_pressure_mmhg. intros H.
  destruct v as [|b|z|f|s|l|d]; try discriminate.
  - destruct b; vm_compute in H; discriminate.
  - split; [reflexivity|]. split; [discriminate|].
    destruct (float_of (VInt z)) as [g|]; [|discriminate].
    apply andb_prop in H as [Hf _]. eauto.
  - split; [reflexivity|]. split; [discriminate|].
    cbn [float_of] in *. apply andb_prop in H as [Hf _]. eauto.
  - split; [reflexivity|]. split; [discriminate|].
    destruct (float_of (VStr s)) as [g|]; [|discriminate].
    apply andb_prop in H as [Hf _]. eauto.
Qed.

Lemma has_pressure_mmhg_sound_witness :
  has_pressure_mmhg (VStr " 751.5 ") = true
  /\ exists f, float_of (VStr " 751.5 ") = Some f /\ PyFloat.isfinite f = true.
Proof.
  assert (H : has_pressure_mmhg (VStr " 751.5 ") = true) by (vm_compute; reflexivity).
  split; [exact H|].
  exact (proj2 (proj2 (has_pressure_mmhg_sound _ H))).
Defined.

Lemma canonical_sensor_range (name : option string) (p : value) :
  canonical_sensor name p = "bme280" \/ canonical_sensor name p = "dht22".
Proof.
  unfold canonical_sensor.
  destruct (member _ bme280_names); [now left|].
  destruct (member _ dht22_names); [now right|].
  destruct (has_pressure_mmhg p); [now left|now right].
Qed.

(** X16: [canonical_sensor] answers "bme280" or "dht22", nothing else, and
    its answer is a fixed point: given back as a name it is returned as it
    is, whatever the pressure. *)
Theorem canonical_sensor_is_canonical (name : option string) (p p' : value) :
  let c := canonical_sensor name p in
  (c = "bme280" \/ c = "dht22") /\ canonical_sensor (Some c) p' = c.
Proof.
  cbv zeta. split; [apply canonical_sensor_range|].
  destruct (canonical_sensor_range name p) as [-> | ->]; reflexivity.
Qed.

Lemma member_app (s : string) (a b : list string) :
  member s (a ++ b) = member s a || member s b.
Proof. unfold member. apply existsb_app. Qed.

(** X17: a name that is known once trimmed and lower-cased decides alone:
    the pressure value never reclassifies it. *)
Theorem known_name_ignores_pressure (name : string) (p p' : value) :
  known_name name = true ->
  canonical_sensor (Some name) p = canonical_sensor (Some name) p'.
Proof.
  unfold known_name, canonical_sensor. rewrite member_app.
  assert (E : (if nonempty name then name else "") = name) by now destruct name.
  rewrite E. intros H.
  destruct (member _ bme280_names); [reflexivity|].
  destruct (member _ dht22_names); [reflexivity|discriminate].
Qed.

Lemma known_name_ignores_pressure_witness :
  known_name "  BME-280 " = true
  /\ canonical_sensor (Some "  BME-280 ") VNone
     = canonical_sensor (Some "  BME-280 ") (VInt 751)
  /\ canonical_sensor (Some "  BME-280 ") VNone = "bme280".
Proof.
  assert (H : known_name "  BME-280 " = true) by reflexivity.
  split; [exact H|]. split; [|reflexivity].
  exact (known_name_ignores_pressure _ VNone (VInt 751) H).
Defined.

(** X18: a missing, empty or unknown name is classified by the pressure
    alone: with an integer pressure the sensor is "bme280" exactly between
    200 and 1200, and "dht22" otherwise. *)
Theorem unknown_name_is_classified_by_pressure (name : option string) (z : Z) :
  match name with Some n => known_name n = false | None => True end ->
  canonical_sensor name (VInt z)
  = if (200 <=? z) && (z <=? 1200) then "bme280" else "dht22".
Proof.
  intros H. unfold canonical_sensor. rewrite has_pressure_mmhg_VInt.
  assert (E : member (lower (strip match name with
                                   | Some n => if nonempty n then n else ""
                                   | None => ""
                                   end)) (bme280_names ++ dht22_names) = false).
  { destruct name as [n|]; [|reflexivity].
    replace (if nonempty n then n else "") with n by now destruct n.
    exact H. }
  rewrite member_app in E. apply orb_false_elim in E as [-> ->]. reflexivity.
Qed.

Lemma unknown_name_is_classified_by_pressure_witness :
  known_name "station-7" = false
  /\ canonical_sensor (Some "station-7") (VInt 751) = "bme280"
  /\ canonical_sensor None (VInt 1201) = "dht22".
Proof.
  assert (H : known_name "station-7" = false) by reflexivity.
  split; [exact H|]. split.
  - exact (unknown_name_is_classified_by_pressure (Some "station-7") 751 H).
  - exact (unknown_name_is_classified_by_pressure None 1201 I).
Defined.

(** ** Trimming *)

Lemma rstrip_by_idempotent (sp : ascii -> bool) (s : string) :
  rstrip_by sp (rstrip_by sp s) = rstrip_by sp s.
Proof.
  induction s as [|c s IH]; [reflexivity|].
  cbn [rstrip_by]. destruct (rstrip_by sp s) as [|c' r'] eqn:E.
  - destruct (sp c) eqn:Hc; [reflexivity|]. cbn [rstrip_by]. now rewrite Hc.
  - change (rstrip_by sp (String c (String c' r')))
      with (match rstrip_by sp (String c' r') with
            | EmptyString => if sp c then EmptyString else String c EmptyString
            | String a b => String c (String a b)
            end).
    now rewrite IH.
Qed.

Lemma lstrip_by_shape (sp : ascii -> bool) (s : string) :
  lstrip_by sp s = EmptyString
  \/ exists c r, lstrip_by sp s = String c r /\ sp c = false.
Proof.
  induction s as [|c s IH]; [now left|].
  cbn [lstrip_by]. destruct (sp c) eqn:Hc; [exact IH|].
  right. now exists c, s.
Qed.

Lemma strip_by_idempotent (sp : ascii -> bool) (s : string) :
  strip_by sp (strip_by sp s) = strip_by sp s.
Proof.
  unfold strip_by.
  destruct (lstrip_by_shape sp s) as [->|(c & r & -> & Hc)]; [reflexivity|].
  destruct (rstrip_by_head sp c r Hc) as [r' E]. rewrite E.
  cbn [lstrip_by]. rewrite Hc, <- E. apply rstrip_by_idempotent.
Qed.

(** X19: white space around a numeric string does not matter to
    [to_float]: a string and its trimmed form coerce alike. *)
Theorem to_float_ignores_surrounding_space (s : string) :
  to_float (VStr s) = to_float (VStr (strip s)).
Proof.
  unfold to_float. cbn [str]. unfold strip. now rewrite strip_by_idempotent.
Qed.

(** ** Configuration and hard bindings *)

Lemma load_config_fields (env : environ) (cfg : config) :
  load_config env = Ok cfg ->
  FORCE_ZONE_BY_SENSOR cfg
    = String.eqb (lower (getenv env "FORCE_ZONE_BY_SENSOR" "false")) "true"
  /\ INDOOR_SENSOR cfg = sensor_binding env "INDOOR_SENSOR"
  /\ OUTDOOR_SENSOR cfg = sensor_binding env "OUTDOOR_SENSOR".
Proof.
  unfold load_config. intros H.
  repeat match type of H with
         | bind ?m _ = Ok _ => destruct m; [cbn [bind] in H|discriminate]
         end.
  injection H as <-. cbn. auto.
Qed.

(** X20: a binding set in the environment is matched whatever its case and
    surrounding white space: when the configuration loads, the flag reads
    "true" in any case and INDOOR_SENSOR is set to a value that, lower-cased
    and trimmed, is the sensor name lower-cased and trimmed and is not
    empty, the zone is "indoor" whatever the hint. *)
Theorem configured_binding_is_matched
  (env : environ) (cfg : config) (v sensor hint : string) :
  load_config env = Ok cfg ->
  lower (getenv env "FORCE_ZONE_BY_SENSOR" "false") = "true" ->
  env "INDOOR_SENSOR" = Some v ->
  strip (lower v) <> "" ->
  strip (lower sensor) = strip (lower v) ->
  resolve_zone cfg sensor hint = "indoor".
Proof.
  intros Hload Hforce Hv Hne Hs.
  destruct (load_config_fields _ _ Hload) as (HF & HI & _).
  assert (Hb : sensor_binding env "INDOOR_SENSOR" = strip (lower v)).
  { unfold sensor_binding. rewrite Hv. now destruct v. }
  unfold resolve_zone. rewrite HF, HI, Hb, Hforce, Hs, !String.eqb_refl.
  rewrite (nonempty_true _ Hne). reflexivity.
Qed.

Lemma configured_binding_is_matched_witness :
  let env := env_of [("FORCE_ZONE_BY_SENSOR", "True"); ("INDOOR_SENSOR", " BME280 ");
                     ("DEFAULT_ZONE", "outdoor")] in
  exists cfg,
    load_config env = Ok cfg
    /\ resolve_zone cfg "bme280" "outdoor" = "indoor".
Proof.
  cbv zeta. eexists. split; [vm_compute; reflexivity|].
  eapply (configured_binding_is_matched
            (env_of [("FORCE_ZONE_BY_SENSOR", "True"); ("INDOOR_SENSOR", " BME280 ");
                     ("DEFAULT_ZONE", "outdoor")]) _ " BME280 ").
  - vm_compute. reflexivity.
  - reflexivity.
  - reflexivity.
  - vm_compute. discriminate.
  - reflexivity.
Defined.

Lemma resolve_zone_unbound (cfg : config) (sensor hint : string) :
  strip (lower sensor) <> INDOOR_SENSOR cfg ->
  strip (lower sensor) <> OUTDOOR_SENSOR cfg ->
  resolve_zone cfg sensor hint = resolve_zone (with_force cfg false) sensor hint.
Proof.
  intros HI HO. unfold resolve_zone. cbn [with_force FORCE_ZONE_BY_SENSOR
    INDOOR_SENSOR OUTDOOR_SENSOR DEFAULT_ZONE andb].
  apply String.eqb_neq in HI, HO. rewrite HI, HO.
  now rewrite !andb_false_r.
Qed.

(** X21: the handler asks for the zone of "dht22" and of "bme280" only, so a
    hard binding spelled otherwise (an alias such as "bme", mixed case
    aside) never applies: the rows of every submission are those written
    with the hard binding switched off. *)
Theorem alias_binding_has_no_effect (cfg : config) (f : fields) :
  ~ In (INDOOR_SENSOR cfg) ["dht22"; "bme280"] ->
  ~ In (OUTDOOR_SENSOR cfg) ["dht22"; "bme280"] ->
  group_rows cfg f = group_rows (with_force cfg false) f.
Proof.
  intros HI HO.
  assert (Hz : forall sn, In sn ["dht22"; "bme280"] ->
                          stored_zone cfg sn f = stored_zone (with_force cfg false) sn f).
  { intros sn Hsn. unfold stored_zone.
    rewrite (resolve_zone_unbound cfg sn (f_zone f)); [reflexivity| |].
    - intros E. apply HI. rewrite <- E.
      destruct Hsn as [<-|[<-|[]]]; cbn; auto.
    - intros E. apply HO. rewrite <- E.
      destruct Hsn as [<-|[<-|[]]]; cbn; auto. }
  rewrite !group_rows_explicit. unfold dht22_row, bme280_row.
  rewrite (Hz "dht22"), (Hz "bme280") by (cbn; auto). reflexivity.
Qed.

Lemma alias_binding_has_no_effect_witness :
  let cfg := {| RETENTION_DAYS := 90; COMMIT_EVERY := 1; CLEANUP_EVERY := 400;
                CLEANUP_INTERVAL_SEC := 60; DEFAULT_ZONE := "indoor";
                DEFAULT_SOURCE := "esp32"; INDOOR_SENSOR := "dht";
                OUTDOOR_SENSOR := "bme"; FORCE_ZONE_BY_SENSOR := true |} in
  let f := {| f_ts := 1700000000; t_dht := Some (PyFloat.of_Z 3); h_dht := None;
              t_bme := Some (PyFloat.of_Z 4); h_bme := None; p_bme := None;
              f_zone := "outdoor"; f_source := "esp32" |} in
  ~ In (INDOOR_SENSOR cfg) ["dht22"; "bme280"]
  /\ ~ In (OUTDOOR_SENSOR cfg) ["dht22"; "bme280"]
  /\ group_rows cfg f = group_rows (with_force cfg false) f.
Proof.
  cbv zeta.
  match goal with
  | |- ?A /\ ?B /\ _ =>
      assert (HI : A) by (intros [H|[H|[]]]; discriminate);
      assert (HO : B) by (intros [H|[H|[]]]; discriminate)
  end.
  split; [exact HI|]. split; [exact HO|].
  exact (alias_binding_has_no_effect _ _ HI HO).
Defined.

(** ** Integers through [str] and [float] *)

Lemma digit_char (c : ascii) :
  isdigit c = true ->
  isspace c = false /\ PyFloat.is_float_space c = false
  /\ lower_char c = c /\ PyFloat.is_char c 95 = false
  /\ PyFloat.is_char c 45 = false /\ PyFloat.is_char c 43 = false
  /\ PyFloat.is_char c 46 = false
  /\ Ascii.eqb c "i" = false /\ Ascii.eqb c "n" = false.
Proof.
  destruct c as [[] [] [] [] [] [] [] []]; vm_compute; intros H;
    try discriminate H; repeat split.
Qed.

Lemma all_digits_uint (d : Decimal.uint) :
  all_digits (NilEmpty.string_of_uint d) = true.
Proof. induction d; cbn; auto. Qed.

Lemma digits_value_uint (d : Decimal.uint) (acc : Z) :
  PyFloat.digits_value acc (NilEmpty.string_of_uint d) = hval acc d.
Proof.
  revert acc. induction d; intros acc; cbn [NilEmpty.string_of_uint
    PyFloat.digits_value hval]; rewrite ?IHd; try reflexivity; f_equal;
    unfold code; cbn; lia.
Qed.

Lemma hval_of_uint_acc (d : Decimal.uint) (acc : positive) :
  Zpos (Pos.of_uint_acc d acc) = hval (Zpos acc) d.
Proof.
  revert acc. induction d; intros acc; cbn [Pos.of_uint_acc hval];
    rewrite ?IHd; try reflexivity; f_equal; lia.
Qed.

Lemma hval_of_uint (d : Decimal.uint) : Z.of_N (Pos.of_uint d) = hval 0 d.
Proof.
  induction d; cbn [Pos.of_uint hval]; try exact IHd; try reflexivity;
    cbn [Z.of_N]; rewrite hval_of_uint_acc; reflexivity.
Qed.

Lemma digits_value_to_uint (p : positive) :
  PyFloat.digits_value 0 (NilEmpty.string_of_uint (Pos.to_uint p)) = Zpos p.
Proof.
  rewrite digits_value_uint, <- hval_of_uint, DecimalPos.Unsigned.of_to.
  reflexivity.
Qed.

Lemma span_digits_all (s : string) :
  all_digits s = true -> PyFloat.span_digits s = (s, EmptyString).
Proof.
  induction s as [|c s IH]; [reflexivity|]. cbn [all_digits PyFloat.span_digits].
  intros H. apply andb_prop in H as [Hc Hs]. now rewrite Hc, (IH Hs).
Qed.

Lemma remove_underscores_all (s : string) (prev : ascii) :
  all_digits s = true -> PyFloat.is_char prev 95 = false ->
  PyFloat.remove_underscores prev s = Some s.
Proof.
  revert prev. induction s as [|c s IH]; intros prev H Hp.
  - cbn. now rewrite Hp.
  - cbn [all_digits] in H. apply andb_prop in H as [Hc Hs].
    destruct (digit_char c Hc) as (_ & _ & _ & Hu & _).
    cbn [PyFloat.remove_underscores]. rewrite Hu, Hp. cbn [andb].
    now rewrite (IH c Hs Hu).
Qed.

Lemma strip_by_all (sp : ascii -> bool) (s : string) :
  (forall c, isdigit c = true -> sp c = false) ->
  all_digits s = true -> strip_by sp s = s.
Proof.
  intros Hsp H. unfold strip_by.
  assert (Hl : lstrip_by sp s = s).
  { destruct s as [|c s]; [reflexivity|]. cbn [all_digits] in H.
    apply andb_prop in H as [Hc _]. cbn. now rewrite (Hsp c Hc). }
  rewrite Hl. induction s as [|c s IH]; [reflexivity|].
  cbn [all_digits] in H. apply andb_prop in H as [Hc Hs].
  cbn [rstrip_by]. rewrite IH; [|exact Hs|].
  - destruct s; [now rewrite (Hsp c Hc)|reflexivity].
  - destruct s as [|c' s]; [reflexivity|]. cbn [all_digits] in Hs.
    apply andb_prop in Hs as [Hc' _]. cbn. now rewrite (Hsp c' Hc').
Qed.

Lemma lower_all (s : string) : all_digits s = true -> lower s = s.
Proof.
  induction s as [|c s IH]; [reflexivity|]. cbn [all_digits lower].
  intros H. apply andb_prop in H as [Hc Hs].
  destruct (digit_char c Hc) as (_ & _ & -> & _). now rewrite (IH Hs).
Qed.

Lemma append_empty (s : string) : (s ++ "")%string = s.
Proof. induction s as [|c s IH]; [reflexivity|]. cbn. now rewrite IH. Qed.

Lemma strip_by_minus (sp : ascii -> bool) (s : string) :
  sp "-"%char = false ->
  (forall c, isdigit c = true -> sp c = false) ->
  all_digits s = true -> nonempty s = true ->
  strip_by sp (String "-" s) = String "-" s.
Proof.
  intros Hm Hsp H Hn. unfold strip_by. cbn [lstrip_by]. rewrite Hm.
  cbn [rstrip_by].
  pose proof (strip_by_all _ _ Hsp H) as Hs. unfold strip_by in Hs.
  assert (Hl : lstrip_by sp s = s).
  { destruct s as [|c r]; [reflexivity|]. pose proof H as H'.
    cbn [all_digits] in H'. apply andb_prop in H' as [Hc _].
    cbn. now rewrite (Hsp c Hc). }
  rewrite Hl in Hs. rewrite Hs. destruct s; [discriminate|reflexivity].
Qed.

Lemma parse_number_digits (s : string) :
  all_digits s = true -> nonempty s = true ->
  PyFloat.parse_number s = Some (PyFloat.digits_value 0 s, 0).
Proof.
  intros H Hn. unfold PyFloat.parse_number. rewrite (span_digits_all _ H).
  rewrite Hn. cbn [orb PyFloat.parse_exponent String.length]. rewrite append_empty.
  reflexivity.
Qed.

Lemma digits_are_no_word (s : string) :
  all_digits s = true -> nonempty s = true ->
  String.eqb (lower s) "inf" || String.eqb (lower s) "infinity" = false
  /\ String.eqb (lower s) "nan" = false.
Proof.
  intros H Hn. rewrite (lower_all _ H). destruct s as [|c r]; [discriminate|].
  cbn [all_digits] in H. apply andb_prop in H as [Hc _].
  destruct (digit_char c Hc) as (_ & _ & _ & _ & _ & _ & _ & Hi & Hnn).
  cbn. now rewrite Hi, Hnn.
Qed.

(** A non-empty string of digits, with or without a minus sign, read by
    [float]: the decimal it denotes, rounded. *)
Lemma of_string_digits (s : string) :
  all_digits s = true -> nonempty s = true ->
  PyFloat.of_string s
  = Ok (PyFloat.of_decimal false (PyFloat.digits_value 0 s) 0)
  /\ PyFloat.of_string (String "-" s)
     = Ok (PyFloat.of_decimal true (PyFloat.digits_value 0 s) 0).
Proof.
  intros H Hn.
  assert (Hfs : forall c, isdigit c = true -> PyFloat.is_float_space c = false)
    by (intros c Hc; now destruct (digit_char c Hc) as (_ & -> & _)).
  destruct (digits_are_no_word s H Hn) as [Hw1 Hw2].
  pose proof (parse_number_digits s H Hn) as Hp.
  split; unfold PyFloat.of_string.
  - rewrite (remove_underscores_all s zero H eq_refl).
    rewrite (strip_by_all _ _ Hfs H).
    unfold PyFloat.parse_float, PyFloat.split_sign.
    destruct s as [|c r]; [discriminate|].
    pose proof H as H'. cbn [all_digits] in H'. apply andb_prop in H' as [Hc _].
    destruct (digit_char c Hc) as (_ & _ & _ & _ & Hm & Hpl & _).
    now rewrite Hm, Hpl, Hw1, Hw2, Hp.
  - cbn [PyFloat.remove_underscores].
    replace (PyFloat.is_char "-" 95) with false by reflexivity.
    replace (PyFloat.is_char zero 95) with false by reflexivity. cbn [andb].
    rewrite (remove_underscores_all s "-" H eq_refl). cbn [option_map].
    rewrite (strip_by_minus _ _ eq_refl Hfs H Hn). unfold PyFloat.parse_float, PyFloat.split_sign.
    replace (PyFloat.is_char "-" 45) with true by reflexivity.
    now rewrite Hw1, Hw2, Hp.
Qed.

Lemma length_uint (d : Decimal.uint) :
  String.length (NilEmpty.string_of_uint d) = Decimal.nb_digits d.
Proof. induction d; cbn; auto. Qed.

Lemma hval_lower (d : Decimal.uint) (acc : Z) :
  0 <= acc -> acc * 10 ^ Z.of_nat (Decimal.nb_digits d) <= hval acc d.
Proof.
  revert acc. induction d; intros acc Hacc; cbn [hval Decimal.nb_digits];
    [rewrite Z.pow_0_r; lia| | | | | | | | | |];
    rewrite Nat2Z.inj_succ, Z.pow_succ_r by lia;
    (etransitivity; [|apply IHd; lia]);
    assert (0 <= 10 ^ Z.of_nat (Decimal.nb_digits d)) by (apply Z.pow_nonneg; lia);
    nia.
Qed.

(** The decimal numeral of a positive number starts with a digit that is
    not zero. *)
Lemma to_uint_head (p : positive) :
  match Pos.to_uint p with
  | Decimal.Nil | Decimal.D0 _ => False
  | _ => True
  end.
Proof.
  pose proof (DecimalPos.Unsigned.to_uint_nonzero p) as Hz.
  pose proof (DecimalPos.Unsigned.to_uint_nonnil p) as Hn.
  assert (E : Decimal.unorm (Pos.to_uint p) = Pos.to_uint p).
  { rewrite <- DecimalPos.Unsigned.to_of, DecimalPos.Unsigned.of_to. reflexivity. }
  unfold Decimal.unorm in E.
  destruct (Decimal.nzhead (Pos.to_uint p)) eqn:Hh;
    try (rewrite <- E; exact I).
  - congruence.
  - exfalso. now apply (DecimalFacts.nzhead_nonzero (Pos.to_uint p) u).
Qed.

Lemma digits_of_small (p : positive) :
  Zpos p < 10 ^ 309 ->
  Z.of_nat (String.length (NilEmpty.string_of_uint (Pos.to_uint p))) <= 309.
Proof.
  intros Hp. rewrite length_uint.
  pose proof (to_uint_head p) as Hh.
  pose proof (digits_value_to_uint p) as Hv. rewrite digits_value_uint in Hv.
  destruct (Z.le_gt_cases (Z.of_nat (Decimal.nb_digits (Pos.to_uint p))) 309)
    as [|Hbig]; [assumption|exfalso].
  destruct (Pos.to_uint p) as [|u|u|u|u|u|u|u|u|u|u]; try contradiction;
    cbn [hval Decimal.nb_digits] in Hv, Hbig;
    rewrite Nat2Z.inj_succ in Hbig;
    (assert (Hpow : 10 ^ 309 <= 10 ^ Z.of_nat (Decimal.nb_digits u))
       by (apply Z.pow_le_mono_r; lia));
    match type of Hv with
    | hval ?a u = _ => pose proof (hval_lower u a ltac:(lia)) as Hl
    end; nia.
Qed.

Lemma of_decimal_integer (s : bool) (p : positive) :
  Z.of_nat (String.length (PyString.of_Z (Zpos p))) <= 309 ->
  PyFloat.of_decimal s (Zpos p) 0 = binary_round PyFloat.prec PyFloat.emax s p 0.
Proof.
  intros Hd. unfold PyFloat.of_decimal.
  replace (Zpos p <=? 0) with false by (symmetry; apply Z.leb_gt; lia).
  replace (310 <=? 0 + Z.of_nat (String.length (PyString.of_Z (Zpos p))))
    with false by (symmetry; apply Z.leb_gt; lia).
  replace (0 + Z.of_nat (String.length (PyString.of_Z (Zpos p))) <=? -324)
    with false by (symmetry; apply Z.leb_gt; lia).
  replace (0 <=? 0) with true by reflexivity.
  rewrite Z.pow_0_r, Z.mul_1_r. reflexivity.
Qed.

Lemma to_float_VInt (z : Z) :
  Z.abs z < 10 ^ 309 -> to_float (VInt z) = float_of (VInt z).
Proof.
  intros Hz.
  assert (Hsp : forall c, isdigit c = true -> isspace c = false)
    by (intros c Hc; now destruct (digit_char c Hc) as (-> & _)).
  destruct z as [|p|p].
  - vm_compute. reflexivity.
  - set (su := NilEmpty.string_of_uint (Pos.to_uint p)).
    assert (Hstr : PyString.of_Z (Zpos p) = su).
    { unfold PyString.of_Z, su. cbn [Z.to_int NilZero.string_of_int].
      unfold NilZero.string_of_uint.
      pose proof (DecimalPos.Unsigned.to_uint_nonnil p).
      destruct (Pos.to_uint p); [contradiction|reflexivity..]. }
    assert (Hall : all_digits su = true) by apply all_digits_uint.
    assert (Hne : nonempty su = true).
    { unfold su. pose proof (DecimalPos.Unsigned.to_uint_nonnil p).
      destruct (Pos.to_uint p); [contradiction|reflexivity..]. }
    assert (Hlen : Z.of_nat (String.length (PyString.of_Z (Zpos p))) <= 309)
      by (rewrite Hstr; apply digits_of_small; exact Hz).
    unfold to_float, float_of. cbn [str repr]. rewrite Hstr.
    unfold strip. rewrite (strip_by_all _ _ Hsp Hall), Hne.
    destruct (digits_are_no_word su Hall Hne) as [_ ->]. cbn [negb orb].
    destruct (of_string_digits su Hall Hne) as [-> _].
    unfold su. rewrite digits_value_to_uint, (of_decimal_integer _ _ Hlen).
    reflexivity.
  - set (su := NilEmpty.string_of_uint (Pos.to_uint p)).
    assert (Hstr : PyString.of_Z (Zneg p) = String "-" su).
    { unfold PyString.of_Z, su. cbn [Z.to_int NilZero.string_of_int].
      unfold NilZero.string_of_uint.
      pose proof (DecimalPos.Unsigned.to_uint_nonnil p).
      destruct (Pos.to_uint p); [contradiction|reflexivity..]. }
    assert (Hpos : PyString.of_Z (Zpos p) = su).
    { unfold PyString.of_Z, su. cbn [Z.to_int NilZero.string_of_int].
      unfold NilZero.string_of_uint.
      pose proof (DecimalPos.Unsigned.to_uint_nonnil p).
      destruct (Pos.to_uint p); [contradiction|reflexivity..]. }
    assert (Hall : all_digits su = true) by apply all_digits_uint.
    assert (Hne : nonempty su = true).
    { unfold su. pose proof (DecimalPos.Unsigned.to_uint_nonnil p).
      destruct (Pos.to_uint p); [contradiction|reflexivity..]. }
    assert (Hlen : Z.of_nat (String.length (PyString.of_Z (Zpos p))) <= 309)
      by (rewrite Hpos; apply digits_of_small; exact Hz).
    unfold to_float, float_of. cbn [str repr]. rewrite Hstr.
    unfold strip. rewrite (strip_by_minus _ _ eq_refl Hsp Hall Hne).
    cbn [nonempty negb orb lower].
    replace (String.eqb (String (lower_char "-") (lower su)) "nan") with false
      by reflexivity.
    destruct (of_string_digits su Hall Hne) as [_ ->].
    unfold su. rewrite digits_value_to_uint, (of_decimal_integer _ _ Hlen).
    reflexivity.
Qed.

(** X22: for an integer below 10^309 in absolute value, going through its
    decimal string as [to_float] does gives what [float] gives on the
    integer itself: the float nearest to it, or nothing when that is beyond
    the range of the floats. *)
Theorem to_float_int_is_nearest_float (z : Z) :
  Z.abs z < 10 ^ 309 ->
  to_float (VInt z)
  = (if PyFloat.isfinite (PyFloat.of_Z z) then Some (PyFloat.of_Z z) else None).
Proof. intros Hz. now rewrite (to_float_VInt z Hz). Qed.

Lemma to_float_int_is_nearest_float_witness :
  Z.abs (-9007199254740993) < 10 ^ 309
  /\ to_float (VInt (-9007199254740993)) = Some (PyFloat.of_Z (-9007199254740992)).
Proof.
  assert (H : Z.abs (-9007199254740993) < 10 ^ 309) by (vm_compute; reflexivity).
  split; [exact H|].
  rewrite (to_float_int_is_nearest_float _ H). vm_compute. reflexivity.
Defined.

Lemma int_of_string_of_Z (z : Z) : int_of_string (PyString.of_Z z) = Ok z.
Proof.
  assert (Hsp : forall c, isdigit c = true -> isspace c = false)
    by (intros c Hc; now destruct (digit_char c Hc) as (-> & _)).
  destruct z as [|p|p]; [reflexivity| |];
    set (su := NilEmpty.string_of_uint (Pos.to_uint p));
    assert (Hall : all_digits su = true) by apply all_digits_uint;
    assert (Hne : nonempty su = true)
      by (unfold su; pose proof (DecimalPos.Unsigned.to_uint_nonnil p);
          destruct (Pos.to_uint p); [contradiction|reflexivity..]).
  - assert (Hstr : PyString.of_Z (Zpos p) = su).
    { unfold PyString.of_Z, su. cbn [Z.to_int NilZero.string_of_int].
      unfold NilZero.string_of_uint.
      pose proof (DecimalPos.Unsigned.to_uint_nonnil p).
      destruct (Pos.to_uint p); [contradiction|reflexivity..]. }
    unfold int_of_string. rewrite Hstr. unfold strip.
    rewrite (strip_by_all _ _ Hsp Hall).
    assert (Hsign : PyFloat.split_sign su = (false, su)).
    { destruct su as [|c r]; [discriminate|]. pose proof Hall as H'.
      cbn [all_digits] in H'. apply andb_prop in H' as [Hc _].
      destruct (digit_char c Hc) as (_ & _ & _ & _ & Hm & Hpl & _).
      unfold PyFloat.split_sign. now rewrite Hm, Hpl. }
    rewrite Hsign. cbv beta iota.
    rewrite (remove_underscores_all su zero Hall eq_refl).
    rewrite (span_digits_all _ Hall), Hne. cbn [nonempty negb andb].
    unfold su. now rewrite digits_value_to_uint.
  - assert (Hstr : PyString.of_Z (Zneg p) = String "-" su).
    { unfold PyString.of_Z, su. cbn [Z.to_int NilZero.string_of_int].
      unfold NilZero.string_of_uint.
      pose proof (DecimalPos.Unsigned.to_uint_nonnil p).
      destruct (Pos.to_uint p); [contradiction|reflexivity..]. }
    unfold int_of_string. rewrite Hstr. unfold strip.
    rewrite (strip_by_minus _ _ eq_refl Hsp Hall Hne).
    change (PyFloat.split_sign (String "-" su)) with (true, su). cbv beta iota.
    rewrite (remove_underscores_all su zero Hall eq_refl).
    rewrite (span_digits_all _ Hall), Hne. cbn [nonempty negb andb].
    unfold su. now rewrite digits_value_to_uint.
Qed.

(** X23: thresholds written in decimal in the environment are loaded as the
    integers they denote, zero and negative ones included: loading does not
    validate them. *)
Theorem thresholds_load_as_written (env : environ) (r c e i : Z) :
  env "RETENTION_DAYS" = Some (PyString.of_Z r) ->
  env "COMMIT_EVERY" = Some (PyString.of_Z c) ->
  env "CLEANUP_EVERY" = Some (PyString.of_Z e) ->
  env "CLEANUP_INTERVAL_SEC" = Some (PyString.of_Z i) ->
  exists cfg,
    load_config env = Ok cfg
    /\ RETENTION_DAYS cfg = r /\ COMMIT_EVERY cfg = c
    /\ CLEANUP_EVERY cfg = e /\ CLEANUP_INTERVAL_SEC cfg = i.
Proof.
  intros Hr Hc He Hi. unfold load_config, getenv.
  rewrite Hr, Hc, He, Hi, !int_of_string_of_Z. cbn [bind].
  eexists. split; [reflexivity|]. cbn. auto.
Qed.

Lemma thresholds_load_as_written_witness :
  exists cfg,
    load_config (env_of [("RETENTION_DAYS", "-7"); ("COMMIT_EVERY", "0");
                         ("CLEANUP_EVERY", "12"); ("CLEANUP_INTERVAL_SEC", "3600")])
    = Ok cfg
    /\ RETENTION_DAYS cfg = -7 /\ COMMIT_EVERY cfg = 0
    /\ CLEANUP_EVERY cfg = 12 /\ CLEANUP_INTERVAL_SEC cfg = 3600.
Proof.
  exact (thresholds_load_as_written
           (env_of [("RETENTION_DAYS", "-7"); ("COMMIT_EVERY", "0");
                    ("CLEANUP_EVERY", "12"); ("CLEANUP_INTERVAL_SEC", "3600")])
           (-7) 0 12 3600 eq_refl eq_refl eq_refl eq_refl).
Defined.

(** ** Rows of a bound sensor, and rows just written *)

(** X24: with the hard binding enabled and "dht22" or "bme280" configured
    as the indoor sensor, every row the server inserts for that sensor has
    the zone "indoor", stored as NULL when "indoor" is the default zone: the
    payload cannot override it. *)
Theorem bound_sensor_rows_are_indoor
  (cfg : config) (existing : list row) (rqs : list request) (r : row) :
  FORCE_ZONE_BY_SENSOR cfg = true ->
  In (INDOOR_SENSOR cfg) ["dht22"; "bme280"] ->
  In r (inserted_rows (trace (conn (serve cfg rqs (start existing))))) ->
  sensor r = INDOOR_SENSOR cfg ->
  zone r = if String.eqb "indoor" (DEFAULT_ZONE cfg) then None else Some "indoor".
Proof.
  intros HF HI Hin. revert r Hin.
  apply (serve_inserted cfg
           (fun r => sensor r = INDOOR_SENSOR cfg ->
                     zone r = if String.eqb "indoor" (DEFAULT_ZONE cfg)
                              then None else Some "indoor")).
  - intros f r Hr Hs.
    assert (Hz : forall sn, In sn ["dht22"; "bme280"] -> sn = INDOOR_SENSOR cfg ->
                   stored_zone cfg sn f
                   = if String.eqb "indoor" (DEFAULT_ZONE cfg)
                     then None else Some "indoor").
    { intros sn Hsn E. unfold stored_zone, resolve_zone. rewrite HF, <- E.
      destruct Hsn as [<-|[<-|[]]]; reflexivity. }
    destruct (in_group_rows _ _ _ Hr) as [[-> _]|[-> _]]; cbn in Hs |- *;
      apply Hz; cbn; auto.
  - intros r [].
Qed.

Lemma bound_sensor_rows_are_indoor_witness :
  let cfg := {| RETENTION_DAYS := 90; COMMIT_EVERY := 1; CLEANUP_EVERY := 400;
                CLEANUP_INTERVAL_SEC := 60; DEFAULT_ZONE := "outdoor";
                DEFAULT_SOURCE := "esp32"; INDOOR_SENSOR := "bme280";
                OUTDOOR_SENSOR := ""; FORCE_ZONE_BY_SENSOR := true |} in
  let rq := {| body := Ok (VDict [("t_bme", VInt 21); ("zone", VStr "outdoor")]);
               t_recv := clock_1700000000; t_maint := clock_1700000000 |} in
  let r := {| ts := 1700000000; sensor := "bme280"; zone := Some "indoor";
              temp := Some (PyFloat.of_Z 21); hum := None; press := None;
              source := None |} in
  In r (inserted_rows (trace (conn (serve cfg [rq] (start [])))))
  /\ zone r = Some "indoor".
Proof.
  cbv zeta.
  match goal with
  | |- In ?r (inserted_rows (trace (conn (serve ?cfg ?rqs _)))) /\ _ =>
      assert (Hin : In r (inserted_rows (trace (conn (serve cfg rqs (start []))))))
        by (vm_compute; left; reflexivity);
      pose proof (bound_sensor_rows_are_indoor cfg [] rqs r eq_refl
                    (or_intror (or_introl eq_refl)) Hin eq_refl) as H
  end.
  split; [exact Hin|exact H].
Defined.

Lemma do_POST_readings (cfg : config) (rq : request) (st : state) (f : fields) :
  extract cfg (body rq) (t_recv rq) = Ok f ->
  readings (conn (snd (do_POST cfg rq st))) = readings (conn st) ++ group_rows cfg f
  \/ exists n,
       PyFloat.to_Z (t_maint rq) = Ok n
       /\ readings (conn (snd (do_POST cfg rq st)))
          = filter (fun r => negb (older_than (cutoff_at cfg n) r))
              (readings (conn st) ++ group_rows cfg f).
Proof.
  intros Hx. destruct (group_rows cfg f) as [|r0 rs] eqn:Hrows.
  - left. rewrite (do_POST_no_row _ _ _ _ Hx Hrows). now rewrite app_nil_r.
  - assert (Hne : group_rows cfg f <> []) by (rewrite Hrows; discriminate).
    rewrite (do_POST_rows _ _ _ _ Hx Hne). rewrite <- Hrows.
    destruct (batched_conn cfg f st) as [Hr _].
    unfold retention_sweeper. destruct (sweep_due _ _ _); [|now left].
    destruct (PyFloat.to_Z (t_maint rq)) as [n|e]; cbn [bind snd]; [|now left].
    unfold bind_int.
    destruct (int64 (cutoff_at cfg n)); cbn [bind snd]; [|now left].
    right. exists n. split; [reflexivity|]. now rewrite sweep_readings, Hr.
Qed.

(** X25: when the seconds between the two clock readings of a request do
    not exceed the retention window, the rows the request inserts are still
    in the table when it ends, sweep or no sweep. *)
Theorem fresh_rows_survive_the_sweep
  (cfg : config) (rq : request) (st : state) (a b : Z) :
  PyFloat.to_Z (t_recv rq) = Ok a ->
  PyFloat.to_Z (t_maint rq) = Ok b ->
  b - a <= RETENTION_DAYS cfg * 86400 ->
  forall r, In r (inserted_rows (events_of cfg rq st)) ->
            In r (readings (conn (snd (do_POST cfg rq st)))).
Proof.
  intros Ha Hb Hwin r Hr. rewrite inserted_rows_step in Hr.
  destruct (extract cfg (body rq) (t_recv rq)) as [f|e] eqn:Hx; [|destruct Hr].
  assert (Hts : ts r = a).
  { pose proof (extract_ts _ _ _ _ Hx) as Ht. rewrite Ha in Ht. injection Ht as ->.
    destruct (in_group_rows _ _ _ Hr) as [[-> _]|[-> _]]; reflexivity. }
  destruct (do_POST_readings cfg rq st f Hx) as [->|(n & Hn & ->)].
  - apply in_or_app. now right.
  - rewrite Hb in Hn. injection Hn as <-.
    apply filter_In. split; [apply in_or_app; now right|].
    unfold older_than, cutoff_at. rewrite Hts.
    apply negb_true_iff, Z.ltb_ge. lia.
Qed.

Lemma fresh_rows_survive_the_sweep_witness :
  PyFloat.to_Z (t_recv bme_indoor_request) = Ok 1700000000
  /\ 1700000000 - 1700000000 <= RETENTION_DAYS default_config * 86400
  /\ In (bme_indoor_row None)
       (readings (conn (snd (do_POST default_config bme_indoor_request
                               almost_due_state)))).
Proof.
  assert (Ha : PyFloat.to_Z (t_recv bme_indoor_request) = Ok 1700000000)
    by reflexivity.
  assert (Hw : 1700000000 - 1700000000 <= RETENTION_DAYS default_config * 86400)
    by (cbn; lia).
  split; [exact Ha|]. split; [exact Hw|].
  apply (fresh_rows_survive_the_sweep default_config bme_indoor_request
           almost_due_state 1700000000 1700000000 Ha Ha Hw).
  vm_compute. left. reflexivity.
Defined.
